(** * The reference-citation pipeline of the search assistant

    A shallow embedding of [search_assistant/src/search_assistant.py]
    (class [SearchAssistant]), of [official_sites.py] and of
    [handle_user_input] in [search_assistant/streamlit/app.py].

    Conventions of the embedding.
    - A Python [str] is a [string]; its characters are the 8-bit code points.
      On that range the regular-expression class [\d] is exactly ['0'..'9']
      and the only characters that match a letter of the word "reference"
      under [re.IGNORECASE] are that letter and its upper-case form.
    - A Python [int] is a [Z]; [int] of a decimal string is refused beyond
      the 4300 digits that the interpreter allows.  A [list] is a [list]; a
      [set] of strings is a [gset string]; a [dict] with string keys is a
      [gmap string _].
    - Logging and printing are left out.
    - A method that may raise returns a [result]; a method that reads or
      writes [self], or calls an external collaborator, runs in the monad
      [M], which threads the object and the log of external calls and keeps
      the state reached when an exception is raised.  The methods that use
      the conversation memory, and the handler of the application, run in
      the same monad over a larger state, [SR]. *)

From Stdlib Require Import ZArith Ascii String.
From stdpp Require Import base option list gmap sets strings pretty.

Local Open Scope Z_scope.

(** ** Exceptions and results *)

Inductive exn : Type :=
  | ValueError (msg : string)
  | KeyError (key : string)
  | IndexError
  | TypeError
  | AttributeError (attr : string)
  | UnboundLocalError (var : string)
  | ExternalError (msg : string).

Inductive result (A : Type) : Type :=
  | Ok (a : A)
  | Raise (e : exn).
Arguments Ok {A} a.
Arguments Raise {A} e.

Global Instance result_ret : MRet result := λ A a, Ok a.

Global Instance result_bind : MBind result := λ A B k r,
  match r with
  | Ok a => k a
  | Raise e => Raise e
  end.

(** ** Python strings *)

Definition nl : string := String "010"%char "". (* "\n" *)

(** [sep.join(l)] *)
Fixpoint str_join (sep : string) (l : list string) : string :=
  match l with
  | [] => ""
  | [s] => s
  | s :: l' => s +:+ sep +:+ str_join sep l'
  end.

(** [sub in s] on strings: [sub] occurs in [s] at some offset. *)
Fixpoint str_in (sub s : string) : bool :=
  String.prefix sub s ||
  match s with
  | "" => false
  | String _ s' => str_in sub s'
  end.

(** [s.endswith(suffix)] *)
Fixpoint endswith (s suffix : string) : bool :=
  String.eqb s suffix ||
  match s with
  | "" => false
  | String _ s' => endswith s' suffix
  end.

(** [s.replace(old, new)] for a non-empty [old]: every occurrence, scanning
    from the left and resuming after each replaced occurrence.  [skip]
    counts the characters of an occurrence that are still to be dropped. *)
Fixpoint replace_go (old new : string) (skip : nat) (s : string) : string :=
  match s with
  | "" => ""
  | String c s' =>
      match skip with
      | S k => replace_go old new k s'
      | O =>
          if String.prefix old s
          then new +:+ replace_go old new (String.length old - 1) s'
          else String c (replace_go old new O s')
      end
  end.

Definition str_replace (s old new : string) : string := replace_go old new O s.

(** [l[i]] with Python's negative indices; [None] stands for IndexError. *)
Definition py_index {A : Type} (l : list A) (i : Z) : option A :=
  let n := Z.of_nat (length l) in
  if decide (0 ≤ i < n) then l !! Z.to_nat i
  else if decide (- n ≤ i < 0) then l !! Z.to_nat (n + i)
  else None.

(** [l[:k]] *)
Definition py_slice_to {A : Type} (l : list A) (k : Z) : list A :=
  if decide (0 ≤ k) then take (Z.to_nat k) l
  else take (Z.to_nat (Z.of_nat (length l) + k)) l.

(** ** The citation pattern

    [re.compile(r'\[reference: ?(\d+)\]|\[Reference: ?(\d+)\]', re.IGNORECASE)] *)

Definition is_upper (c : ascii) : bool :=
  (65 <=? nat_of_ascii c)%nat && (nat_of_ascii c <=? 90)%nat.

Definition lower (c : ascii) : ascii :=
  if is_upper c then ascii_of_nat (nat_of_ascii c + 32) else c.

(** Two characters that match each other under IGNORECASE. *)
Definition ci_eqb (a c : ascii) : bool := Ascii.eqb (lower a) (lower c).

Definition is_digit (c : ascii) : bool :=
  (48 <=? nat_of_ascii c)%nat && (nat_of_ascii c <=? 57)%nat.

(** Matches the literal [lit] at the start of [s], ignoring case; returns
    what follows it. *)
Fixpoint match_lit (lit s : string) : option string :=
  match lit with
  | "" => Some s
  | String a lit' =>
      match s with
      | "" => None
      | String c s' => if ci_eqb a c then match_lit lit' s' else None
      end
  end.

(** [ ?]: greedy, at most one space. *)
Definition skip_space (s : string) : string :=
  match s with
  | String c s' => if Ascii.eqb c " " then s' else s
  | "" => s
  end.

(** [\d*], greedy: the longest run of digits and what follows it. *)
Fixpoint take_digits (s : string) : string * string :=
  match s with
  | "" => ("", "")
  | String c s' =>
      if is_digit c
      then let '(ds, r) := take_digits s' in (String c ds, r)
      else ("", s)
  end.

(** One alternative [\[reference: ?(\d+)\]] at the start of [s]: the text of
    its group and what follows the match.  The greedy choices are the only
    ones that can succeed: a space left to [\d] fails, and a shorter run of
    digits is followed by a digit, not by the closing bracket. *)
Definition match_alt (lit s : string) : option (string * string) :=
  s1 ← match_lit lit s;
  let '(ds, s3) := take_digits (skip_space s1) in
  match ds, s3 with
  | String _ _, String c rest => if Ascii.eqb c "]" then Some (ds, rest) else None
  | _, _ => None
  end.

(** A match object: its two groups. *)
Record Match : Type := mkMatch {
  group1 : option string;
  group2 : option string
}.

(** The pattern at the start of [s]: the first alternative, else the second;
    the match and the text that follows it. *)
Definition pattern_match (s : string) : option (Match * string) :=
  match match_alt "[reference:" s with
  | Some (ds, rest) => Some (mkMatch (Some ds) None, rest)
  | None =>
      match match_alt "[Reference:" s with
      | Some (ds, rest) => Some (mkMatch None (Some ds), rest)
      | None => None
      end
  end.

(** [pattern.sub(repl, s)]: left to right, the leftmost match at each
    position is replaced by what the callback returns and the scan resumes
    after it.  The fuel bounds the number of steps; the length of the text
    is always enough. *)
Fixpoint re_sub_fuel (fuel : nat) (repl : Match → result string) (s : string)
  : result string :=
  match fuel, s with
  | _, "" => Ok ""
  | O, _ => Ok ""
  | S fuel', String c s' =>
      match pattern_match s with
      | Some (m, rest) =>
          r ← repl m;
          t ← re_sub_fuel fuel' repl rest;
          Ok (r +:+ t)
      | None =>
          t ← re_sub_fuel fuel' repl s';
          Ok (String c t)
      end
  end.

Definition re_sub (repl : Match → result string) (s : string) : result string :=
  re_sub_fuel (String.length s) repl s.

(** ** CitationFormatter: [parse_serp_analysis_output] *)

Definition digit_val (c : ascii) : Z := Z.of_nat (nat_of_ascii c) - 48.

(** The number that a string of decimal digits writes. *)
Definition int_of_digits (ds : string) : Z :=
  fold_left (λ acc c, 10 * acc + digit_val c) (list_ascii_of_string ds) 0.

(** [f'{n}'] for an int *)
Definition str_of_int (n : Z) : string := pretty n.

(** [sys.get_int_max_str_digits()], as the interpreter sets it. *)
Definition int_max_str_digits : nat := 4300.

Definition int_limit_message (ds : string) : string :=
  "Exceeds the limit (" +:+ str_of_int (Z.of_nat int_max_str_digits)
    +:+ " digits) for integer string conversion: value has "
    +:+ str_of_int (Z.of_nat (String.length ds))
    +:+ " digits; use sys.set_int_max_str_digits() to increase the limit".

(** [int(ds)] for a string of decimal digits: a string of more than
    [int_max_str_digits] digits, leading zeros counted, is refused. *)
Definition py_int (ds : string) : result Z :=
  if decide (String.length ds ≤ int_max_str_digits)%nat then Ok (int_of_digits ds)
  else Raise (ValueError (int_limit_message ds)).

(** [len(links)] and [links[i]] where [links] may be [None]. *)
Definition replace_reference (links : option (list string)) (m : Match)
  : result string :=
  match group1 m with
  | None => Raise TypeError (* int(None) *)
  | Some ds =>
      ref_num ← py_int ds;
      match links with
      | None => Raise TypeError (* len(None) *)
      | Some links =>
          if decide (ref_num ≤ Z.of_nat (length links)) then
            match py_index links (ref_num - 1) with
            | Some url =>
                Ok ("[<sup>" +:+ str_of_int ref_num +:+ "</sup>](" +:+ url +:+ ")")
            | None => Raise IndexError
            end
          else Ok ("[<sup>" +:+ str_of_int ref_num +:+ "</sup>](#)")
      end
  end.

Definition parse_serp_analysis_output_opt
    (answer : string) (links : option (list string)) : result string :=
  re_sub (replace_reference links) answer.

Definition parse_serp_analysis_output (answer : string) (links : list string)
  : result string :=
  parse_serp_analysis_output_opt answer (Some links).

(** ** Data of the assistant *)

(** A langchain document or chunk. *)
Record Document : Type := mkDocument {
  page_content : string;
  metadata : gmap string string
}.

(** One entry of [organic_results]; a field is [None] when the key is absent. *)
Record SearchResult : Type := mkSearchResult {
  title : option string;
  snippet : option string;
  link : option string
}.

(** The dictionary returned by the search API. *)
Record Response : Type := mkResponse {
  knowledge_graph : option string;
  organic_results : option (list SearchResult)
}.

Record Params : Type := mkParams {
  param_q : string;
  param_num : Z;
  param_engine : string;
  param_api_key : option string
}.

(** The six components of [urllib.parse.urlparse]. *)
Record ParseResult : Type := mkParseResult {
  scheme : string;
  netloc : string;
  path : string;
  params : string;
  query : string;
  fragment : string
}.

(** [result] of the retrieval chain. *)
Record RetrievalResult : Type := mkRetrievalResult {
  answer : string;
  source_documents : list Document
}.

(** Calls on the vector database collaborator. *)
Inductive VdbCall : Type :=
  | load_vdb (persist_directory : string) (db_type : string)
  | update_vdb (chunks : list Document) (db_type : string)
      (directories : list (option string))
  | create_vector_store (chunks : list Document) (db_type : string)
      (persist_directory : option string).

(** Calls that leave the process. *)
Inductive Event : Type :=
  | EvSearch (p : Params)
  | EvLLM (prompt : string)
  | EvLoadHtml (url : string)
  | EvLoadPdf (url : string)
  | EvLoadEmbeddingModel
  | EvVdb (c : VdbCall)
  | EvSetRetrievalQaChain (conversational : bool).

(** The fields of [self] that the modelled methods read or write. *)
Record SearchAssistant : Type := mkSearchAssistant {
  config_persist_directory : option string;
  config_update : bool;
  excluded_links_config : list string;
  max_scraped_websites : Z;
  extra_loaders : list string;
  chunk_size : Z;
  chunk_overlap : Z;
  db_type : string;
  prod_mode : bool;
  documents : option (list Document);
  urls : option (list string);
  vector_store : option VdbCall
}.

Definition set_documents (docs : list Document) (a : SearchAssistant) : SearchAssistant :=
  mkSearchAssistant (config_persist_directory a) (config_update a)
    (excluded_links_config a) (max_scraped_websites a) (extra_loaders a)
    (chunk_size a) (chunk_overlap a) (db_type a) (prod_mode a)
    (Some docs) (urls a) (vector_store a).

Definition set_urls (us : list string) (a : SearchAssistant) : SearchAssistant :=
  mkSearchAssistant (config_persist_directory a) (config_update a)
    (excluded_links_config a) (max_scraped_websites a) (extra_loaders a)
    (chunk_size a) (chunk_overlap a) (db_type a) (prod_mode a)
    (documents a) (Some us) (vector_store a).

Definition set_vector_store (v : VdbCall) (a : SearchAssistant) : SearchAssistant :=
  mkSearchAssistant (config_persist_directory a) (config_update a)
    (excluded_links_config a) (max_scraped_websites a) (extra_loaders a)
    (chunk_size a) (chunk_overlap a) (db_type a) (prod_mode a)
    (documents a) (urls a) (Some v).

Definition set_config_update (b : bool) (a : SearchAssistant) : SearchAssistant :=
  mkSearchAssistant (config_persist_directory a) b
    (excluded_links_config a) (max_scraped_websites a) (extra_loaders a)
    (chunk_size a) (chunk_overlap a) (db_type a) (prod_mode a)
    (documents a) (urls a) (vector_store a).

(** ** The monad of methods *)

Record State : Type := mkState {
  obj : SearchAssistant;
  log : list Event
}.

Definition M (A : Type) : Type := State → result A * State.

Global Instance M_ret : MRet M := λ A a st, (Ok a, st).

Global Instance M_bind : MBind M := λ A B k m st,
  match m st with
  | (Ok a, st') => k a st'
  | (Raise e, st') => (Raise e, st')
  end.

Definition raise {A : Type} (e : exn) : M A := λ st, (Raise e, st).

Definition lift {A : Type} (r : result A) : M A := λ st, (r, st).

Definition get_self : M SearchAssistant := λ st, (Ok (obj st), st).

Definition modify_self (f : SearchAssistant → SearchAssistant) : M unit :=
  λ st, (Ok (), mkState (f (obj st)) (log st)).

Definition emit (e : Event) : M unit :=
  λ st, (Ok (), mkState (obj st) (log st ++ [e])).

(** [try: body except Exception as e: handler] *)
Definition try_except {A : Type} (body : M A) (handler : exn → M A) : M A :=
  λ st,
    match body st with
    | (Ok a, st') => (Ok a, st')
    | (Raise e, st') => handler e st'
    end.

(** ** [official_sites.py] *)

Definition OFFICIAL_SITES : list string := [
  "support.microsoft.com"; "support.apple.com"; "support.lenovo.com";
  "support.hp.com"; "dell.com/support"; "acer.com/support";
  "asus.com/support"; "support.intel.com"; "nvidia.com/support";
  "techspot.com"; "tomshardware.com"; "bleepingcomputer.com";
  "majorgeeks.com"; "howtogeek.com"; "digitaltrends.com";
  "techrepublic.com"; "pcmag.com"; "computerworld.com"; "makeuseof.com";
  "lifewire.com";
  "superuser.com"; "stackoverflow.com"; "askubuntu.com"; "tenforums.com";
  "windowsreport.com"; "sevenforums.com"; "linux.org";
  "reddit.com/r/techsupport";
  "techradar.com"; "theverge.com"; "techcommunity.microsoft.com";
  "recoverit.wondershare.com"
].

(** ** Reference numbers of sites and chunks *)

(** [{site: i + 1 for i, site in enumerate(sites)}], from index [i] on. *)
Fixpoint enumerate_from (i : Z) (sites : list string) (acc : gmap string Z)
  : gmap string Z :=
  match sites with
  | [] => acc
  | site :: sites' => enumerate_from (i + 1) sites' (<[site := i + 1]> acc)
  end.

(** The body of the loop [for chunk in chunks]; [chunk_contains chunk key]
    stands for [key in chunk]. *)
Definition add_reference (chunk_contains : Document → string → bool)
    (sources : gmap string Z) (chunk : Document) : Document :=
  if chunk_contains chunk "metadata" then
    match metadata chunk !! "source" with
    | Some reference =>
        match sources !! reference with
        | Some n =>
            mkDocument ("[reference:" +:+ str_of_int n +:+ "] "
                          +:+ page_content chunk +:+ nl +:+ nl)
                       (metadata chunk)
        | None =>
            mkDocument ("[reference:unknown] " +:+ page_content chunk +:+ nl +:+ nl)
                       (metadata chunk)
        end
    | None =>
        mkDocument ("[reference:unknown] " +:+ page_content chunk +:+ nl +:+ nl)
                   (metadata chunk)
    end
  else
    mkDocument ("[reference:unknown] " +:+ page_content chunk +:+ nl +:+ nl)
               (metadata chunk).

(** ** [remove_links]

    [re.sub(r'https?://\S+|www\.\S+', '', text)] *)

(** [\s] on the 8-bit code points: the characters that [str.isspace]
    accepts. *)
Definition is_whitespace (c : ascii) : bool :=
  let n := nat_of_ascii c in
  ((9 <=? n) && (n <=? 13) || (28 <=? n) && (n <=? 32)
   || (n =? 133) || (n =? 160))%nat.

(** Matches the literal [lit] at the start of [s]; returns what follows. *)
Fixpoint match_exact (lit s : string) : option string :=
  match lit with
  | "" => Some s
  | String a lit' =>
      match s with
      | "" => None
      | String c s' => if Ascii.eqb a c then match_exact lit' s' else None
      end
  end.

(** [\S*], greedy: the longest run without whitespace and what follows. *)
Fixpoint take_nonspace (s : string) : string * string :=
  match s with
  | "" => ("", "")
  | String c s' =>
      if is_whitespace c then ("", s)
      else let '(w, r) := take_nonspace s' in (String c w, r)
  end.

(** [\S+] at the start of [s]: what follows the run. *)
Definition match_nonspace (s : string) : option string :=
  match take_nonspace s with
  | (String _ _, rest) => Some rest
  | _ => None
  end.

(** [s?]: greedy; leaving an [s] to the next literal cannot succeed. *)
Definition skip_s (s : string) : string :=
  match s with
  | String c s' => if Ascii.eqb c "s" then s' else s
  | "" => s
  end.

(** The pattern at the start of [s]: what follows the match. *)
Definition url_match (s : string) : option string :=
  match (s1 ← match_exact "http" s;
         s2 ← match_exact "://" (skip_s s1);
         match_nonspace s2) with
  | Some rest => Some rest
  | None => s1 ← match_exact "www." s; match_nonspace s1
  end.

(** [pattern.sub('', text)]; the fuel bounds the number of steps and the
    length of the text is always enough. *)
Fixpoint remove_links_fuel (fuel : nat) (text : string) : string :=
  match fuel, text with
  | _, "" => ""
  | O, _ => ""
  | S fuel', String c text' =>
      match url_match text with
      | Some rest => remove_links_fuel fuel' rest
      | None => String c (remove_links_fuel fuel' text')
      end
  end.

Definition remove_links (text : string) : string :=
  remove_links_fuel (String.length text) text.

(** The pattern matches at some offset of the text. *)
Fixpoint has_url (t : string) : bool :=
  match url_match t with
  | Some _ => true
  | None =>
      match t with
      | "" => false
      | String _ t' => has_url t'
      end
  end.

Fixpoint all_nonspace (s : string) : bool :=
  match s with
  | "" => true
  | String c s' => negb (is_whitespace c) && all_nonspace s'
  end.

(** ** The sources of a turn in [streamlit/app.py] *)

Definition dquote : string := String "034"%char "".

(** [f'<font size="2" color="grey">{s}</font>'] *)
Definition font_grey (s : string) : string :=
  "<font size=" +:+ dquote +:+ "2" +:+ dquote +:+ " color=" +:+ dquote
    +:+ "grey" +:+ dquote +:+ ">" +:+ s +:+ "</font>".

(** The loop [for index, source in enumerate(sources, start=1)] of
    [handle_user_input], from [index] on; [sources] in the order in which
    the set is iterated. *)
Fixpoint sources_text_from (index : Z) (sources : list string) : string :=
  match sources with
  | [] => ""
  | source :: sources' =>
      (font_grey (str_of_int index +:+ ". " +:+ source) +:+ "  " +:+ nl)
        +:+ sources_text_from (index + 1) sources'
  end.

Definition sources_text (sources : list string) : string :=
  sources_text_from 1 sources.

(** [s.split(sep)] for a separator of one character. *)
Fixpoint py_split (sep : ascii) (s : string) : list string :=
  match s with
  | "" => [""]
  | String c s' =>
      if Ascii.eqb c sep then "" :: py_split sep s'
      else
        match py_split sep s' with
        | cur :: fields => String c cur :: fields
        | [] => [String c ""]
        end
  end.

(** [source.split('\n')[:-1]] *)
Definition sources_lines (source : string) : list string :=
  py_slice_to (py_split "010" source) (-1).

(** The loop [for j in range(len(columns))] of row [i], with its [break];
    the cells that are written, left to right. *)
Fixpoint row_cells (lines : list string) (i : nat) (js : list nat) : list string :=
  match js with
  | [] => []
  | j :: js' =>
      if decide (length lines ≤ i * 3 + j)%nat then []
      else font_grey (default "" (lines !! (i * 3 + j)%nat)) :: row_cells lines i js'
  end.

(** The loop [for i in range(len(sources_lines) // 3 + 1)]: one row of three
    columns per [i]. *)
Definition sources_grid (lines : list string) : list (list string) :=
  (λ i, row_cells lines i [0; 1; 2]%nat) <$> seq 0 (length lines `div` 3 + 1).

(** [l[::2]]; [l[1::2]] is [py_even_items (tail l)]. *)
Fixpoint py_even_items {A : Type} (l : list A) : list A :=
  match l with
  | [] => []
  | x :: l' =>
      x :: match l' with
           | [] => []
           | _ :: l'' => py_even_items l''
           end
  end.

(** [zip(a, b, c, d)] *)
Fixpoint zip4 {A B C D : Type} (a : list A) (b : list B) (c : list C) (d : list D)
  : list (A * B * C * D) :=
  match a, b, c, d with
  | x :: a', y :: b', z :: c', w :: d' => (x, y, z, w) :: zip4 a' b' c' d'
  | _, _, _, _ => []
  end.

(** [f'{x}'] for a value that is a string or [None]. *)
Definition py_str (x : option string) : string := default "None" x.

(** ** The conversation memory and the session of [streamlit/app.py] *)

(** The assistant together with [self.memory], which the methods of the
    crawl and of the vector store do not touch: [None] until [init_memory],
    then the contexts that [save_context] was given, in order. *)
Record Conversation : Type := mkConversation {
  assistant : State;
  memory : option (list (string * string))
}.

(** The fields of [st.session_state] that [handle_user_input] reads or
    writes; [tool] is the list that [main] stores before it enables the
    input. *)
Record Session : Type := mkSession {
  search_assistant : Conversation;
  chat_history : list string;
  sources_history : list string;
  related_queries_history : list (list string);
  method : string;
  session_query : option string;
  tool : list string;
  session_max_results : Z;
  session_search_engine : string
}.

Definition set_search_assistant (c : Conversation) (s : Session) : Session :=
  mkSession c (chat_history s) (sources_history s) (related_queries_history s)
    (method s) (session_query s) (tool s) (session_max_results s)
    (session_search_engine s).

Definition set_chat_history (h : list string) (s : Session) : Session :=
  mkSession (search_assistant s) h (sources_history s) (related_queries_history s)
    (method s) (session_query s) (tool s) (session_max_results s)
    (session_search_engine s).

Definition set_sources_history (h : list string) (s : Session) : Session :=
  mkSession (search_assistant s) (chat_history s) h (related_queries_history s)
    (method s) (session_query s) (tool s) (session_max_results s)
    (session_search_engine s).

Definition set_related_queries_history (h : list (list string)) (s : Session)
  : Session :=
  mkSession (search_assistant s) (chat_history s) (sources_history s) h
    (method s) (session_query s) (tool s) (session_max_results s)
    (session_search_engine s).

(** The monad of methods, over the conversation and over the session. *)
Definition SR (S A : Type) : Type := S → result A * S.

Global Instance SR_ret {S : Type} : MRet (SR S) | 100 := λ A a s, (Ok a, s).

Global Instance SR_bind {S : Type} : MBind (SR S) | 100 := λ A B k m s,
  match m s with
  | (Ok a, s') => k a s'
  | (Raise e, s') => (Raise e, s')
  end.

Definition sr_raise {S A : Type} (e : exn) : SR S A := λ s, (Raise e, s).

Definition sr_lift {S A : Type} (r : result A) : SR S A := λ s, (r, s).

Definition sr_get {S : Type} : SR S S := λ s, (Ok s, s).

Definition sr_modify {S : Type} (f : S → S) : SR S unit := λ s, (Ok (), f s).

(** A method of the crawl or of the search, called on the assistant of the
    conversation. *)
Definition on_assistant {A : Type} (m : M A) : SR Conversation A := λ c,
  match m (assistant c) with
  | (r, st') => (r, mkConversation st' (memory c))
  end.

(** A method of the assistant, called on [st.session_state.search_assistant]. *)
Definition on_search_assistant {A : Type} (m : SR Conversation A) : SR Session A :=
  λ s,
    match m (search_assistant s) with
    | (r, c') => (r, set_search_assistant c' s)
    end.

(** The turns that the loop over
    [zip(chat_history[::2], chat_history[1::2], sources_history,
    related_queries_history)] displays: question, answer, sources text and
    related queries of each. *)
Definition displayed_turns (s : Session)
  : list (string * string * string * list string) :=
  zip4 (py_even_items (chat_history s)) (py_even_items (tail (chat_history s)))
       (sources_history s) (related_queries_history s).

(** ** Sample collaborators, used to run the model on concrete inputs *)

(** A URL splitter for inputs of the shape [scheme://host/path]: enough of
    [urlparse] for the examples below. *)
Fixpoint split_at (c : ascii) (s : string) : string * string :=
  match s with
  | "" => ("", "")
  | String a s' =>
      if Ascii.eqb a c then ("", s)
      else let '(h, t) := split_at c s' in (String a h, t)
  end.

Definition sample_urlparse (u : string) : ParseResult :=
  match split_at ":" u with
  | (sch, String ":" (String "/" (String "/" r))) =>
      let '(host, p) := split_at "/" r in mkParseResult sch host p "" "" ""
  | _ => mkParseResult "" "" u "" "" ""
  end.

Definition sample_assistant : SearchAssistant :=
  mkSearchAssistant None false [] 20 [] 1200 240 "chroma" false None None None.

Definition sample_state : State := mkState sample_assistant [].

Definition sample_results : list SearchResult := [
  mkSearchResult (Some "Battery") (Some "drains fast") (Some "L1");
  mkSearchResult None (Some "charger") (Some "L2");
  mkSearchResult (Some "Sleep") None (Some "L3")
].

Definition sample_response : Response := mkResponse None (Some sample_results).

Definition sample_search (p : Params) : result Response := Ok sample_response.

Definition failing_search (p : Params) : result Response :=
  Raise (ExternalError "connection reset").

Definition empty_search (p : Params) : result Response := Ok (mkResponse None (Some [])).

(** A search whose only hit is an image. *)
Definition image_search (p : Params) : result Response :=
  Ok (mkResponse None
        (Some [mkSearchResult (Some "Logo") (Some "picture") (Some "https://h.org/logo.png")])).

Definition sample_prompt (question context : string) : string :=
  question +:+ nl +:+ context.

Definition sample_llm (prompt : string) : result string := Ok "No information.".

Definition sample_load (url : string) : list Document :=
  [mkDocument url {[ "source" := url ]}].

Definition sample_html2text (docs : list Document) : list Document := docs.

Definition sample_split (size overlap : Z) (docs : list Document) : list Document := docs.

(** The membership test of the chunks of the splitter: their class defines
    none of its own, so [key in chunk] iterates the chunk, which yields
    pairs of a field name and a value, and no string is equal to a pair. *)
Definition sample_contains (chunk : Document) (key : string) : bool := false.

Definition no_path (p : string) : bool := false.

Definition sample_set_to_list (s : gset string) : list string := elements s.

(** An assistant after a crawl of three sites. *)
Definition crawled_urls : list string :=
  ["https://a.org/x"; "https://b.org/y"; "https://c.org/z"].

Definition crawled_assistant : SearchAssistant :=
  set_urls crawled_urls
    (set_documents (concat (sample_load <$> crawled_urls)) sample_assistant).

Definition crawled_state : State := mkState crawled_assistant [].

(** An answer that cites the first site, retrieved from the other two. *)
Definition retrieval_of_two : RetrievalResult :=
  mkRetrievalResult "See [reference:1] and [reference:3]."
    (sample_load "https://b.org/y" ++ sample_load "https://c.org/z").

(** An answer that cites retrieved sites only. *)
Definition retrieval_cited : RetrievalResult :=
  mkRetrievalResult "See [reference:2] and [reference:3]."
    (sample_load "https://b.org/y" ++ sample_load "https://c.org/z").

(** The chunks of the crawled sample, tagged. *)
Definition crawled_chunks : list Document :=
  add_reference sample_contains (enumerate_from 0 crawled_urls ∅)
    <$> concat (sample_load <$> crawled_urls).

Definition sample_chunks : list Document := [
  mkDocument "alpha" {[ "source" := "https://b.org/y" ]};
  mkDocument "beta" ∅;
  mkDocument "gamma" {[ "source" := "elsewhere" ]}
].

(** A model that cites the second result. *)
Definition citing_llm (prompt : string) : result string :=
  Ok "Use the charger, see [reference:2] for details.".

(** A loader of remote PDF files. *)
Definition sample_pdf_load (url : string) : list Document :=
  [mkDocument "pdf" {[ "source" := url ]}].

(** Fetches that return the sample pages, and a site that cannot be
    reached. *)
Definition sample_fetch (url : string) : result (list Document) :=
  Ok (sample_load url).

Definition sample_pdf_fetch (url : string) : result (list Document) :=
  Ok (sample_pdf_load url).

Definition unreachable_fetch (url : string) : result (list Document) :=
  if String.eqb url "https://down.org/p" then Raise (ExternalError "timeout")
  else Ok (sample_load url).

(** A number of 4301 digits. *)
Definition long_number : string := string_of_list_ascii (repeat "9"%char 4301).

(** A search with a result that carries no link, and one whose title cites
    a reference. *)
Definition linkless_search (p : Params) : result Response :=
  Ok (mkResponse None
        (Some [mkSearchResult (Some "Battery") (Some "drains fast") (Some "L1");
               mkSearchResult (Some "Charger") (Some "is slow") None])).

Definition cited_search (p : Params) : result Response :=
  Ok (mkResponse None
        (Some [mkSearchResult (Some "See [reference:7]") (Some "drains fast")
                 (Some "L1")])).

(** A file system on which every path exists. *)
Definition every_path (p : string) : bool := true.

(** Links of a search: an image, a page of an excluded site, and a page that
    is listed twice. *)
Definition found_links : list string :=
  ["https://good.org/p"; "https://h.org/logo.png"; "https://bad.com/a/b";
   "https://good.org/p"].

(** An answer without citation. *)
Definition retrieval_plain : RetrievalResult :=
  mkRetrievalResult "No citation here." (sample_load "https://b.org/y").

(** A memory whose history is the number of saved contexts, and whose
    summaries succeed. *)
Definition sample_memory_variables (saved : list (string * string)) : string :=
  str_of_int (Z.of_nat (length saved)) +:+ " turns".

Definition sample_memory_save (saved : list (string * string)) : result unit := Ok ().

Definition sample_condensed_prompt (history question : string) : string :=
  history +:+ nl +:+ question.

Definition sample_related_chain (query : string) : result (option (list string)) :=
  Ok (Some ["How to charge?"]).

Definition sample_qa_chain (query : string) : SR Conversation RetrievalResult :=
  λ c, (Ok retrieval_cited, c).

(** A session in which nothing was asked yet, and one whose method is
    unknown. *)
Definition sample_session : Session :=
  mkSession (mkConversation sample_state None) [] [] []
    "basic_query" None ["serpapi"] 3 "google".

Definition other_session : Session :=
  mkSession (mkConversation sample_state None) [] [] []
    "summary" None ["serpapi"] 3 "google".

(** A session after one turn. *)
Definition sample_turn : string * string * string * list string :=
  ("battery", "No information.", sources_text ["L1"], ["How to charge?"]).

Definition session_of_one_turn : Session :=
  mkSession (mkConversation sample_state None)
    ["battery"; "No information."] [sources_text ["L1"]] [["How to charge?"]]
    "basic_query" None ["serpapi"] 3 "google".

(** ** The methods of [SearchAssistant] *)

Section SearchAssistant.

(** External collaborators. *)

(** [GoogleSearch(params).get_dict()] *)
Variable serpapi_get_dict : Params → result Response.
(** [st.session_state.SERPAPI_API_KEY], [None] when the attribute is unset,
    and [os.environ.get('SERPAPI_API_KEY')] *)
Variable session_serpapi_key : option string.
Variable environ_serpapi_key : option string.
(** [load_prompt('prompts/llama3-serp_analysis.yaml').format(question, context)] *)
Variable serp_analysis_prompt : string → string → string.
(** [self.llm.invoke] *)
Variable llm_invoke : string → result string.
(** [urllib.parse.urlparse] *)
Variable urlparse : string → ParseResult.
(** The order in which a set of strings is iterated. *)
Variable set_to_list : gset string → list string.
Hypothesis set_to_list_perm : ∀ s, set_to_list s ≡ₚ elements s.
(** [AsyncHtmlLoader(url, verify_ssl=False).load()] and
    [UnstructuredURLLoader(urls=[url]).load()], which fetch and may raise,
    and [Html2TextTransformer().transform_documents] *)
Variable async_html_load : string → result (list Document).
Variable unstructured_url_load : string → result (list Document).
Variable html2text : list Document → list Document.
(** [RecursiveCharacterTextSplitter(chunk_size, chunk_overlap).split_documents] *)
Variable split_documents : Z → Z → list Document → list Document.
(** [key in chunk], the membership test of the class of the chunks *)
Variable chunk_contains : Document → string → bool.
(** [os.path.exists] *)
Variable os_path_exists : string → bool.

(** *** SearchRestrictor *)

Definition restrict_to_official_sites (query : string) (official_sites : list string)
  : string :=
  let site_restrictions :=
    str_join " OR " ((λ site, "site:" +:+ site) <$> official_sites) in
  query +:+ " (" +:+ site_restrictions +:+ ")".

(** *** SearchClient and the context of [querySerpapi] *)

(** The loop [for i, result in enumerate(results): context.append(...)],
    from index [i] on. *)
Fixpoint context_entries (i : Z) (results : list SearchResult) : list string :=
  match results with
  | [] => []
  | r :: results' =>
      ("[reference:" +:+ str_of_int (i + 1) +:+ "] " +:+ default "" (title r)
         +:+ ": " +:+ default "" (snippet r))
      :: context_entries (i + 1) results'
  end.

(** [[r['link'] for r in results]] *)
Fixpoint result_links (results : list SearchResult) : result (list string) :=
  match results with
  | [] => Ok []
  | r :: results' =>
      match link r with
      | None => Raise (KeyError "link")
      | Some l => ls ← result_links results'; Ok (l :: ls)
      end
  end.

(** What the [try] block computes from the results of the response. *)
Definition format_context (results : list SearchResult)
  : result (string * list string) :=
  if decide (0 < Z.of_nat (length results)) then
    links ← result_links results;
    let context := context_entries 0 results in
    Ok (str_join (nl +:+ nl) context, links)
  else Ok ("Answer not found", []).

(** [st.session_state.SERPAPI_API_KEY if self.prod_mode else
    os.environ.get('SERPAPI_API_KEY')] *)
Definition lookup_serpapi_key (self : SearchAssistant) : result (option string) :=
  if prod_mode self then
    match session_serpapi_key with
    | Some k => Ok (Some k)
    | None => Raise (AttributeError "SERPAPI_API_KEY")
    end
  else Ok environ_serpapi_key.

(** [querySerpapi] up to the end of the [try] statement: the context and
    the links. *)
Definition serpapi_context (query : string) (limit : Z) (engine : string)
  : M (string * list string) :=
  let restricted_query := restrict_to_official_sites query OFFICIAL_SITES in
  if bool_decide (engine ∉ ["google"; "bing"]) then
    raise (ValueError "engine must be either google or bing")
  else
    self ← get_self;
    api_key ← lift (lookup_serpapi_key self);
    let params := mkParams restricted_query limit engine api_key in
    try_except
      (_ ← emit (EvSearch params);
       response ← lift (serpapi_get_dict params);
       let results := default [] (organic_results response) in
       lift (format_context results))
      (λ e, mret ("Answer not found", [])).

Definition querySerpapi (query : string) (limit : Z) (do_analysis : bool)
    (engine : string) : M (string * list string) :=
  '(context, links) ← serpapi_context query limit engine;
  if do_analysis then
    let formatted_prompt := serp_analysis_prompt query context in
    _ ← emit (EvLLM formatted_prompt);
    answer ← lift (llm_invoke formatted_prompt);
    parsed ← lift (parse_serp_analysis_output answer links);
    mret (parsed, links)
  else mret (context, links).

(** *** LinkFilter *)

Definition link_filter (all_links : list string) (excluded_links : list string)
  : gset string :=
  let clean_excluded_links :=
    foldl (λ (acc : gset string) excluded_link,
             let parsed_link := urlparse excluded_link in
             acc ∪ {[ netloc parsed_link +:+ path parsed_link ]})
          ∅ excluded_links in
  foldl (λ (filtered_links : gset string) link,
           if negb (existsb (λ excluded_link, str_in excluded_link link)
                            (set_to_list clean_excluded_links))
           then filtered_links ∪ {[ link ]}
           else filtered_links)
        ∅ all_links.

(** *** Crawling *)

Definition no_sites_to_scrape : string :=
  "not sites to scrape after filtering links, check the excluded_links config or increase Max number of results to retrieve".

Definition excluded_link_suffixes : list string :=
  [".ico"; ".svg"; ".jpg"; ".png"; ".jpeg"; "."; ".docx"; ".xls"; ".xlsx"].

Fixpoint load_htmls (us : list string) (loaders : list string) : M (list Document) :=
  match us with
  | [] => mret []
  | url :: us' =>
      if endswith url ".pdf" then
        if bool_decide ("pdf" ∈ loaders) then
          _ ← emit (EvLoadPdf url);
          loaded ← lift (unstructured_url_load url);
          docs ← load_htmls us' loaders;
          mret (loaded ++ docs)
        else load_htmls us' loaders
      else
        _ ← emit (EvLoadHtml url);
        loaded ← lift (async_html_load url);
        docs ← load_htmls us' loaders;
        mret (loaded ++ docs)
  end.

Definition clean_docs (docs : list Document) : list Document := html2text docs.

Definition web_crawl (us : list string) (excluded_links : option (list string))
  : M unit :=
  self ← get_self;
  let excluded_links := default [] excluded_links ++ excluded_links_config self in
  let us :=
    filter (λ url, ¬ existsb (endswith url) excluded_link_suffixes) us in
  let us := link_filter us (set_to_list (list_to_set excluded_links)) in
  if decide (size us = 0%nat) then
    raise (ValueError no_sites_to_scrape)
  else
    let us := py_slice_to (set_to_list us) (max_scraped_websites self) in
    scraped_docs ← load_htmls us (extra_loaders self);
    let scrapped_urls := [] ++ us in
    let docs := clean_docs scraped_docs in
    _ ← modify_self (set_documents docs);
    modify_self (set_urls scrapped_urls).

(** *** DocumentChunker *)

Definition get_text_chunks_with_references
    (docs : option (list Document)) (size overlap : Z) : M (list Document) :=
  self ← get_self;
  match urls self with
  | None => raise TypeError (* enumerate(None) *)
  | Some us =>
      let sources := enumerate_from 0 us ∅ in
      match docs with
      | None => raise TypeError (* split_documents(None) *)
      | Some docs =>
          let chunks := split_documents size overlap docs in
          mret (add_reference chunk_contains sources <$> chunks)
      end
  end.

(** *** VectorIndexManager *)

Definition load_embedding_model : M unit := emit EvLoadEmbeddingModel.

(** A call on [self.vectordb] whose result is stored in [self.vector_store]. *)
Definition call_vectordb (c : VdbCall) : M unit :=
  _ ← emit (EvVdb c);
  modify_self (set_vector_store c).

Definition create_load_vector_store (force_reload update : bool) : M unit :=
  self ← get_self;
  let persist_directory := default "NoneDirectory" (config_persist_directory self) in
  _ ← load_embedding_model;
  if os_path_exists persist_directory && negb force_reload && negb update then
    call_vectordb (load_vdb persist_directory (db_type self))
  else if os_path_exists persist_directory && update then
    chunks_with_references ←
      get_text_chunks_with_references (documents self) (chunk_size self) (chunk_overlap self);
    _ ← call_vectordb (load_vdb persist_directory (db_type self));
    call_vectordb
      (update_vdb chunks_with_references (db_type self) [Some persist_directory])
  else
    chunks_with_references ←
      get_text_chunks_with_references (documents self) (chunk_size self) (chunk_overlap self);
    call_vectordb
      (create_vector_store chunks_with_references (db_type self) (Some persist_directory)).

(** [a or b] on an optional string *)
Definition str_or (a : option string) (b : string) : string :=
  match a with
  | Some (String c s) => String c s
  | _ => b
  end.

Definition create_and_save_local
    (input_directory persist_directory : option string) (update : bool) : M unit :=
  self ← get_self;
  let persist_directory :=
    str_or persist_directory (default "NoneDirectory" (config_persist_directory self)) in
  chunks_with_references ←
    get_text_chunks_with_references (documents self) (chunk_size self) (chunk_overlap self);
  _ ← load_embedding_model;
  if update && os_path_exists persist_directory then
    _ ← modify_self (set_config_update true);
    call_vectordb
      (update_vdb chunks_with_references (db_type self)
                  [input_directory; Some persist_directory])
  else
    if os_path_exists persist_directory then
      call_vectordb
        (create_vector_store chunks_with_references (db_type self) (Some persist_directory))
    else
      call_vectordb (create_vector_store chunks_with_references (db_type self) None).

(** *** ConversationOrchestrator: [search_and_scrape] *)

(** The retriever, the memory and the chain are built by collaborators. *)
Definition set_retrieval_qa_chain (conversational : bool) : M unit :=
  emit (EvSetRetrievalQaChain conversational).

(** Returns the message of the dictionary it returns, [None] when it returns
    nothing.  The class defines neither [querySerper] nor [queryOpenSerp]. *)
Definition search_and_scrape
    (query search_method : string) (max_results : Z) (search_engine : string)
  : M (option string) :=
  links ←
    (if String.eqb search_method "serpapi" then
       '(_, links) ← querySerpapi query max_results false search_engine;
       mret links
     else if String.eqb search_method "serper" then
       raise (AttributeError "querySerper")
     else if String.eqb search_method "openserp" then
       raise (AttributeError "queryOpenSerp")
     else raise (UnboundLocalError "links"));
  if decide (0 < Z.of_nat (length links)) then
    _ ← web_crawl links None;
    _ ← create_and_save_local None None false;
    _ ← set_retrieval_qa_chain true;
    mret None
  else mret (Some ("No links found for '" +:+ query +:+ "'. Try again")).

(** *** RetrievalCitationRemapper: [parse_retrieval_output] *)

(** [f'{doc.metadata["source"]}' for doc in result['source_documents']] *)
Fixpoint document_sources (docs : list Document) : result (list string) :=
  match docs with
  | [] => Ok []
  | doc :: docs' =>
      match metadata doc !! "source" with
      | None => Raise (KeyError "source")
      | Some source => ss ← document_sources docs'; Ok (source :: ss)
      end
  end.

Definition rendered_citation (n : Z) (url : string) : string :=
  "[<sup>" +:+ str_of_int n +:+ "</sup>](" +:+ url +:+ ")".

(** The loop [for i, link in enumerate(self.urls)], from index [i] on. *)
Fixpoint remap_citations (i : Z) (links : list string)
    (question_sources_map : gmap string Z) (parsed_answer : string) : result string :=
  match links with
  | [] => Ok parsed_answer
  | link :: links' =>
      if str_in link parsed_answer then
        match question_sources_map !! link with
        | None => Raise (KeyError link)
        | Some j =>
            remap_citations (i + 1) links' question_sources_map
              (str_replace parsed_answer
                 (rendered_citation (i + 1) link) (rendered_citation j link))
        end
      else remap_citations (i + 1) links' question_sources_map parsed_answer
  end.

Definition parse_retrieval_output (result : RetrievalResult) : M string :=
  self ← get_self;
  parsed_answer ← lift (parse_serp_analysis_output_opt (answer result) (urls self));
  sources ← lift (document_sources (source_documents result));
  let question_sources : gset string := list_to_set sources in
  let question_sources_map := enumerate_from 0 (set_to_list question_sources) ∅ in
  match urls self with
  | None => raise TypeError (* enumerate(None) *)
  | Some links => lift (remap_citations 0 links question_sources_map parsed_answer)
  end.

(** *** ConversationOrchestrator: [basic_call] and [retrieval_call] *)

(** [self.memory.load_memory_variables({})] and the outcome of
    [self.memory.save_context], which summarizes with the model, as
    functions of the contexts saved so far. *)
Variable load_memory_variables : list (string * string) → string.
Variable memory_save_context : list (string * string) → result unit.
(** [load_prompt('prompts/llama3-multiturn-custom_condensed_question.yaml')
    .format(chat_history, question)] *)
Variable condensed_question_prompt : string → string → string.
(** [(prompt | self.llm | list_output_parser).invoke(...)]: the value of the
    key [related_queries], [None] when the key is absent. *)
Variable related_queries_chain : string → result (option (list string)).
(** [self.qa_chain.invoke], on a chain that shares the memory. *)
Variable qa_chain_invoke : string → SR Conversation RetrievalResult.

Definition init_memory : SR Conversation unit :=
  sr_modify (λ c, mkConversation (assistant c) (Some [])).

(** [self.memory.save_context(inputs={'input': input}, outputs={'answer': answer})]
    on a memory that is set. *)
Definition save_context (saved : list (string * string)) (input answer : string)
  : SR Conversation unit :=
  _ ← sr_modify (λ c, mkConversation (assistant c) (Some (saved ++ [(input, answer)])));
  sr_lift (memory_save_context (saved ++ [(input, answer)])).

Definition reformulate_query_with_history (query : string)
  : SR Conversation string :=
  c ← sr_get;
  _ ← (if memory c is None then init_memory else mret ());
  c ← sr_get;
  let history := load_memory_variables (default [] (memory c)) in
  let prompt := condensed_question_prompt history query in
  _ ← on_assistant (emit (EvLLM prompt));
  on_assistant (lift (llm_invoke prompt)).

(** Returns the pair of [answer] and [sources] of the dictionary. *)
Definition basic_call (query : string) (reformulated_query : option string)
    (search_method : string) (max_results : Z) (search_engine : string)
    (conversational : bool) : SR Conversation (string * list string) :=
  let reformulated_query := default query reformulated_query in
  bound ←
    (if String.eqb search_method "serpapi" then
       r ← on_assistant (querySerpapi reformulated_query max_results true search_engine);
       mret (Some r)
     else if String.eqb search_method "serper" then
       sr_raise (AttributeError "querySerper")
     else if String.eqb search_method "openserp" then
       sr_raise (AttributeError "queryOpenSerp")
     else mret None);
  _ ← (if conversational then
         c ← sr_get;
         match memory c, bound with
         | None, _ => sr_raise (AttributeError "save_context")
         | Some _, None => sr_raise (UnboundLocalError "answer")
         | Some saved, Some (answer, _) => save_context saved query answer
         end
       else mret ());
  match bound with
  | None => sr_raise (UnboundLocalError "answer")
  | Some (answer, links) => mret (answer, links)
  end.

Definition get_relevant_queries (query : string) : result (list string) :=
  response ← related_queries_chain query;
  Ok (default [] response).

Definition retrieval_call (query : string) : SR Conversation RetrievalResult :=
  result ← qa_chain_invoke query;
  answer ← on_assistant (parse_retrieval_output result);
  mret (mkRetrievalResult answer (source_documents result)).

(** *** [handle_user_input] of [streamlit/app.py] *)

(** The two branches on [st.session_state.method]: the answer and the set
    of sources of the turn, [None] when neither branch binds [response].
    The related queries are computed on a worker thread that has ended when
    the [with] block is left; what the thread raised is raised by
    [result()]. *)
Definition turn_response (user_question : string)
  : SR Session (option (string * gset string)) :=
  s ← sr_get;
  if String.eqb (method s) "rag_query" then
    let related_querys_future :=
      get_relevant_queries (py_str (session_query s) +:+ " - " +:+ user_question) in
    response ← on_search_assistant (retrieval_call user_question);
    sources ← sr_lift (document_sources (source_documents response));
    related ← sr_lift related_querys_future;
    _ ← sr_modify (λ s,
          set_related_queries_history (related_queries_history s ++ [related]) s);
    mret (Some (answer response, list_to_set sources))
  else if String.eqb (method s) "basic_query" then
    reformulated_query ←
      on_search_assistant (reformulate_query_with_history user_question);
    let related_querys_future := get_relevant_queries reformulated_query in
    search_method ←
      sr_lift (match py_index (tool s) 0 with
               | Some t => Ok t
               | None => Raise IndexError
               end);
    '(answer, sources) ←
      on_search_assistant
        (basic_call user_question (Some reformulated_query) search_method
           (session_max_results s) (session_search_engine s) true);
    related ← sr_lift related_querys_future;
    _ ← sr_modify (λ s,
          set_related_queries_history (related_queries_history s ++ [related]) s);
    mret (Some (answer, list_to_set sources))
  else mret None.

(** The part of [handle_user_input] that answers the question; the input is
    [None] when nothing was typed. *)
Definition handle_user_input (user_question : option string) : SR Session unit :=
  match user_question with
  | None | Some "" => mret ()
  | Some user_question =>
      response ← turn_response user_question;
      _ ← sr_modify (λ s, set_chat_history (chat_history s ++ [user_question]) s);
      match response with
      | None => sr_raise (UnboundLocalError "response")
      | Some (answer, sources) =>
          _ ← sr_modify (λ s, set_chat_history (chat_history s ++ [answer]) s);
          sr_modify (λ s,
            set_sources_history
              (sources_history s ++ [sources_text (set_to_list sources)]) s)
      end
  end.

(** ** Notions of the specification *)

Fixpoint all_digits (ds : string) : bool :=
  match ds with
  | "" => true
  | String c ds' => is_digit c && all_digits ds'
  end.

(** Equality of two strings up to the case of their letters. *)
Fixpoint ci_eq_str (a b : string) : bool :=
  match a, b with
  | "", "" => true
  | String x a', String y b' => ci_eqb x y && ci_eq_str a' b'
  | _, _ => false
  end.

(** [m] is a citation marker for the number written [ds]: any spelling of
    [[reference:ds]] up to case, with at most one space after the colon. *)
Definition is_marker (m ds : string) : Prop :=
  ∃ lit sp,
    ci_eq_str "[reference:" lit = true ∧ (sp = "" ∨ sp = " ") ∧
    ds ≠ "" ∧ all_digits ds = true ∧
    m = lit +:+ sp +:+ ds +:+ "]".

(** The text has no substring that is a citation marker. *)
Definition marker_free (t : string) : Prop :=
  ∀ pre m ds post, is_marker m ds → t ≠ pre +:+ m +:+ post.

(** The pattern matches at some offset of the text. *)
Fixpoint has_marker (t : string) : bool :=
  match pattern_match t with
  | Some _ => true
  | None =>
      match t with
      | "" => false
      | String _ t' => has_marker t'
      end
  end.

(** [sub] is a substring of [s]. *)
Definition substring_of (sub s : string) : Prop :=
  ∃ pre post, s = pre +:+ sub +:+ post.

(** The numbers of the citation markers of a text, as they are written,
    found as the linkifier finds them: from left to right, the scan
    resuming after each marker.  The fuel bounds the number of steps; the
    length of the text is always enough. *)
Fixpoint markers_fuel (fuel : nat) (t : string) : list string :=
  match fuel, t with
  | _, "" => []
  | O, _ => []
  | S fuel', String c t' =>
      match pattern_match t with
      | Some (m, rest) => default "" (group1 m) :: markers_fuel fuel' rest
      | None => markers_fuel fuel' t'
      end
  end.

Definition markers (t : string) : list string := markers_fuel (String.length t) t.

(** [s] is made of the entries [l], in order, with a blank line between
    consecutive entries and nothing else. *)
Fixpoint blank_line_joined (l : list string) (s : string) : Prop :=
  match l with
  | [] => s = ""
  | e :: l' =>
      match l' with
      | [] => s = e
      | _ :: _ => ∃ s', s = e +:+ nl +:+ nl +:+ s' ∧ blank_line_joined l' s'
      end
  end.

(** The URLs that a crawl fetches among [us]: all of them when "pdf" is
    among the extra loaders, and those that do not end in ".pdf" otherwise;
    the loader that fetches a URL, and the call that the log records. *)
Definition fetched_urls (us loaders : list string) : list string :=
  if bool_decide ("pdf" ∈ loaders) then us
  else filter (λ u, endswith u ".pdf" = false) us.

Definition fetch_page (u : string) : result (list Document) :=
  if endswith u ".pdf" then unstructured_url_load u else async_html_load u.

Definition load_event (u : string) : Event :=
  if endswith u ".pdf" then EvLoadPdf u else EvLoadHtml u.

(** A turn that is displayed: question, answer, sources text and related
    queries. *)
Definition Turn : Type := string * string * string * list string.

Definition turn_messages (t : Turn) : list string := [t.1.1.1; t.1.1.2].

(** The three histories of the session hold exactly the turns [turns], in
    order. *)
Definition aligned (s : Session) (turns : list Turn) : Prop :=
  chat_history s = concat (turn_messages <$> turns) ∧
  sources_history s = (λ t : Turn, t.1.2) <$> turns ∧
  related_queries_history s = (λ t : Turn, t.2) <$> turns.

(** The settings of the session. *)
Definition settings (s : Session)
  : string * option string * list string * Z * string :=
  (method s, session_query s, tool s, session_max_results s, session_search_engine s).

(** * Properties *)

(** ** Strings *)

Lemma str_app_cons (a : ascii) (s t : string) : String a s +:+ t = String a (s +:+ t).
Proof. reflexivity. Qed.

Lemma str_app_nil_l (s : string) : "" +:+ s = s.
Proof. reflexivity. Qed.

Lemma str_app_nil_r (s : string) : s +:+ "" = s.
Proof. induction s as [|a s IH]; [done|]. by rewrite str_app_cons, IH. Qed.

Lemma str_app_assoc (s t u : string) : (s +:+ t) +:+ u = s +:+ t +:+ u.
Proof. induction s as [|a s IH]; [done|]. by rewrite !str_app_cons, IH. Qed.

Lemma str_app_length (s t : string) :
  String.length (s +:+ t) = (String.length s + String.length t)%nat.
Proof. induction s as [|a s IH]; [done|]. rewrite str_app_cons. simpl. by rewrite IH. Qed.

Lemma prefix_app (sub post : string) : String.prefix sub (sub +:+ post) = true.
Proof.
  induction sub as [|a sub IH]; [by destruct post|].
  rewrite str_app_cons. simpl. destruct (ascii_dec a a); [done|congruence].
Qed.

Lemma prefix_inv (sub s : string) :
  String.prefix sub s = true → ∃ post, s = sub +:+ post.
Proof.
  revert s. induction sub as [|a sub IH]; intros s H.
  - by exists s.
  - destruct s as [|c s]; [done|]. simpl in H.
    destruct (ascii_dec a c) as [->|]; [|done].
    destruct (IH _ H) as [post ->]. by exists post.
Qed.

Lemma str_in_unfold (sub s : string) :
  str_in sub s =
  String.prefix sub s || match s with "" => false | String _ s' => str_in sub s' end.
Proof. by destruct s. Qed.

(** [str_in] decides the substring relation. *)
Lemma str_in_spec (sub s : string) : str_in sub s = true ↔ substring_of sub s.
Proof.
  split.
  - induction s as [|c s IH]; rewrite str_in_unfold; intros H.
    + rewrite orb_false_r in H. apply prefix_inv in H as [post ->]. by exists "", post.
    + apply orb_true_iff in H as [H|H].
      * apply prefix_inv in H as [post ->]. by exists "", post.
      * destruct (IH H) as (pre & post & ->). by exists (String c pre), post.
  - intros (pre & post & ->). induction pre as [|c pre IH].
    + rewrite str_app_nil_l, str_in_unfold, prefix_app. done.
    + rewrite str_app_cons, str_in_unfold, IH. apply orb_true_r.
Qed.

Lemma str_join_cons (sep x : string) (l : list string) :
  str_join sep (x :: l) =
  match l with [] => x | _ => x +:+ sep +:+ str_join sep l end.
Proof. by destruct l. Qed.

(** ** The citation pattern *)

Lemma ci_eqb_congr (x y c : ascii) : ci_eqb x y = true → ci_eqb x c = ci_eqb y c.
Proof. unfold ci_eqb. intros H%Ascii.eqb_eq. by rewrite H. Qed.

Lemma match_lit_cons (x : ascii) (lit : string) (c : ascii) (s : string) :
  match_lit (String x lit) (String c s) =
  if ci_eqb x c then match_lit lit s else None.
Proof. reflexivity. Qed.

Lemma match_lit_ci (lit1 lit2 s : string) :
  ci_eq_str lit1 lit2 = true → match_lit lit1 s = match_lit lit2 s.
Proof.
  revert lit2 s. induction lit1 as [|x lit1 IH]; intros [|y lit2] s H; try done.
  simpl in H. apply andb_true_iff in H as [Hxy H].
  destruct s as [|c s]; [done|]. simpl.
  rewrite (ci_eqb_congr _ _ _ Hxy). destruct (ci_eqb y c); [by apply IH|done].
Qed.

Lemma match_lit_complete (lit l' r : string) :
  ci_eq_str lit l' = true → match_lit lit (l' +:+ r) = Some r.
Proof.
  revert l'. induction lit as [|x lit IH]; intros [|y l'] H; try done.
  simpl in H. apply andb_true_iff in H as [Hxy H].
  rewrite str_app_cons. simpl. rewrite Hxy. by apply IH.
Qed.

Lemma match_lit_sound (lit s r : string) :
  match_lit lit s = Some r → ∃ l', ci_eq_str lit l' = true ∧ s = l' +:+ r.
Proof.
  revert s. induction lit as [|x lit IH]; intros s H.
  - simpl in H. injection H as ->. by exists "".
  - destruct s as [|c s]; [done|]. simpl in H.
    destruct (ci_eqb x c) eqn:Hxc; [|done].
    destruct (IH _ H) as (l' & Hl & ->).
    exists (String c l'). simpl. by rewrite Hxc, Hl.
Qed.

Lemma match_lit_app (lit s r y : string) :
  match_lit lit s = Some r → match_lit lit (s +:+ y) = Some (r +:+ y).
Proof.
  intros (l' & Hl & ->)%match_lit_sound.
  rewrite str_app_assoc. by apply match_lit_complete.
Qed.

Lemma match_lit_None_app (lit s : string) (c : ascii) (y : string) :
  Forall (λ a, ci_eqb a c = false) (list_ascii_of_string lit) →
  match_lit lit s = None →
  match_lit lit (s +:+ String c y) = None.
Proof.
  revert s. induction lit as [|x lit IH]; intros s Hc H; [done|].
  simpl in Hc. apply Forall_cons in Hc as [Hx Hc].
  destruct s as [|a s].
  - rewrite str_app_nil_l. simpl. by rewrite Hx.
  - rewrite str_app_cons. simpl in *. destruct (ci_eqb x a); [by apply IH|done].
Qed.

Lemma skip_space_spec (s : string) :
  ∃ sp, (sp = "" ∨ sp = " ") ∧ s = sp +:+ skip_space s.
Proof.
  destruct s as [|c s]; [exists ""; auto|]. simpl.
  destruct (Ascii.eqb c " ") eqn:E.
  - apply Ascii.eqb_eq in E as ->. exists " ". auto.
  - exists "". auto.
Qed.

Lemma skip_space_app (s : string) (c : ascii) (y : string) :
  Ascii.eqb c " " = false →
  skip_space (s +:+ String c y) = skip_space s +:+ String c y.
Proof.
  intros Hc. destruct s as [|a s].
  - rewrite !str_app_nil_l. simpl. by rewrite Hc.
  - rewrite str_app_cons. simpl. by destruct (Ascii.eqb a " ").
Qed.

Lemma take_digits_sound (s ds r : string) :
  take_digits s = (ds, r) → s = ds +:+ r ∧ all_digits ds = true.
Proof.
  revert ds r. induction s as [|c s IH]; intros ds r H; simpl in H.
  - by injection H as <- <-.
  - destruct (is_digit c) eqn:Hc.
    + destruct (take_digits s) as [ds' r'] eqn:E. injection H as <- <-.
      destruct (IH _ _ eq_refl) as [-> Hd]. simpl. by rewrite Hc, Hd.
    + by injection H as <- <-.
Qed.

Lemma take_digits_app (s ds r : string) (c : ascii) (y : string) :
  is_digit c = false →
  take_digits s = (ds, r) →
  take_digits (s +:+ String c y) = (ds, r +:+ String c y).
Proof.
  intros Hc. revert ds r. induction s as [|a s IH]; intros ds r H; simpl in H.
  - injection H as <- <-. rewrite !str_app_nil_l. simpl. by rewrite Hc.
  - rewrite str_app_cons. simpl. destruct (is_digit a).
    + destruct (take_digits s) as [ds' r'] eqn:E. injection H as <- <-.
      by rewrite (IH _ _ eq_refl).
    + by injection H as <- <-.
Qed.

Lemma take_digits_complete (ds : string) (c : ascii) (y : string) :
  all_digits ds = true → is_digit c = false →
  take_digits (ds +:+ String c y) = (ds, String c y).
Proof.
  intros Hd Hc. induction ds as [|a ds IH].
  - rewrite str_app_nil_l. simpl. by rewrite Hc.
  - simpl in Hd. apply andb_true_iff in Hd as [Ha Hd].
    rewrite str_app_cons. simpl. by rewrite Ha, (IH Hd).
Qed.

Lemma digit_not_space (c : ascii) : is_digit c = true → Ascii.eqb c " " = false.
Proof.
  intros H. destruct (Ascii.eqb c " ") eqn:E; [|done].
  apply Ascii.eqb_eq in E as ->. done.
Qed.

Lemma match_alt_complete (lit l' sp ds rest : string) :
  ci_eq_str lit l' = true → (sp = "" ∨ sp = " ") →
  ds ≠ "" → all_digits ds = true →
  match_alt lit (l' +:+ sp +:+ ds +:+ "]" +:+ rest) = Some (ds, rest).
Proof.
  intros Hl Hsp Hne Hd. unfold match_alt.
  rewrite (match_lit_complete _ _ _ Hl). simpl.
  assert (skip_space (sp +:+ ds +:+ "]" +:+ rest) = ds +:+ "]" +:+ rest) as ->.
  { destruct Hsp as [-> | ->]; [|done]. rewrite str_app_nil_l.
    destruct ds as [|d ds]; [done|]. simpl in Hd.
    apply andb_true_iff in Hd as [Hd _].
    rewrite str_app_cons. simpl. by rewrite (digit_not_space _ Hd). }
  change ("]" +:+ rest) with (String "]" rest).
  rewrite take_digits_complete by done.
  by destruct ds.
Qed.

Lemma match_alt_sound (lit s ds rest : string) :
  match_alt lit s = Some (ds, rest) →
  ∃ l' sp, ci_eq_str lit l' = true ∧ (sp = "" ∨ sp = " ") ∧
           ds ≠ "" ∧ all_digits ds = true ∧
           s = l' +:+ sp +:+ ds +:+ "]" +:+ rest.
Proof.
  unfold match_alt. intros H.
  destruct (match_lit lit s) as [s1|] eqn:E1; [|done]. simpl in H.
  destruct (take_digits (skip_space s1)) as [ds' s3] eqn:E2.
  destruct ds' as [|d ds']; [done|]. destruct s3 as [|c s3]; [done|].
  destruct (Ascii.eqb c "]") eqn:Ec; [|done]. injection H as <- <-.
  apply Ascii.eqb_eq in Ec as ->.
  apply match_lit_sound in E1 as (l' & Hl & ->).
  apply take_digits_sound in E2 as [E2 Hd].
  destruct (skip_space_spec s1) as (sp & Hsp & Hs1).
  exists l', sp. repeat split; try done.
  rewrite Hs1, E2. done.
Qed.

Lemma match_alt_None_app (s y : string) :
  s ≠ "" →
  match_alt "[reference:" s = None →
  match_alt "[reference:" (s +:+ String "[" y) = None.
Proof.
  intros Hs. unfold match_alt.
  destruct (match_lit "[reference:" s) as [s1|] eqn:E1.
  - rewrite (match_lit_app _ _ _ _ E1). simpl.
    rewrite skip_space_app by done.
    destruct (take_digits (skip_space s1)) as [ds s3] eqn:E2.
    rewrite (take_digits_app _ _ _ "[" y eq_refl E2).
    destruct ds as [|d ds]; [done|].
    destruct s3 as [|c s3]; [by rewrite str_app_nil_l|]. rewrite str_app_cons.
    by destruct (Ascii.eqb c "]").
  - intros _. destruct s as [|a s]; [done|].
    assert (match_lit "[reference:" (String a s +:+ String "[" y) = None) as ->;
      [|done].
    rewrite str_app_cons. rewrite match_lit_cons in E1 |- *.
    destruct (ci_eqb "[" a); [|done].
    apply match_lit_None_app; [repeat constructor|done].
Qed.

Lemma match_alt_Reference (s : string) :
  match_alt "[Reference:" s = match_alt "[reference:" s.
Proof. unfold match_alt. by rewrite (match_lit_ci "[Reference:" "[reference:"). Qed.

(** The second alternative never decides: under IGNORECASE it matches
    exactly where the first one does. *)
Lemma pattern_match_eq (s : string) :
  pattern_match s =
  match match_alt "[reference:" s with
  | Some (ds, rest) => Some (mkMatch (Some ds) None, rest)
  | None => None
  end.
Proof.
  unfold pattern_match. rewrite match_alt_Reference.
  by destruct (match_alt "[reference:" s) as [[??]|].
Qed.

Lemma pattern_match_complete (m ds post : string) :
  is_marker m ds →
  pattern_match (m +:+ post) = Some (mkMatch (Some ds) None, post).
Proof.
  intros (lit & sp & Hl & Hsp & Hne & Hd & ->).
  rewrite pattern_match_eq, !str_app_assoc.
  by rewrite (match_alt_complete _ _ _ _ post Hl Hsp Hne Hd).
Qed.

Lemma pattern_match_sound (s : string) (m : Match) (rest : string) :
  pattern_match s = Some (m, rest) →
  ∃ mk ds, is_marker mk ds ∧ m = mkMatch (Some ds) None ∧ s = mk +:+ rest.
Proof.
  rewrite pattern_match_eq.
  destruct (match_alt "[reference:" s) as [[ds r]|] eqn:E; [|done].
  intros [= <- <-].
  apply match_alt_sound in E as (l' & sp & Hl & Hsp & Hne & Hd & ->).
  exists (l' +:+ sp +:+ ds +:+ "]"), ds. split; [by exists l', sp|].
  split; [done|]. by rewrite !str_app_assoc.
Qed.

Lemma is_marker_cons (mk ds : string) :
  is_marker mk ds → ∃ mk', mk = String "[" mk'.
Proof.
  intros (lit & sp & Hl & _ & _ & _ & ->).
  destruct lit as [|c lit]; [done|]. simpl in Hl.
  apply andb_true_iff in Hl as [Hc _].
  unfold ci_eqb in Hc. apply Ascii.eqb_eq in Hc.
  assert (c = "["%char) as ->.
  { revert Hc. unfold lower.
    destruct c as [[] [] [] [] [] [] [] []]; vm_compute; congruence. }
  rewrite str_app_cons. eauto.
Qed.

Lemma pattern_match_length (s : string) (m : Match) (rest : string) :
  pattern_match s = Some (m, rest) →
  (String.length rest < String.length s)%nat.
Proof.
  intros (mk & ds & Hmk & _ & ->)%pattern_match_sound.
  destruct (is_marker_cons _ _ Hmk) as [mk' ->].
  rewrite str_app_cons. simpl. rewrite str_app_length. lia.
Qed.

Lemma pattern_match_app (s : string) (m : Match) (rest y : string) :
  pattern_match s = Some (m, rest) →
  pattern_match (s +:+ y) = Some (m, rest +:+ y).
Proof.
  intros (mk & ds & Hmk & -> & ->)%pattern_match_sound.
  rewrite str_app_assoc. by apply pattern_match_complete.
Qed.

Lemma pattern_match_None_app (s y : string) :
  s ≠ "" → pattern_match s = None →
  pattern_match (s +:+ String "[" y) = None.
Proof.
  intros Hs. rewrite !pattern_match_eq.
  destruct (match_alt "[reference:" s) as [[??]|] eqn:E; [done|]. intros _.
  by rewrite (match_alt_None_app _ _ Hs E).
Qed.

(** ** The substitution *)

Lemma re_sub_fuel_irrel (repl : Match → result string) (n : nat) :
  ∀ s f1 f2,
    (String.length s ≤ n)%nat →
    (String.length s ≤ f1)%nat → (String.length s ≤ f2)%nat →
    re_sub_fuel f1 repl s = re_sub_fuel f2 repl s.
Proof.
  induction n as [|n IH]; intros s f1 f2 Hn H1 H2.
  - destruct s; [by destruct f1, f2|simpl in Hn; lia].
  - destruct s as [|c s]; [by destruct f1, f2|].
    destruct f1 as [|f1]; [simpl in H1; lia|].
    destruct f2 as [|f2]; [simpl in H2; lia|].
    simpl in Hn, H1, H2. cbn [re_sub_fuel].
    destruct (pattern_match (String c s)) as [[m rest]|] eqn:E.
    + apply pattern_match_length in E. simpl in E.
      destruct (repl m); [|done]. cbn.
      rewrite (IH rest f1 f2) by lia. done.
    + rewrite (IH s f1 f2) by lia. done.
Qed.

Lemma re_sub_nil (repl : Match → result string) : re_sub repl "" = Ok "".
Proof. reflexivity. Qed.

(** One step of the scan. *)
Lemma re_sub_cons (repl : Match → result string) (c : ascii) (s : string) :
  re_sub repl (String c s) =
  match pattern_match (String c s) with
  | Some (m, rest) => r ← repl m; t ← re_sub repl rest; Ok (r +:+ t)
  | None => t ← re_sub repl s; Ok (String c t)
  end.
Proof.
  unfold re_sub. cbn [String.length re_sub_fuel].
  destruct (pattern_match (String c s)) as [[m rest]|] eqn:E; [|done].
  apply pattern_match_length in E. simpl in E.
  destruct (repl m); [|done]. cbn.
  by rewrite (re_sub_fuel_irrel repl (String.length s) rest
                (String.length s) (String.length rest)) by lia.
Qed.

(** A marker is replaced where it stands: the text before it and the text
    after it are rewritten as they are on their own. *)
Lemma re_sub_marker (repl : Match → result string) (mk ds post : string) :
  is_marker mk ds →
  ∀ pre,
    re_sub repl (pre +:+ mk +:+ post) =
    a ← re_sub repl pre;
    r ← repl (mkMatch (Some ds) None);
    b ← re_sub repl post;
    Ok (a +:+ r +:+ b).
Proof.
  intros Hmk pre.
  remember (String.length pre) as n eqn:Hn.
  revert pre Hn. induction (lt_wf n) as [n _ IH]. intros pre ->.
  destruct (is_marker_cons _ _ Hmk) as [mk' Emk].
  destruct pre as [|c pre].
  - rewrite str_app_nil_l, re_sub_nil. cbn.
    rewrite Emk at 1. rewrite str_app_cons, re_sub_cons, <- str_app_cons, <- Emk.
    rewrite (pattern_match_complete _ _ _ Hmk).
    reflexivity.
  - rewrite str_app_cons, !re_sub_cons, <- str_app_cons.
    destruct (pattern_match (String c pre)) as [[m rest]|] eqn:E.
    + rewrite (pattern_match_app _ _ _ _ E).
      pose proof (pattern_match_length _ _ _ E) as Hlen.
      destruct (repl m) as [r|]; [|done]. cbn.
      rewrite (IH (String.length rest) Hlen rest eq_refl).
      destruct (re_sub repl rest) as [a|]; [|done]. cbn.
      destruct (repl _) as [r'|]; [|done]. cbn.
      destruct (re_sub repl post) as [b|]; [|done]. cbn.
      by rewrite str_app_assoc.
    + rewrite Emk at 1. rewrite (str_app_cons "[" mk' post).
      assert (String c pre ≠ "") as Hne by done.
      rewrite (pattern_match_None_app _ _ Hne E).
      assert (String.length pre < String.length (String c pre))%nat as Hlt
        by (simpl; lia).
      rewrite (IH (String.length pre) Hlt pre eq_refl).
      destruct (re_sub repl pre) as [a|]; [|done]. cbn.
      destruct (repl _) as [r'|]; [|done]. cbn.
      by destruct (re_sub repl post) as [b|].
Qed.

(** Text without a marker is copied. *)
Lemma re_sub_marker_free (repl : Match → result string) (t : string) :
  marker_free t → re_sub repl t = Ok t.
Proof.
  induction t as [|c t IH]; intros Hfree; [done|].
  rewrite re_sub_cons.
  destruct (pattern_match (String c t)) as [[m rest]|] eqn:E.
  - apply pattern_match_sound in E as (mk & ds & Hmk & _ & E).
    exfalso. apply (Hfree "" mk ds rest Hmk). by rewrite str_app_nil_l.
  - rewrite IH; [done|].
    intros pre mk ds post Hmk ->.
    by apply (Hfree (String c pre) mk ds post Hmk).
Qed.

Lemma has_marker_unfold (t : string) :
  has_marker t =
  match pattern_match t with
  | Some _ => true
  | None => match t with "" => false | String _ t' => has_marker t' end
  end.
Proof. by destruct t. Qed.

(** [has_marker] decides [marker_free]. *)
Lemma has_marker_false (t : string) : has_marker t = false → marker_free t.
Proof.
  intros H pre mk ds post Hmk ->. revert H.
  induction pre as [|c pre IH]; rewrite has_marker_unfold.
  - by rewrite str_app_nil_l, (pattern_match_complete _ _ _ Hmk).
  - rewrite str_app_cons.
    destruct (pattern_match (String c (pre +:+ mk +:+ post))); [done|]. exact IH.
Qed.

(** ** CitationFormatter: [parse_serp_analysis_output] *)

Lemma digit_val_nonneg (c : ascii) : is_digit c = true → 0 ≤ digit_val c.
Proof.
  unfold is_digit, digit_val. intros [H _]%andb_true_iff.
  apply Nat.leb_le in H. lia.
Qed.

Lemma int_of_digits_nonneg (ds : string) : all_digits ds = true → 0 ≤ int_of_digits ds.
Proof.
  unfold int_of_digits.
  assert (∀ acc, 0 ≤ acc → all_digits ds = true →
            0 ≤ fold_left (λ acc c, 10 * acc + digit_val c)
                  (list_ascii_of_string ds) acc) as H.
  { induction ds as [|c ds IH]; intros acc Hacc Hd; simpl in *; [done|].
    apply andb_true_iff in Hd as [Hc Hd].
    apply IH; [|done]. pose proof (digit_val_nonneg _ Hc). lia. }
  by apply H.
Qed.

Lemma py_index_last {A : Type} (l : list A) : py_index l (-1) = last l.
Proof.
  unfold py_index. rewrite decide_False by lia.
  destruct l as [|x l]; [done|].
  rewrite decide_True by (simpl; lia). rewrite last_lookup.
  f_equal. simpl. lia.
Qed.

Lemma py_int_ok (ds : string) :
  (String.length ds ≤ int_max_str_digits)%nat → py_int ds = Ok (int_of_digits ds).
Proof. intros H. unfold py_int. by rewrite decide_True. Qed.

Lemma py_int_raise (ds : string) :
  (int_max_str_digits < String.length ds)%nat →
  py_int ds = Raise (ValueError (int_limit_message ds)).
Proof. intros H. unfold py_int. rewrite decide_False; [done|lia]. Qed.

(** The callback on a marker whose number has no link. *)
Lemma replace_reference_out_of_range (links : list string) (ds : string) :
  (String.length ds ≤ int_max_str_digits)%nat →
  Z.of_nat (length links) < int_of_digits ds →
  replace_reference (Some links) (mkMatch (Some ds) None)
  = Ok ("[<sup>" +:+ str_of_int (int_of_digits ds) +:+ "</sup>](#)").
Proof.
  intros Hlen H. unfold replace_reference. cbn [group1].
  rewrite (py_int_ok _ Hlen). cbn [mbind result_bind].
  by rewrite decide_False by lia.
Qed.

(** The callback on a marker that is too long for [int]. *)
Lemma replace_reference_too_long (links : option (list string)) (ds : string) :
  (int_max_str_digits < String.length ds)%nat →
  replace_reference links (mkMatch (Some ds) None)
  = Raise (ValueError (int_limit_message ds)).
Proof.
  intros Hlen. unfold replace_reference. cbn [group1].
  by rewrite (py_int_raise _ Hlen).
Qed.

(** The callback raises on two inputs only: a number of more digits than
    [int] accepts, and number 0 with no links. *)
Lemma replace_reference_raise (links : list string) (ds : string) (e : exn) :
  all_digits ds = true →
  replace_reference (Some links) (mkMatch (Some ds) None) = Raise e →
  (int_max_str_digits < String.length ds)%nat ∧ e = ValueError (int_limit_message ds) ∨
  (String.length ds ≤ int_max_str_digits)%nat ∧
  e = IndexError ∧ links = [] ∧ int_of_digits ds = 0.
Proof.
  intros Hd. pose proof (int_of_digits_nonneg _ Hd) as Hn.
  destruct (decide (String.length ds ≤ int_max_str_digits)%nat) as [Hlen|Hlen].
  - unfold replace_reference. cbn [group1].
    rewrite (py_int_ok _ Hlen). cbn [mbind result_bind].
    case_decide as Hle; [|done].
    destruct (py_index links (int_of_digits ds - 1)) as [url|] eqn:E; [done|].
    intros [= <-]. right. split; [done|]. unfold py_index in E.
    destruct (decide (0 ≤ int_of_digits ds - 1 < Z.of_nat (length links)))
      as [Hin|Hout].
    + apply lookup_ge_None in E. lia.
    + destruct (decide (- Z.of_nat (length links) ≤ int_of_digits ds - 1 < 0))
        as [Hneg|Hn'].
      * apply lookup_ge_None in E. lia.
      * assert (length links = 0%nat) as Hl by lia.
        apply length_zero_iff_nil in Hl. split; [done|]. split; [done|]. lia.
  - rewrite replace_reference_too_long by lia. intros [= <-]. left. split; [lia|done].
Qed.

(** The whole operation raises on two kinds of input only: a marker whose
    number has more digits than [int] accepts, and a marker with number 0
    while there is no link at all. *)
Lemma parse_serp_analysis_output_raise (t : string) (links : list string) (e : exn) :
  parse_serp_analysis_output t links = Raise e →
  ∃ pre mk ds post,
    t = pre +:+ mk +:+ post ∧ is_marker mk ds ∧
    ((int_max_str_digits < String.length ds)%nat ∧
     e = ValueError (int_limit_message ds) ∨
     (String.length ds ≤ int_max_str_digits)%nat ∧
     e = IndexError ∧ links = [] ∧ int_of_digits ds = 0).
Proof.
  unfold parse_serp_analysis_output, parse_serp_analysis_output_opt.
  remember (String.length t) as n eqn:Hn.
  revert t Hn. induction (lt_wf n) as [n _ IH]. intros t -> H.
  destruct t as [|c t]; [done|]. rewrite re_sub_cons in H.
  destruct (pattern_match (String c t)) as [[m rest]|] eqn:E.
  - pose proof (pattern_match_length _ _ _ E) as Hlen.
    apply pattern_match_sound in E as (mk & ds & Hmk & -> & Et).
    destruct (replace_reference (Some links) _) as [r|e'] eqn:Er.
    + cbn in H.
      destruct (re_sub (replace_reference (Some links)) rest) as [b|e'] eqn:Eb;
        [done|].
      injection H as ->.
      destruct (IH _ Hlen rest eq_refl Eb) as (pre & mk' & ds' & post & -> & Hmk' & H0).
      exists (mk +:+ pre), mk', ds', post. by rewrite Et, str_app_assoc.
    + injection H as ->.
      destruct Hmk as (lit & sp & Hl & Hsp & Hne & Hd & ->).
      pose proof (replace_reference_raise _ _ _ Hd Er) as H0.
      exists "", (lit +:+ sp +:+ ds +:+ "]"), ds, rest.
      split; [by rewrite str_app_nil_l|]. split; [by exists lit, sp|done].
  - destruct (re_sub (replace_reference (Some links)) t) as [b|e'] eqn:Eb; [done|].
    injection H as ->.
    assert (String.length t < String.length (String c t))%nat as Hlt by (simpl; lia).
    destruct (IH _ Hlt t eq_refl Eb) as (pre & mk' & ds' & post & -> & Hmk' & H0).
    by exists (String c pre), mk', ds', post.
Qed.

Lemma parse_serp_analysis_output_marker
    (pre mk ds post : string) (links : list string) :
  is_marker mk ds →
  parse_serp_analysis_output (pre +:+ mk +:+ post) links =
  a ← parse_serp_analysis_output pre links;
  r ← replace_reference (Some links) (mkMatch (Some ds) None);
  b ← parse_serp_analysis_output post links;
  Ok (a +:+ r +:+ b).
Proof. intros Hmk. by apply re_sub_marker. Qed.

Lemma is_marker_plain (ds : string) :
  ds ≠ "" → all_digits ds = true → is_marker ("[reference:" +:+ ds +:+ "]") ds.
Proof.
  intros Hne Hd. exists "[reference:", "".
  split; [reflexivity|]. split; [by left|]. by rewrite str_app_nil_l.
Qed.

(** ** Numbers as text *)

Lemma list_ascii_of_string_app (s t : string) :
  list_ascii_of_string (s +:+ t) = list_ascii_of_string s ++ list_ascii_of_string t.
Proof. induction s as [|c s IH]; [done|]. rewrite str_app_cons. simpl. by rewrite IH. Qed.

Lemma int_of_digits_snoc (ds : string) (c : ascii) :
  int_of_digits (ds +:+ String c "") = 10 * int_of_digits ds + digit_val c.
Proof.
  unfold int_of_digits. by rewrite list_ascii_of_string_app, fold_left_app.
Qed.

Lemma all_digits_snoc (ds : string) (c : ascii) :
  all_digits ds = true → is_digit c = true → all_digits (ds +:+ String c "") = true.
Proof.
  intros Hd Hc. induction ds as [|a ds IH].
  - rewrite str_app_nil_l. simpl. by rewrite Hc.
  - simpl in Hd. apply andb_true_iff in Hd as [Ha Hd].
    rewrite str_app_cons. simpl. by rewrite Ha, IH.
Qed.

Lemma pretty_N_char_digit (m : N) :
  (m < 10)%N →
  is_digit (pretty_N_char m) = true ∧ digit_val (pretty_N_char m) = Z.of_N m.
Proof.
  intros Hm.
  assert (m = 0 ∨ m = 1 ∨ m = 2 ∨ m = 3 ∨ m = 4 ∨ m = 5 ∨ m = 6 ∨ m = 7
          ∨ m = 8 ∨ m = 9)%N as Hcases by lia.
  destruct Hcases as [->|[->|[->|[->|[->|[->|[->|[->|[->| ->]]]]]]]]];
    by vm_compute.
Qed.

(** The digits that [pretty_N_go] puts before its accumulator. *)
Lemma pretty_N_go_digits (x : N) :
  ∀ s, ∃ ds,
    pretty_N_go x s = ds +:+ s ∧ all_digits ds = true ∧
    int_of_digits ds = Z.of_N x ∧ ((0 < x)%N → ds ≠ "").
Proof.
  induction (N.lt_wf_0 x) as [x _ IH]. intros s.
  destruct (decide (x = 0)%N) as [->|Hx].
  - exists "". rewrite pretty_N_go_0.
    split; [done|]. split; [done|]. split; [done|]. lia.
  - assert (0 < x)%N as Hpos by lia.
    rewrite pretty_N_go_step by done.
    destruct (IH (x `div` 10)%N (N.div_lt x 10 Hpos eq_refl)
                (String (pretty_N_char (x `mod` 10)) s))
      as (ds & -> & Hd & Hv & _).
    destruct (pretty_N_char_digit (x `mod` 10)%N) as [Hc Hcv];
      [by apply N.mod_lt|].
    exists (ds +:+ String (pretty_N_char (x `mod` 10)) "").
    split; [by rewrite str_app_assoc|].
    split; [by apply all_digits_snoc|].
    split.
    + rewrite int_of_digits_snoc, Hv, Hcv.
      rewrite (N.div_mod x 10) at 3 by done. lia.
    + intros _. by destruct ds.
Qed.

(** A non-negative number written by an f-string is a non-empty string of
    digits that [int] reads back as the same number. *)
Lemma str_of_int_digits (n : Z) :
  0 ≤ n →
  all_digits (str_of_int n) = true ∧ str_of_int n ≠ "" ∧
  int_of_digits (str_of_int n) = n.
Proof.
  intros Hn. destruct n as [|p|p]; [done| |lia].
  unfold str_of_int, pretty, pretty_Z, pretty, pretty_positive, pretty, pretty_N.
  rewrite decide_False by done.
  destruct (pretty_N_go_digits (N.pos p) "") as (ds & -> & Hd & Hv & Hne).
  rewrite str_app_nil_r. split; [done|]. split; [by apply Hne|]. by rewrite Hv.
Qed.

Lemma is_marker_of_int (n : Z) :
  0 ≤ n → is_marker ("[reference:" +:+ str_of_int n +:+ "]") (str_of_int n).
Proof.
  intros Hn. destruct (str_of_int_digits n Hn) as (Hd & Hne & _).
  by apply is_marker_plain.
Qed.

(** C5: a citation marker whose number exceeds the number of known links is
    replaced, where it stands, by the dead-link placeholder with that
    number, as long as the number is written with at most 4300 digits; the
    text before and after it is rewritten as on its own.  A marker written
    with more digits is out of range as well, and on it the operation
    raises ValueError, since [int] refuses the digits.  The operation raises
    for such a marker and for a marker of number 0 while there is no link at
    all, and for nothing else.  The number that is rendered is written in
    digits that read back as the number of the marker. *)
Theorem linkify_out_of_range (links : list string) :
  (∀ pre mk ds post a b,
     is_marker mk ds →
     (String.length ds ≤ int_max_str_digits)%nat →
     Z.of_nat (length links) < int_of_digits ds →
     parse_serp_analysis_output pre links = Ok a →
     parse_serp_analysis_output post links = Ok b →
     parse_serp_analysis_output (pre +:+ mk +:+ post) links
     = Ok (a +:+ "[<sup>" +:+ str_of_int (int_of_digits ds) +:+ "</sup>](#)" +:+ b)) ∧
  (∀ pre mk ds post a,
     is_marker mk ds →
     (int_max_str_digits < String.length ds)%nat →
     parse_serp_analysis_output pre links = Ok a →
     parse_serp_analysis_output (pre +:+ mk +:+ post) links
     = Raise (ValueError (int_limit_message ds))) ∧
  (∀ t e,
     parse_serp_analysis_output t links = Raise e →
     ∃ pre mk ds post,
       t = pre +:+ mk +:+ post ∧ is_marker mk ds ∧
       ((int_max_str_digits < String.length ds)%nat ∧
        e = ValueError (int_limit_message ds) ∨
        (String.length ds ≤ int_max_str_digits)%nat ∧
        e = IndexError ∧ links = [] ∧ int_of_digits ds = 0)) ∧
  (∀ mk ds,
     is_marker mk ds →
     str_of_int (int_of_digits ds) ≠ "" ∧
     all_digits (str_of_int (int_of_digits ds)) = true ∧
     int_of_digits (str_of_int (int_of_digits ds)) = int_of_digits ds).
Proof.
  split; [|split; [|split]]; cycle 3.
  { intros mk ds (lit & sp & _ & _ & _ & Hd & _).
    destruct (str_of_int_digits (int_of_digits ds) (int_of_digits_nonneg _ Hd))
      as (? & ? & ?).
    done. }
  - intros pre mk ds post a b Hmk Hlen Hn Ha Hb.
    rewrite (parse_serp_analysis_output_marker _ _ _ _ _ Hmk), Ha, Hb.
    rewrite (replace_reference_out_of_range _ _ Hlen Hn). cbn.
    by rewrite !str_app_assoc.
  - intros pre mk ds post a Hmk Hlen Ha.
    rewrite (parse_serp_analysis_output_marker _ _ _ _ _ Hmk), Ha.
    by rewrite (replace_reference_too_long _ _ Hlen).
  - intros t e H. by apply parse_serp_analysis_output_raise.
Qed.

(** C8: on a text that has no substring matching the citation pattern the
    operation returns the text itself, whatever the links are. *)
Theorem linkify_marker_free (t : string) (links : list string) :
  marker_free t → parse_serp_analysis_output t links = Ok t.
Proof. apply re_sub_marker_free. Qed.

(** C10: with a non-empty list of links, the marker [[reference:0]] is
    replaced, where it stands, by a citation numbered 0 that points to the
    last link; the text before and after it is linkified on its own. *)
Theorem linkify_reference_zero (pre post : string) (links : list string)
    (u a b : string) :
  last links = Some u →
  parse_serp_analysis_output pre links = Ok a →
  parse_serp_analysis_output post links = Ok b →
  parse_serp_analysis_output (pre +:+ "[reference:0]" +:+ post) links
  = Ok (a +:+ "[<sup>0</sup>](" +:+ u +:+ ")" +:+ b).
Proof.
  intros Hu Ha Hb.
  rewrite (parse_serp_analysis_output_marker pre "[reference:0]" "0" post links)
    by (by apply (is_marker_plain "0")).
  rewrite Ha, Hb. unfold replace_reference. cbn [group1].
  rewrite py_int_ok by (unfold int_max_str_digits; cbn; lia).
  cbn [mbind result_bind].
  rewrite decide_True by (change (int_of_digits "0") with 0; lia).
  change (int_of_digits "0" - 1) with (-1). rewrite py_index_last, Hu.
  cbn. by rewrite !str_app_assoc.
Qed.

(** ** SearchClient and the context of [querySerpapi] *)

(** Runs a method: unfolds the operations of the monad. *)
Ltac run :=
  unfold mbind, M_bind, mret, M_ret, raise, lift, get_self, emit, modify_self,
    try_except; simpl.

Lemma context_entries_length (i : Z) (R : list SearchResult) :
  length (context_entries i R) = length R.
Proof. revert i. induction R as [|r R IH]; intros i; simpl; [done|]. by rewrite IH. Qed.

Lemma context_entries_lookup (R : list SearchResult) :
  ∀ (i : Z) (k : nat) (r : SearchResult),
    R !! k = Some r →
    context_entries i R !! k =
    Some ("[reference:" +:+ str_of_int (i + Z.of_nat k + 1) +:+ "] "
            +:+ default "" (title r) +:+ ": " +:+ default "" (snippet r)).
Proof.
  induction R as [|r' R IH]; intros i k r Hk; [done|].
  destruct k as [|k]; simpl in *.
  - injection Hk as ->. by rewrite Z.add_0_r.
  - rewrite (IH _ _ _ Hk). do 4 f_equal. lia.
Qed.

Lemma result_links_ok (R : list SearchResult) :
  (∀ r, r ∈ R → is_Some (link r)) →
  ∃ links, result_links R = Ok links ∧ length links = length R ∧
           ∀ k r, R !! k = Some r → link r = links !! k.
Proof.
  induction R as [|r R IH]; intros H.
  - exists []. by repeat split.
  - destruct (H r) as [l Hl]; [by left|].
    destruct IH as (links & E & Hlen & Hk); [intros; apply H; by right|].
    exists (l :: links). simpl. rewrite Hl, E. split; [done|].
    split; [by rewrite Hlen|].
    intros [|k] r' Hr; simpl in *; [by injection Hr as <-|by apply Hk].
Qed.

(** What the search step returns once the engine and the credential are
    accepted: failures of the call and of the formatting are caught. *)
Lemma serpapi_context_run (query : string) (limit : Z) (engine : string)
    (st : State) (key : option string) :
  engine ∈ ["google"; "bing"] →
  lookup_serpapi_key (obj st) = Ok key →
  let p := mkParams (restrict_to_official_sites query OFFICIAL_SITES) limit engine key in
  serpapi_context query limit engine st =
  (Ok (match serpapi_get_dict p with
       | Ok response =>
           match format_context (default [] (organic_results response)) with
           | Ok r => r
           | Raise _ => ("Answer not found", [])
           end
       | Raise _ => ("Answer not found", [])
       end),
   mkState (obj st) (log st ++ [EvSearch p])).
Proof.
  intros He Hk p. unfold serpapi_context.
  rewrite bool_decide_false by (by intros Hn).
  run. rewrite Hk. fold p.
  destruct (serpapi_get_dict p) as [response|e]; [|done].
  by destruct (format_context _) as [r|e].
Qed.

Lemma format_context_spec (R : list SearchResult) :
  (∀ r, r ∈ R → is_Some (link r)) →
  (R = [] → format_context R = Ok ("Answer not found", [])) ∧
  (R ≠ [] →
   ∃ entries links,
     format_context R = Ok (str_join (nl +:+ nl) entries, links) ∧
     length entries = length R ∧ length links = length R ∧
     ∀ k r, R !! k = Some r →
       entries !! k =
         Some ("[reference:" +:+ str_of_int (Z.of_nat k + 1) +:+ "] "
                 +:+ default "" (title r) +:+ ": " +:+ default "" (snippet r)) ∧
       links !! k = link r).
Proof.
  intros Hl. split; [by intros ->|]. intros Hne.
  destruct (result_links_ok R Hl) as (links & E & Hlen & Hk).
  exists (context_entries 0 R), links. unfold format_context.
  rewrite decide_True by (destruct R; [done|simpl; lia]).
  rewrite E. split; [done|]. split; [apply context_entries_length|].
  split; [done|]. intros k r Hr. split; [|by rewrite (Hk _ _ Hr)].
  by rewrite (context_entries_lookup _ 0 k r Hr).
Qed.

(** Without analysis [querySerpapi] returns what the search step computed. *)
Lemma querySerpapi_no_analysis (query : string) (limit : Z) (engine : string)
    (st : State) :
  querySerpapi query limit false engine st = serpapi_context query limit engine st.
Proof.
  unfold querySerpapi. run.
  by destruct (serpapi_context query limit engine st) as [[[c l]|e] st'].
Qed.

(** With analysis it returns the linkified answer of the model on the
    context, and the links. *)
Lemma querySerpapi_analysis (query : string) (limit : Z) (engine : string)
    (st st' : State) (context : string) (links : list string) :
  serpapi_context query limit engine st = (Ok (context, links), st') →
  querySerpapi query limit true engine st =
  (answer ← llm_invoke (serp_analysis_prompt query context);
   parsed ← parse_serp_analysis_output answer links;
   Ok (parsed, links),
   mkState (obj st') (log st' ++ [EvLLM (serp_analysis_prompt query context)])).
Proof.
  intros H. unfold querySerpapi. run. rewrite H.
  destruct (llm_invoke _) as [answer|e]; [|done]. cbn.
  by destruct (parse_serp_analysis_output answer links).
Qed.

(** A newline ends every attempt at a marker. *)
Lemma match_alt_None_nl (s y : string) :
  match_alt "[reference:" s = None →
  match_alt "[reference:" (s +:+ String "010" y) = None.
Proof.
  unfold match_alt.
  destruct (match_lit "[reference:" s) as [s1|] eqn:E1.
  - rewrite (match_lit_app _ _ _ _ E1). simpl.
    rewrite skip_space_app by done.
    destruct (take_digits (skip_space s1)) as [ds s3] eqn:E2.
    rewrite (take_digits_app _ _ _ "010" y eq_refl E2).
    destruct ds as [|d ds]; [done|].
    destruct s3 as [|c s3]; [by rewrite str_app_nil_l|]. rewrite str_app_cons.
    by destruct (Ascii.eqb c "]").
  - intros _.
    assert (match_lit "[reference:" (s +:+ String "010" y) = None) as ->; [|done].
    apply match_lit_None_app; [repeat constructor|done].
Qed.

Lemma pattern_match_None_nl (s y : string) :
  pattern_match s = None → pattern_match (s +:+ String "010" y) = None.
Proof.
  rewrite !pattern_match_eq.
  destruct (match_alt "[reference:" s) as [[??]|] eqn:E; [done|]. intros _.
  by rewrite (match_alt_None_nl _ _ E).
Qed.

Lemma markers_fuel_irrel (n : nat) :
  ∀ s f1 f2,
    (String.length s ≤ n)%nat →
    (String.length s ≤ f1)%nat → (String.length s ≤ f2)%nat →
    markers_fuel f1 s = markers_fuel f2 s.
Proof.
  induction n as [|n IH]; intros s f1 f2 Hn H1 H2.
  - destruct s; [by destruct f1, f2|simpl in Hn; lia].
  - destruct s as [|c s]; [by destruct f1, f2|].
    destruct f1 as [|f1]; [simpl in H1; lia|].
    destruct f2 as [|f2]; [simpl in H2; lia|].
    simpl in Hn, H1, H2. cbn [markers_fuel].
    destruct (pattern_match (String c s)) as [[m rest]|] eqn:E.
    + apply pattern_match_length in E. simpl in E.
      by rewrite (IH rest f1 f2) by lia.
    + by rewrite (IH s f1 f2) by lia.
Qed.

(** One step of the scan. *)
Lemma markers_cons (c : ascii) (s : string) :
  markers (String c s) =
  match pattern_match (String c s) with
  | Some (m, rest) => default "" (group1 m) :: markers rest
  | None => markers s
  end.
Proof.
  unfold markers. cbn [String.length markers_fuel].
  destruct (pattern_match (String c s)) as [[m rest]|] eqn:E; [|done].
  apply pattern_match_length in E. simpl in E.
  by rewrite (markers_fuel_irrel (String.length s) rest
                (String.length s) (String.length rest)) by lia.
Qed.

Lemma markers_marker (mk ds post : string) :
  is_marker mk ds → markers (mk +:+ post) = ds :: markers post.
Proof.
  intros Hmk. destruct (is_marker_cons _ _ Hmk) as [mk' Emk].
  rewrite Emk at 1. rewrite str_app_cons, markers_cons, <- str_app_cons, <- Emk.
  by rewrite (pattern_match_complete _ _ _ Hmk).
Qed.

Lemma markers_none (x : string) : has_marker x = false → markers x = [].
Proof.
  induction x as [|c x IH]; [done|]. rewrite has_marker_unfold, markers_cons.
  by destruct (pattern_match (String c x)).
Qed.

(** A text without marker, up to a newline, adds no marker. *)
Lemma markers_before_nl (x y : string) :
  has_marker x = false → markers (x +:+ String "010" y) = markers y.
Proof.
  induction x as [|c x IH].
  - intros _. rewrite str_app_nil_l, markers_cons.
    by rewrite (pattern_match_None_nl "" y eq_refl
                : pattern_match (String "010" y) = None).
  - rewrite has_marker_unfold.
    destruct (pattern_match (String c x)) as [|] eqn:E; [done|]. intros H.
    rewrite str_app_cons, markers_cons, <- str_app_cons.
    by rewrite (pattern_match_None_nl _ _ E), IH.
Qed.

Lemma has_marker_space (x : string) :
  has_marker (" " +:+ x) = has_marker x.
Proof. by rewrite has_marker_unfold. Qed.

Lemma blank_line_joined_str_join (l : list string) :
  blank_line_joined l (str_join (nl +:+ nl) l).
Proof.
  induction l as [|e l IH]; [done|].
  destruct l as [|e' l]; [done|].
  cbn [blank_line_joined]. exists (str_join (nl +:+ nl) (e' :: l)).
  split; [|exact IH]. rewrite str_join_cons. by rewrite !str_app_assoc.
Qed.

(** The markers of the context are those of its entries when no title and
    no snippet brings one. *)
Lemma markers_context (R : list SearchResult) :
  (∀ r, r ∈ R →
        has_marker (default "" (title r) +:+ ": " +:+ default "" (snippet r)) = false) →
  ∀ i, 0 ≤ i →
    int_of_digits <$> markers (str_join (nl +:+ nl) (context_entries i R))
    = (λ k, i + Z.of_nat k + 1) <$> seq 0 (length R).
Proof.
  induction R as [|r R IH]; intros Hfree i Hi; [done|].
  assert (has_marker
            (" " +:+ (default "" (title r) +:+ ": " +:+ default "" (snippet r)))
          = false) as Hbody.
  { rewrite has_marker_space. apply Hfree. by left. }
  assert (∀ r', r' ∈ R →
            has_marker (default "" (title r') +:+ ": " +:+ default "" (snippet r'))
            = false) as Hfree' by (intros; apply Hfree; by right).
  destruct (str_of_int_digits (i + 1)) as (_ & _ & Hv); [lia|].
  cbn [context_entries length seq fmap list_fmap]. rewrite str_join_cons.
  destruct R as [|r' R].
  - cbn [context_entries length seq fmap list_fmap].
    replace ("[reference:" +:+ str_of_int (i + 1) +:+ "] " +:+ default "" (title r)
               +:+ ": " +:+ default "" (snippet r))
      with (("[reference:" +:+ str_of_int (i + 1) +:+ "]")
              +:+ " " +:+ (default "" (title r) +:+ ": " +:+ default "" (snippet r)))
      by (by rewrite !str_app_assoc).
    rewrite (markers_marker _ (str_of_int (i + 1))) by (apply is_marker_of_int; lia).
    rewrite (markers_none _ Hbody). cbn. rewrite Hv. do 2 f_equal. lia.
  - destruct (context_entries (i + 1) (r' :: R)) as [|e' es] eqn:Erest; [done|].
    rewrite <- Erest.
    replace (("[reference:" +:+ str_of_int (i + 1) +:+ "] " +:+ default "" (title r)
                +:+ ": " +:+ default "" (snippet r))
               +:+ (nl +:+ nl) +:+ str_join (nl +:+ nl) (context_entries (i + 1) (r' :: R)))
      with (("[reference:" +:+ str_of_int (i + 1) +:+ "]")
              +:+ (" " +:+ (default "" (title r) +:+ ": " +:+ default "" (snippet r)))
              +:+ String "010" (nl +:+ str_join (nl +:+ nl) (context_entries (i + 1) (r' :: R))))
      by (by rewrite !str_app_assoc).
    rewrite (markers_marker _ (str_of_int (i + 1))) by (apply is_marker_of_int; lia).
    rewrite (markers_before_nl _ _ Hbody).
    change (nl +:+ str_join (nl +:+ nl) (context_entries (i + 1) (r' :: R)))
      with (String "010" (str_join (nl +:+ nl) (context_entries (i + 1) (r' :: R)))).
    rewrite (markers_before_nl "" _ eq_refl
             : markers (String "010" (str_join (nl +:+ nl)
                                        (context_entries (i + 1) (r' :: R))))
               = markers (str_join (nl +:+ nl) (context_entries (i + 1) (r' :: R)))).
    cbn [fmap list_fmap]. rewrite Hv, (IH Hfree' (i + 1)) by lia.
    f_equal; [lia|]. cbn [length].
    rewrite <- (fmap_S_seq 0), <- list_fmap_compose.
    apply list_fmap_ext. intros ? k _. cbn. lia.
Qed.

Lemma result_links_missing (R : list SearchResult) :
  (∃ r, r ∈ R ∧ link r = None) → result_links R = Raise (KeyError "link").
Proof.
  induction R as [|r' R IH]; intros (r & Hr & Hl).
  - by apply elem_of_nil in Hr.
  - simpl. apply elem_of_cons in Hr as [<-|Hr]; [by rewrite Hl|].
    destruct (link r'); [|done]. by rewrite IH by eauto.
Qed.

(** C6, as amended: for a non-empty list of results that all carry a link,
    the context built by [querySerpapi] is made of exactly one entry per
    result, in order, with a blank line between consecutive entries, the
    entry of the result at 0-based position [k] being
    [[reference:k+1] title: snippet], and the links are those of the results
    in the same order; when no title followed by its snippet forms a marker,
    the markers of the context are exactly those of the entries, numbered
    from 1 to the number of results, in order.  For an empty list, and for a
    list in which a result carries no link, the context is the sentinel
    "Answer not found" and there is no link.  Without analysis that context
    and those links are what [querySerpapi] returns. *)
Theorem querySerpapi_context_markers (query : string) (limit : Z) (engine : string)
    (st : State) (key : option string) (response : Response) (R : list SearchResult) :
  engine ∈ ["google"; "bing"] →
  lookup_serpapi_key (obj st) = Ok key →
  serpapi_get_dict
    (mkParams (restrict_to_official_sites query OFFICIAL_SITES) limit engine key)
  = Ok response →
  default [] (organic_results response) = R →
  querySerpapi query limit false engine st = serpapi_context query limit engine st ∧
  (R = [] ∨ (∃ r, r ∈ R ∧ link r = None) →
   (serpapi_context query limit engine st).1 = Ok ("Answer not found", [])) ∧
  (R ≠ [] →
   (∀ r, r ∈ R → is_Some (link r)) →
   ∃ entries links context,
     (serpapi_context query limit engine st).1 = Ok (context, links) ∧
     blank_line_joined entries context ∧
     length entries = length R ∧ length links = length R ∧
     (∀ k r, R !! k = Some r →
        entries !! k =
          Some ("[reference:" +:+ str_of_int (Z.of_nat k + 1) +:+ "] "
                  +:+ default "" (title r) +:+ ": " +:+ default "" (snippet r)) ∧
        links !! k = link r) ∧
     ((∀ r, r ∈ R →
         has_marker (default "" (title r) +:+ ": " +:+ default "" (snippet r))
         = false) →
      int_of_digits <$> markers context
      = (λ k, Z.of_nat k + 1) <$> seq 0 (length R))).
Proof.
  intros He Hk Hs HR. split; [apply querySerpapi_no_analysis|].
  rewrite (serpapi_context_run _ _ _ _ _ He Hk).
  cbn [fst]. rewrite Hs, HR. split.
  - intros [->|Hmiss]; [done|]. unfold format_context.
    case_decide; [|done]. by rewrite (result_links_missing R Hmiss).
  - intros Hne Hl.
    destruct (format_context_spec R Hl) as [_ H1].
    destruct (H1 Hne) as (entries & links & E & Hlen & Hlen' & Hk').
    assert (entries = context_entries 0 R) as ->.
    { apply list_eq. intros k.
      destruct (R !! k) as [r|] eqn:Er.
      - destruct (Hk' k r Er) as [-> _].
        by rewrite (context_entries_lookup R 0 k r Er).
      - apply lookup_ge_None in Er.
        rewrite !(proj2 (lookup_ge_None _ _)); [done| |lia].
        rewrite context_entries_length. lia. }
    exists (context_entries 0 R), links, (str_join (nl +:+ nl) (context_entries 0 R)).
    rewrite E. split; [done|]. split; [apply blank_line_joined_str_join|].
    split; [done|]. split; [done|]. split; [exact Hk'|].
    intros Hfree. rewrite (markers_context R Hfree 0) by lia.
    apply list_fmap_ext. intros ? k _. cbn. lia.
Qed.

(** C7, as amended: when the search call raises, or its results are empty or
    cannot be formatted, the exception does not propagate, the context is
    the sentinel "Answer not found" and the link list is empty; without
    analysis the operation returns that pair, with analysis it returns the
    linkified answer of the model on the sentinel context, with the empty
    link list.  An engine other than "google" and "bing" raises ValueError
    with the state, and so the log of external calls, unchanged. *)
Theorem querySerpapi_no_results (query : string) (limit : Z) (engine : string)
    (st : State) :
  (∀ key,
     engine ∈ ["google"; "bing"] →
     lookup_serpapi_key (obj st) = Ok key →
     let p := mkParams (restrict_to_official_sites query OFFICIAL_SITES) limit engine key in
     let prompt := serp_analysis_prompt query "Answer not found" in
     ((∃ e, serpapi_get_dict p = Raise e) ∨
      (∃ response, serpapi_get_dict p = Ok response ∧
                   default [] (organic_results response) = []) ∨
      (∃ response e, serpapi_get_dict p = Ok response ∧
                     format_context (default [] (organic_results response)) = Raise e)) →
     querySerpapi query limit false engine st
     = (Ok ("Answer not found", []), mkState (obj st) (log st ++ [EvSearch p])) ∧
     querySerpapi query limit true engine st
     = (answer ← llm_invoke prompt;
        parsed ← parse_serp_analysis_output answer [];
        Ok (parsed, []),
        mkState (obj st) (log st ++ [EvSearch p; EvLLM prompt]))) ∧
  (∀ do_analysis,
     engine ∉ ["google"; "bing"] →
     querySerpapi query limit do_analysis engine st
     = (Raise (ValueError "engine must be either google or bing"), st)).
Proof.
  split.
  - intros key He Hk p prompt Hcase.
    assert (serpapi_context query limit engine st
            = (Ok ("Answer not found", []), mkState (obj st) (log st ++ [EvSearch p])))
      as Hctx.
    { rewrite (serpapi_context_run _ _ _ _ _ He Hk). fold p.
      destruct Hcase as [[e ->]|[(response & -> & ->)|(response & e & -> & ->)]];
        done. }
    split; [by rewrite querySerpapi_no_analysis|].
    rewrite (querySerpapi_analysis _ _ _ _ _ _ _ Hctx). simpl.
    by rewrite <- List.app_assoc.
  - intros do_analysis He. unfold querySerpapi, serpapi_context.
    by rewrite bool_decide_true.
Qed.

(** ** LinkFilter *)

Lemma elem_of_set_to_list (s : gset string) (x : string) : x ∈ set_to_list s ↔ x ∈ s.
Proof. by rewrite (set_to_list_perm s), elem_of_elements. Qed.

Lemma NoDup_set_to_list (s : gset string) : NoDup (set_to_list s).
Proof. rewrite (set_to_list_perm s). apply NoDup_elements. Qed.

Lemma elem_of_foldl_add (f : string → string) (l : list string) :
  ∀ (init : gset string) (x : string),
    x ∈ foldl (λ (acc : gset string) e, acc ∪ {[ f e ]}) init l ↔
    x ∈ init ∨ ∃ e, e ∈ l ∧ x = f e.
Proof.
  induction l as [|a l IH]; intros init x; simpl.
  - split; [by left|]. intros [?|(e & He & _)]; [done|]. by apply elem_of_nil in He.
  - rewrite IH. rewrite elem_of_union, elem_of_singleton. split.
    + intros [[?| ->]|(e & He & ->)]; [by left|right..].
      * exists a. split; [by left|done].
      * exists e. split; [by right|done].
    + intros [?|(e & He & ->)]; [by left; left|].
      apply elem_of_cons in He as [-> |He]; [by left; right|].
      right. by exists e.
Qed.

Lemma elem_of_foldl_keep (keep : string → bool) (l : list string) :
  ∀ (init : gset string) (x : string),
    x ∈ foldl (λ (acc : gset string) link,
                 if keep link then acc ∪ {[ link ]} else acc) init l ↔
    x ∈ init ∨ (x ∈ l ∧ keep x = true).
Proof.
  induction l as [|a l IH]; intros init x; simpl.
  - split; [by left|]. intros [?|[Hx _]]; [done|]. by apply elem_of_nil in Hx.
  - rewrite IH. destruct (keep a) eqn:Ka.
    + rewrite elem_of_union, elem_of_singleton, elem_of_cons. split.
      * intros [[?| ->]|[? ?]]; auto.
      * intros [?|[[-> |?] ?]]; auto.
    + rewrite elem_of_cons. split.
      * intros [?|[? ?]]; auto.
      * intros [?|[[-> |?] ?]]; auto. congruence.
Qed.

(** The links that survive are exactly the candidates that contain none of
    the normalized excluded entries. *)
Lemma elem_of_link_filter (all_links excluded_links : list string) (x : string) :
  x ∈ link_filter all_links excluded_links ↔
  x ∈ all_links ∧
  ∀ e, e ∈ excluded_links →
       ¬ substring_of (netloc (urlparse e) +:+ path (urlparse e)) x.
Proof.
  unfold link_filter.
  rewrite (elem_of_foldl_keep
             (λ link, negb (existsb (λ excluded_link, str_in excluded_link link) _))).
  split.
  - intros [H|[Hx Hk]]; [by apply not_elem_of_empty in H|]. split; [done|].
    intros e He Hsub. apply negb_true_iff in Hk.
    assert (existsb (λ excluded_link, str_in excluded_link x)
              (set_to_list
                 (foldl (λ (acc : gset string) excluded_link,
                           acc ∪ {[ netloc (urlparse excluded_link)
                                    +:+ path (urlparse excluded_link) ]})
                        ∅ excluded_links)) = true) as Ht; [|congruence].
    apply existsb_exists. exists (netloc (urlparse e) +:+ path (urlparse e)).
    split; [|by apply str_in_spec].
    apply list_elem_of_In, elem_of_set_to_list.
    apply (elem_of_foldl_add (λ e, netloc (urlparse e) +:+ path (urlparse e))).
    right. by exists e.
  - intros [Hx Hnone]. right. split; [done|]. apply negb_true_iff.
    destruct (existsb _ _) eqn:E; [|done]. exfalso.
    apply existsb_exists in E as (c & Hc & Hin).
    apply list_elem_of_In, elem_of_set_to_list in Hc.
    apply (elem_of_foldl_add (λ e, netloc (urlparse e) +:+ path (urlparse e))) in Hc
      as [Hc|(e & He & ->)]; [by apply not_elem_of_empty in Hc|].
    apply (Hnone e He). by apply str_in_spec.
Qed.

(** C9: no returned link contains, as a substring, the host and path of an
    excluded entry; and with no excluded entry the result is the set of the
    candidate links. *)
Theorem link_filter_excludes (all_links excluded_links : list string) :
  (∀ x e,
     x ∈ link_filter all_links excluded_links →
     e ∈ excluded_links →
     ¬ substring_of (netloc (urlparse e) +:+ path (urlparse e)) x) ∧
  link_filter all_links [] = list_to_set all_links.
Proof.
  split.
  - intros x e Hx He. apply elem_of_link_filter in Hx as [_ Hx]. by apply Hx.
  - apply set_eq. intros x. rewrite elem_of_link_filter, elem_of_list_to_set.
    split; [by intros [? _]|]. intros Hx. split; [done|].
    intros e He. by apply elem_of_nil in He.
Qed.

(** ** DocumentChunker *)

Lemma enumerate_from_notin (sites : list string) (x : string) :
  x ∉ sites → ∀ i acc, enumerate_from i sites acc !! x = acc !! x.
Proof.
  induction sites as [|a sites IH]; intros Hx i acc; [done|].
  apply not_elem_of_cons in Hx as [Hxa Hx]. simpl.
  rewrite (IH Hx). by rewrite lookup_insert_ne.
Qed.

(** In a list without repetition the dictionary maps the site at 0-based
    position [k] to [k + 1]. *)
Lemma enumerate_from_lookup (sites : list string) :
  NoDup sites →
  ∀ i acc k x, sites !! k = Some x →
    enumerate_from i sites acc !! x = Some (i + Z.of_nat k + 1).
Proof.
  induction 1 as [|a sites Ha Hnd IH]; intros i acc k x Hk; [done|].
  destruct k as [|k]; simpl in *.
  - injection Hk as ->. rewrite (enumerate_from_notin _ _ Ha), lookup_insert_eq.
    f_equal. lia.
  - rewrite (IH _ _ _ _ Hk). f_equal. lia.
Qed.

Lemma enumerate_from_None (sites : list string) (x : string) :
  x ∉ sites → enumerate_from 0 sites ∅ !! x = None.
Proof. intros Hx. by rewrite (enumerate_from_notin _ _ Hx). Qed.

Lemma add_reference_metadata (sources : gmap string Z) (chunk : Document) :
  metadata (add_reference chunk_contains sources chunk) = metadata chunk.
Proof.
  unfold add_reference. destruct (chunk_contains chunk "metadata"); [|done].
  destruct (metadata chunk !! "source") as [ref|]; [|done].
  by destruct (sources !! ref).
Qed.

(** C2: with a chunk size and an overlap that the splitter accepts, every
    chunk of the splitter is kept, in order, with its metadata, and a tag is
    put before its text.  On the chunks of the splitter the
    test ['metadata' in chunk] is false: their class has no membership test
    of its own and is iterated as pairs of a field name and a value.  So
    the tag is [[reference:unknown] ] on every chunk, also on a chunk whose
    metadata records a source of the URL list, where the number of that
    source was meant. *)
Theorem chunks_tagged_unknown (docs : list Document) (size overlap : Z)
    (st : State) (us : list string) :
  urls (obj st) = Some us →
  0 < size ∧ 0 ≤ overlap ≤ size →
  (∀ chunk, chunk ∈ split_documents size overlap docs →
            chunk_contains chunk "metadata" = false) →
  ∃ out,
    get_text_chunks_with_references (Some docs) size overlap st = (Ok out, st) ∧
    length out = length (split_documents size overlap docs) ∧
    ∀ k chunk,
      split_documents size overlap docs !! k = Some chunk →
      ∃ chunk',
        out !! k = Some chunk' ∧
        metadata chunk' = metadata chunk ∧
        page_content chunk' =
          "[reference:unknown] " +:+ page_content chunk +:+ nl +:+ nl.
Proof.
  intros Hus _ Hc.
  exists (add_reference chunk_contains (enumerate_from 0 us ∅)
            <$> split_documents size overlap docs).
  split; [|split].
  - unfold get_text_chunks_with_references. run. rewrite Hus. by destruct st.
  - by rewrite length_fmap.
  - intros k chunk Hk.
    exists (add_reference chunk_contains (enumerate_from 0 us ∅) chunk).
    split; [by rewrite list_lookup_fmap, Hk|].
    split; [apply add_reference_metadata|].
    unfold add_reference.
    by rewrite (Hc chunk (list_elem_of_lookup_2 _ _ _ Hk)).
Qed.

(** ** Crawling and [search_and_scrape] *)

Lemma fetched_urls_cons (url : string) (us loaders : list string) :
  fetched_urls (url :: us) loaders =
  if endswith url ".pdf" && negb (bool_decide ("pdf" ∈ loaders))
  then fetched_urls us loaders
  else url :: fetched_urls us loaders.
Proof.
  unfold fetched_urls. case_bool_decide; [by rewrite andb_false_r|].
  rewrite andb_true_r. destruct (endswith url ".pdf") eqn:E.
  - by rewrite filter_cons_False by congruence.
  - by rewrite filter_cons_True.
Qed.

(** One step of the loop of [load_htmls]. *)
Lemma load_htmls_cons (url : string) (us loaders : list string) (st : State) :
  load_htmls (url :: us) loaders st =
  if endswith url ".pdf" && negb (bool_decide ("pdf" ∈ loaders))
  then load_htmls us loaders st
  else
    match fetch_page url with
    | Ok loaded =>
        match load_htmls us loaders (mkState (obj st) (log st ++ [load_event url])) with
        | (Ok docs, st') => (Ok (loaded ++ docs), st')
        | (Raise e, st') => (Raise e, st')
        end
    | Raise e => (Raise e, mkState (obj st) (log st ++ [load_event url]))
    end.
Proof.
  cbn [load_htmls]. unfold fetch_page, load_event.
  destruct (endswith url ".pdf"); [case_bool_decide|]; cbn [andb negb]; done.
Qed.

(** [load_htmls] fetches the URLs of [fetched_urls] in order, each with its
    loader, until one fetch raises; it leaves the object as it is. *)
Lemma load_htmls_spec (us loaders : list string) :
  ∀ st,
    (∃ pages,
       Forall2 (λ u docs, fetch_page u = Ok docs) (fetched_urls us loaders) pages ∧
       load_htmls us loaders st
       = (Ok (concat pages),
          mkState (obj st) (log st ++ (load_event <$> fetched_urls us loaders)))) ∨
    (∃ before u after e,
       fetched_urls us loaders = before ++ u :: after ∧
       Forall (λ v, ∃ docs, fetch_page v = Ok docs) before ∧
       fetch_page u = Raise e ∧
       load_htmls us loaders st
       = (Raise e,
          mkState (obj st) (log st ++ (load_event <$> before ++ [u])))).
Proof.
  induction us as [|url us IH]; intros st.
  - left. exists []. split.
    + unfold fetched_urls. case_bool_decide; constructor.
    + unfold fetched_urls. destruct st.
      case_bool_decide; cbn; by rewrite app_nil_r.
  - rewrite load_htmls_cons, fetched_urls_cons.
    destruct (endswith url ".pdf" && negb (bool_decide ("pdf" ∈ loaders)));
      [apply IH|].
    destruct (fetch_page url) as [loaded|e] eqn:Ef.
    + destruct (IH (mkState (obj st) (log st ++ [load_event url])))
        as [(pages & Hp & ->)|(before & u & after & e & Hf & Hb & Hu & ->)].
      * left. exists (loaded :: pages). split; [by constructor|].
        cbn. by rewrite <- List.app_assoc.
      * right. exists (url :: before), u, after, e.
        split; [by rewrite Hf|]. split; [constructor; eauto|]. split; [done|].
        cbn. by rewrite <- List.app_assoc.
    + right. exists [], url, (fetched_urls us loaders), e.
      split; [done|]. split; [constructor|]. by split.
Qed.

Lemma fetched_pages_unique (l : list string) (pages pages' : list (list Document)) :
  Forall2 (λ u docs, fetch_page u = Ok docs) l pages →
  Forall2 (λ u docs, fetch_page u = Ok docs) l pages' →
  pages = pages'.
Proof.
  intros H. revert pages'. induction H as [|u d l pages Hu _ IH]; intros pages' H'.
  - by inversion H'.
  - inversion H' as [|u' d' l' pages'' Hu' Hl']; subst.
    rewrite Hu in Hu'. injection Hu' as <-. f_equal. by apply IH.
Qed.

(** A crawl that has a candidate fetches the first candidates in the order
    of the set and stores what it fetched. *)
Lemma web_crawl_run (us : list string) (excluded : option (list string))
    (st : State) :
  let kept :=
    link_filter
      (filter (λ url, ¬ existsb (endswith url) excluded_link_suffixes) us)
      (set_to_list (list_to_set (default [] excluded ++ excluded_links_config (obj st)))) in
  let slice := py_slice_to (set_to_list kept) (max_scraped_websites (obj st)) in
  kept ≠ ∅ →
  web_crawl us excluded st =
  match load_htmls slice (extra_loaders (obj st)) st with
  | (Ok docs, st1) =>
      (Ok (),
       mkState (set_urls slice (set_documents (clean_docs docs) (obj st1))) (log st1))
  | (Raise e, st1) => (Raise e, st1)
  end.
Proof.
  intros kept slice Hne. unfold web_crawl, mbind, M_bind, get_self.
  cbv beta iota zeta. fold kept.
  rewrite decide_False by (by intros ?%size_empty_inv%leibniz_equiv).
  fold slice.
  by destruct (load_htmls slice (extra_loaders (obj st)) st) as [[docs|e] st1].
Qed.

(** With no candidate left after the two filters the crawl raises. *)
Lemma web_crawl_no_sites (us : list string) (excluded : option (list string))
    (st : State) :
  link_filter
    (filter (λ url, ¬ existsb (endswith url) excluded_link_suffixes) us)
    (set_to_list (list_to_set (default [] excluded ++ excluded_links_config (obj st))))
  = ∅ →
  web_crawl us excluded st = (Raise (ValueError no_sites_to_scrape), st).
Proof.
  intros H. unfold web_crawl, mbind, M_bind, get_self.
  cbv beta iota zeta. rewrite H.
  by rewrite decide_True by apply size_empty.
Qed.

(** The URL list that a crawl leaves in the object has no repetition. *)
Lemma web_crawl_urls_NoDup (us : list string) (excluded : option (list string))
    (st st' : State) :
  web_crawl us excluded st = (Ok (), st') →
  ∃ us', urls (obj st') = Some us' ∧ NoDup us'.
Proof.
  unfold web_crawl, mbind, M_bind, get_self. cbv beta iota zeta.
  case_decide; [done|].
  match goal with |- context [load_htmls ?l ?x ?s] =>
    destruct (load_htmls l x s) as [[docs|e] st1] end; [|done].
  simpl. intros [= <-]. simpl. eexists. split; [done|].
  unfold py_slice_to.
  case_decide; (eapply sublist_NoDup; [apply NoDup_set_to_list|apply sublist_take]).
Qed.

(** C3, as amended: when the search returns no link, [search_and_scrape]
    returns the message "No links found for '<query>'. Try again" and
    crawls nothing; when the search returns links and none of them is left
    after filtering, the crawl raises ValueError and [search_and_scrape]
    lets it propagate. *)
Theorem search_and_scrape_no_links (query : string) (max_results : Z)
    (search_engine : string) (st st' : State) (context : string)
    (links : list string) :
  querySerpapi query max_results false search_engine st = (Ok (context, links), st') →
  (links = [] →
   search_and_scrape query "serpapi" max_results search_engine st
   = (Ok (Some ("No links found for '" +:+ query +:+ "'. Try again")), st')) ∧
  (links ≠ [] →
   link_filter
     (filter (λ url, ¬ existsb (endswith url) excluded_link_suffixes) links)
     (set_to_list (list_to_set (excluded_links_config (obj st'))))
   = ∅ →
   search_and_scrape query "serpapi" max_results search_engine st
   = (Raise (ValueError no_sites_to_scrape), st')).
Proof.
  intros Hq. split.
  - intros ->. unfold search_and_scrape.
    change (String.eqb "serpapi" "serpapi") with true. cbv iota.
    unfold mbind at 1, M_bind. unfold mbind at 1, M_bind. by rewrite Hq.
  - intros Hne Hf. unfold search_and_scrape.
    change (String.eqb "serpapi" "serpapi") with true. cbv iota.
    unfold mbind at 1, M_bind. unfold mbind at 1, M_bind. rewrite Hq.
    unfold mret at 1, M_ret.
    rewrite decide_True by (destruct links; [done|simpl; lia]).
    unfold mbind at 1, M_bind. by rewrite (web_crawl_no_sites links None st' Hf).
Qed.

(** ** VectorIndexManager *)

Lemma get_text_chunks_run (st : State) (us : list string) (docs : list Document) :
  urls (obj st) = Some us →
  get_text_chunks_with_references (Some docs) (chunk_size (obj st))
    (chunk_overlap (obj st)) st
  = (Ok (add_reference chunk_contains (enumerate_from 0 us ∅)
           <$> split_documents (chunk_size (obj st)) (chunk_overlap (obj st)) docs),
     st).
Proof.
  intros Hus. unfold get_text_chunks_with_references. run. rewrite Hus.
  by destruct st.
Qed.

(** C4, as amended: after a crawl, an update requested on a persist
    directory that does not exist raises nothing: [create_load_vector_store]
    creates a fresh store at that directory from the chunks, and
    [create_and_save_local] creates a fresh store with no directory. *)
Theorem update_on_absent_directory (st : State) (us : list string)
    (docs : list Document) :
  urls (obj st) = Some us →
  documents (obj st) = Some docs →
  let chunks :=
    add_reference chunk_contains (enumerate_from 0 us ∅)
      <$> split_documents (chunk_size (obj st)) (chunk_overlap (obj st)) docs in
  let directory := default "NoneDirectory" (config_persist_directory (obj st)) in
  (∀ force_reload,
     os_path_exists directory = false →
     let created := create_vector_store chunks (db_type (obj st)) (Some directory) in
     create_load_vector_store force_reload true st
     = (Ok (),
        mkState (set_vector_store created (obj st))
                (log st ++ [EvLoadEmbeddingModel; EvVdb created]))) ∧
  (∀ input_directory persist_directory,
     os_path_exists (str_or persist_directory directory) = false →
     let created := create_vector_store chunks (db_type (obj st)) None in
     create_and_save_local input_directory persist_directory true st
     = (Ok (),
        mkState (set_vector_store created (obj st))
                (log st ++ [EvLoadEmbeddingModel; EvVdb created]))).
Proof.
  intros Hus Hdocs chunks directory. split.
  - intros force_reload Hex created.
    unfold create_load_vector_store, load_embedding_model, call_vectordb.
    unfold mbind at 1, M_bind, get_self. cbv beta iota zeta.
    fold directory. rewrite Hex. cbn [andb].
    unfold mbind at 1, M_bind, emit. cbv beta iota.
    unfold mbind at 1, M_bind. rewrite Hdocs.
    pose proof (get_text_chunks_run
                  (mkState (obj st) (log st ++ [EvLoadEmbeddingModel])) us docs Hus)
      as Hrun. simpl in Hrun. rewrite Hrun. run.
    by rewrite <- List.app_assoc.
  - intros input_directory persist_directory Hex created.
    unfold create_and_save_local, load_embedding_model, call_vectordb.
    unfold mbind at 1, M_bind, get_self. cbv beta iota zeta.
    fold directory. unfold mbind at 1, M_bind. rewrite Hdocs.
    rewrite (get_text_chunks_run st us docs Hus). rewrite Hex. run.
    by rewrite <- List.app_assoc.
Qed.

(** ** RetrievalCitationRemapper *)

(** The first crawled link that occurs in the answer and was not retrieved
    stops the remapping with a KeyError. *)
Lemma remap_citations_KeyError (i : Z) (link : string) (links : list string)
    (question_sources_map : gmap string Z) (parsed_answer : string) :
  str_in link parsed_answer = true →
  question_sources_map !! link = None →
  remap_citations i (link :: links) question_sources_map parsed_answer
  = Raise (KeyError link).
Proof. intros Hin Hmap. simpl. by rewrite Hin, Hmap. Qed.

(** C1, on the scenario of the specification: the crawl has three sites, the
    answer cites the first and the third, and the retrieval step used the
    second and the third.  Whatever the order in which the set of used
    sources is iterated, the remapping raises KeyError on the first site
    instead of leaving its citation as it is. *)
Theorem parse_retrieval_output_unused_source :
  parse_retrieval_output retrieval_of_two crawled_state
  = (Raise (KeyError "https://a.org/x"), crawled_state).
Proof.
  unfold parse_retrieval_output, mbind, M_bind, get_self, lift.
  cbv beta iota zeta.
  change (urls (obj crawled_state)) with (Some crawled_urls).
  assert (parse_serp_analysis_output_opt (answer retrieval_of_two) (Some crawled_urls)
          = Ok "See [<sup>1</sup>](https://a.org/x) and [<sup>3</sup>](https://c.org/z).")
    as -> by (vm_compute; reflexivity).
  change (document_sources (source_documents retrieval_of_two))
    with (Ok ["https://b.org/y"; "https://c.org/z"]).
  cbv beta iota. unfold crawled_urls.
  rewrite remap_citations_KeyError; [done|by vm_compute|].
  apply enumerate_from_None. rewrite elem_of_set_to_list.
  rewrite elem_of_list_to_set, !elem_of_cons. intros [H|[H|H]]; [done|done|].
  by apply elem_of_nil in H.
Qed.

(** ** CitationFormatter: markers that have a link *)

Lemma replace_reference_in_range (links : list string) (ds url : string) :
  (String.length ds ≤ int_max_str_digits)%nat →
  1 ≤ int_of_digits ds →
  links !! Z.to_nat (int_of_digits ds - 1) = Some url →
  replace_reference (Some links) (mkMatch (Some ds) None)
  = Ok (rendered_citation (int_of_digits ds) url).
Proof.
  intros Hlen Hn Hl. pose proof (lookup_lt_Some _ _ _ Hl) as Hlt.
  unfold replace_reference. cbn [group1].
  rewrite (py_int_ok _ Hlen). cbn [mbind result_bind].
  rewrite decide_True by lia.
  unfold py_index. rewrite decide_True by lia. by rewrite Hl.
Qed.

Lemma parse_marker_in_range (pre mk ds post : string) (links : list string)
    (url a b : string) :
  is_marker mk ds →
  (String.length ds ≤ int_max_str_digits)%nat →
  1 ≤ int_of_digits ds →
  links !! Z.to_nat (int_of_digits ds - 1) = Some url →
  parse_serp_analysis_output pre links = Ok a →
  parse_serp_analysis_output post links = Ok b →
  parse_serp_analysis_output (pre +:+ mk +:+ post) links
  = Ok (a +:+ rendered_citation (int_of_digits ds) url +:+ b).
Proof.
  intros Hmk Hlen Hn Hl Ha Hb.
  rewrite (parse_serp_analysis_output_marker _ _ _ _ _ Hmk), Ha, Hb.
  by rewrite (replace_reference_in_range _ _ _ Hlen Hn Hl).
Qed.

(** X1: a marker whose number [n], written with at most 4300 digits, is
    between 1 and the number of links is replaced, where it stands, by the
    citation that carries [n], in digits that read back as [n], and the
    link at position [n]; the text before and the text after it are
    linkified on their own. *)
Theorem linkify_in_range (pre mk ds post : string) (links : list string)
    (url a b : string) :
  is_marker mk ds →
  (String.length ds ≤ int_max_str_digits)%nat →
  1 ≤ int_of_digits ds →
  links !! Z.to_nat (int_of_digits ds - 1) = Some url →
  parse_serp_analysis_output pre links = Ok a →
  parse_serp_analysis_output post links = Ok b →
  parse_serp_analysis_output (pre +:+ mk +:+ post) links
  = Ok (a +:+ "[<sup>" +:+ str_of_int (int_of_digits ds) +:+ "</sup>]("
          +:+ url +:+ ")" +:+ b) ∧
  all_digits (str_of_int (int_of_digits ds)) = true ∧
  int_of_digits (str_of_int (int_of_digits ds)) = int_of_digits ds.
Proof.
  intros Hmk Hlen Hn Hl Ha Hb. split.
  - rewrite (parse_marker_in_range pre mk ds post links url a b Hmk Hlen Hn Hl Ha Hb).
    unfold rendered_citation. by rewrite !str_app_assoc.
  - destruct (str_of_int_digits (int_of_digits ds)) as (? & _ & ?); [lia|done].
Qed.

(** ** Numbers that are written and read back *)

Lemma result_links_lookup (R : list SearchResult) :
  ∀ links k r,
    result_links R = Ok links → R !! k = Some r → links !! k = link r.
Proof.
  induction R as [|r' R IH]; intros links k r H Hk; [done|].
  simpl in H. destruct (link r') as [l|] eqn:El; [|done].
  destruct (result_links R) as [ls|] eqn:E; [|done]. injection H as <-.
  destruct k as [|k]; simpl in *; [by injection Hk as <-|by apply (IH ls)].
Qed.

Lemma citation_of_position (k : nat) (links : list string) (url : string)
    (pre post a b : string) :
  links !! k = Some url →
  (String.length (str_of_int (Z.of_nat k + 1)) ≤ int_max_str_digits)%nat →
  parse_serp_analysis_output pre links = Ok a →
  parse_serp_analysis_output post links = Ok b →
  parse_serp_analysis_output
    (pre +:+ ("[reference:" +:+ str_of_int (Z.of_nat k + 1) +:+ "]") +:+ post) links
  = Ok (a +:+ rendered_citation (Z.of_nat k + 1) url +:+ b).
Proof.
  intros Hk Hlen Ha Hb.
  destruct (str_of_int_digits (Z.of_nat k + 1)) as (_ & _ & Hv); [lia|].
  rewrite (parse_marker_in_range pre
             ("[reference:" +:+ str_of_int (Z.of_nat k + 1) +:+ "]")
             (str_of_int (Z.of_nat k + 1)) post links url a b).
  - by rewrite Hv.
  - apply is_marker_of_int. lia.
  - done.
  - rewrite Hv. lia.
  - rewrite Hv. by replace (Z.to_nat (Z.of_nat k + 1 - 1)) with k by lia.
  - done.
  - done.
Qed.

(** X2: the numbers of the context and the positions of the links agree.
    When the search returns results that all carry a link and the model,
    asked with the context of the search, cites in an answer whose other
    parts linkify the number that the context gave to the result at 0-based
    position [k], [querySerpapi] with analysis returns the answer with that
    marker replaced by a citation of the link of that result. *)
Theorem querySerpapi_citation_resolves (query : string) (limit : Z)
    (engine : string) (st : State) (key : option string) (response : Response)
    (R : list SearchResult) (context : string) (links : list string) (k : nat)
    (r : SearchResult) (l pre post a b : string) :
  engine ∈ ["google"; "bing"] →
  lookup_serpapi_key (obj st) = Ok key →
  serpapi_get_dict
    (mkParams (restrict_to_official_sites query OFFICIAL_SITES) limit engine key)
  = Ok response →
  default [] (organic_results response) = R →
  (∀ r', r' ∈ R → is_Some (link r')) →
  (serpapi_context query limit engine st).1 = Ok (context, links) →
  R !! k = Some r →
  link r = Some l →
  (String.length (str_of_int (Z.of_nat k + 1)) ≤ int_max_str_digits)%nat →
  llm_invoke (serp_analysis_prompt query context)
  = Ok (pre +:+ ("[reference:" +:+ str_of_int (Z.of_nat k + 1) +:+ "]") +:+ post) →
  parse_serp_analysis_output pre links = Ok a →
  parse_serp_analysis_output post links = Ok b →
  (∃ entries,
     blank_line_joined entries context ∧
     entries !! k
     = Some ("[reference:" +:+ str_of_int (Z.of_nat k + 1) +:+ "] "
               +:+ default "" (title r) +:+ ": " +:+ default "" (snippet r))) ∧
  int_of_digits (str_of_int (Z.of_nat k + 1)) = Z.of_nat k + 1 ∧
  links !! k = Some l ∧
  (querySerpapi query limit true engine st).1
  = Ok (a +:+ "[<sup>" +:+ str_of_int (Z.of_nat k + 1) +:+ "</sup>]("
          +:+ l +:+ ")" +:+ b,
        links).
Proof.
  intros He Hk Hs HR Hall Hc Hr Hlink Hlen Hllm Ha Hb.
  destruct (result_links_ok R Hall) as (links0 & E & _ & _).
  assert (format_context R = Ok (str_join (nl +:+ nl) (context_entries 0 R), links0))
    as Hf.
  { unfold format_context.
    rewrite decide_True by (destruct R; [done|simpl; lia]). by rewrite E. }
  pose proof (serpapi_context_run query limit engine st key He Hk) as Hctx.
  simpl in Hctx. rewrite Hs, HR, Hf in Hctx.
  rewrite Hctx in Hc. cbn [fst] in Hc. injection Hc as <- <-.
  pose proof (result_links_lookup R links0 k r E Hr) as Hlk. rewrite Hlink in Hlk.
  pose proof (citation_of_position k links0 l pre post a b Hlk Hlen Ha Hb) as Hp.
  split.
  { exists (context_entries 0 R). split; [apply blank_line_joined_str_join|].
    by rewrite (context_entries_lookup R 0 k r Hr). }
  split; [by apply str_of_int_digits; lia|]. split; [done|].
  rewrite (querySerpapi_analysis _ _ _ _ _ _ _ Hctx). cbn [fst].
  rewrite Hllm. cbn. rewrite Hp. cbn.
  unfold rendered_citation. by rewrite !str_app_assoc.
Qed.

(** ** [remove_links] *)

Lemma match_exact_sound (lit s r : string) :
  match_exact lit s = Some r → s = lit +:+ r.
Proof.
  revert s. induction lit as [|a lit IH]; intros s H.
  - by injection H as ->.
  - destruct s as [|c s]; [done|]. simpl in H.
    destruct (Ascii.eqb a c) eqn:E; [|done]. apply Ascii.eqb_eq in E as ->.
    by rewrite (IH _ H).
Qed.

Lemma match_exact_complete (lit r : string) : match_exact lit (lit +:+ r) = Some r.
Proof.
  induction lit as [|a lit IH]; [done|]. rewrite str_app_cons. simpl.
  by rewrite Ascii.eqb_refl.
Qed.

Lemma all_nonspace_app (a b : string) :
  all_nonspace (a +:+ b) = all_nonspace a && all_nonspace b.
Proof.
  induction a as [|c a IH]; [done|]. rewrite str_app_cons. simpl.
  by rewrite IH, andb_assoc.
Qed.

Lemma take_nonspace_sound (s w r : string) :
  take_nonspace s = (w, r) →
  s = w +:+ r ∧ all_nonspace w = true ∧
  (r = "" ∨ ∃ c r', r = String c r' ∧ is_whitespace c = true).
Proof.
  revert w r. induction s as [|c s IH]; intros w r H; simpl in H.
  - injection H as <- <-. auto.
  - destruct (is_whitespace c) eqn:Hc.
    + injection H as <- <-. split; [done|]. split; [done|]. right. eauto.
    + destruct (take_nonspace s) as [w' r'] eqn:E. injection H as <- <-.
      destruct (IH _ _ eq_refl) as (-> & Hw & Hr).
      split; [done|]. split; [|done]. simpl. by rewrite Hc, Hw.
Qed.

Lemma match_nonspace_cons (c : ascii) (s : string) :
  is_whitespace c = false → is_Some (match_nonspace (String c s)).
Proof.
  intros Hc. unfold match_nonspace. simpl. rewrite Hc.
  destruct (take_nonspace s). by eexists.
Qed.

Lemma skip_s_spec (s : string) : ∃ sp, (sp = "" ∨ sp = "s") ∧ s = sp +:+ skip_s s.
Proof.
  destruct s as [|c s]; [exists ""; auto|]. simpl.
  destruct (Ascii.eqb c "s") eqn:E.
  - apply Ascii.eqb_eq in E as ->. exists "s". auto.
  - exists "". auto.
Qed.

(** A match is a non-empty run without whitespace that starts with "http"
    or "www." and ends at a whitespace or at the end of the text; whatever
    follows that run, the pattern matches there. *)
Lemma url_match_inv (s rest : string) :
  url_match s = Some rest →
  ∃ q,
    s = q +:+ rest ∧ q ≠ "" ∧ all_nonspace q = true ∧
    (rest = "" ∨ ∃ c r, rest = String c r ∧ is_whitespace c = true) ∧
    (String.prefix "http" s = true ∨ String.prefix "www." s = true) ∧
    ∀ y, is_Some (url_match (q +:+ y)).
Proof.
  unfold url_match, mbind, option_bind. intros H.
  destruct (match_exact "http" s) as [s1|] eqn:E1.
  - destruct (match_exact "://" (skip_s s1)) as [s2|] eqn:E2.
    + destruct (match_nonspace s2) as [rest'|] eqn:E3.
      * injection H as ->. unfold match_nonspace in E3.
        destruct (take_nonspace s2) as [[|x w] r] eqn:E4; [done|].
        injection E3 as ->.
        apply take_nonspace_sound in E4 as (-> & Hw & Hr).
        apply match_exact_sound in E1 as ->.
        apply match_exact_sound in E2.
        destruct (skip_s_spec s1) as (sp & Hsp & Hs1). rewrite E2 in Hs1.
        subst s1.
        change (all_nonspace (String x w))
          with (negb (is_whitespace x) && all_nonspace w) in Hw.
        apply andb_true_iff in Hw as [Hx Hw]. apply negb_true_iff in Hx.
        exists ("http" +:+ sp +:+ "://" +:+ String x w).
        split; [by rewrite !str_app_assoc|].
        split; [done|].
        split; [|split; [done|split; [left; apply prefix_app|]]].
        { rewrite !all_nonspace_app.
          change (all_nonspace (String x w))
            with (negb (is_whitespace x) && all_nonspace w).
          rewrite Hx, Hw. by destruct Hsp as [-> | ->]. }
        intros y. rewrite !str_app_assoc, match_exact_complete.
        assert (skip_s (sp +:+ "://" +:+ String x w +:+ y)
                = "://" +:+ String x w +:+ y) as ->
          by (by destruct Hsp as [-> | ->]).
        rewrite match_exact_complete, str_app_cons.
        destruct (match_nonspace_cons x (w +:+ y) Hx) as [r' ->]. by eexists.
      * apply match_exact_sound in E1 as ->.
        by change (match_exact "www." ("http" +:+ s1)) with (@None string) in H.
    + apply match_exact_sound in E1 as ->.
      by change (match_exact "www." ("http" +:+ s1)) with (@None string) in H.
  - destruct (match_exact "www." s) as [s1|] eqn:E2; [|done].
    unfold match_nonspace in H.
    destruct (take_nonspace s1) as [[|x w] r] eqn:E4; [done|].
    injection H as ->.
    apply take_nonspace_sound in E4 as (-> & Hw & Hr).
    apply match_exact_sound in E2 as ->.
    change (all_nonspace (String x w))
      with (negb (is_whitespace x) && all_nonspace w) in Hw.
    apply andb_true_iff in Hw as [Hx Hw]. apply negb_true_iff in Hx.
    exists ("www." +:+ String x w).
    split; [by rewrite !str_app_assoc|]. split; [done|].
    split; [|split; [done|split; [right; apply prefix_app|]]].
    { rewrite all_nonspace_app.
      change (all_nonspace (String x w))
        with (negb (is_whitespace x) && all_nonspace w).
      by rewrite Hx, Hw. }
    intros y. rewrite !str_app_assoc.
    change (match_exact "http" ("www." +:+ String x w +:+ y)) with (@None string).
    rewrite match_exact_complete, str_app_cons.
    apply match_nonspace_cons, Hx.
Qed.

Lemma url_match_length (s rest : string) :
  url_match s = Some rest → (String.length rest < String.length s)%nat.
Proof.
  intros (q & -> & Hq & _)%url_match_inv. rewrite str_app_length.
  destruct q; [done|simpl; lia].
Qed.

Lemma url_match_whitespace (c : ascii) (s : string) :
  is_whitespace c = true → url_match (String c s) = None.
Proof.
  intros Hc. destruct (url_match (String c s)) as [rest|] eqn:E; [|done].
  apply url_match_inv in E as (q & Eq & Hq & Hns & _).
  destruct q as [|x q]; [done|]. rewrite str_app_cons in Eq.
  injection Eq as <- _. simpl in Hns. by rewrite Hc in Hns.
Qed.

Lemma remove_links_fuel_irrel (n : nat) :
  ∀ s f1 f2,
    (String.length s ≤ n)%nat →
    (String.length s ≤ f1)%nat → (String.length s ≤ f2)%nat →
    remove_links_fuel f1 s = remove_links_fuel f2 s.
Proof.
  induction n as [|n IH]; intros s f1 f2 Hn H1 H2.
  - destruct s; [by destruct f1, f2|simpl in Hn; lia].
  - destruct s as [|c s]; [by destruct f1, f2|].
    destruct f1 as [|f1]; [simpl in H1; lia|].
    destruct f2 as [|f2]; [simpl in H2; lia|].
    simpl in Hn, H1, H2. cbn [remove_links_fuel].
    destruct (url_match (String c s)) as [rest|] eqn:E.
    + apply url_match_length in E. simpl in E. apply IH; lia.
    + f_equal. apply IH; lia.
Qed.

(** One step of the scan. *)
Lemma remove_links_cons (c : ascii) (s : string) :
  remove_links (String c s) =
  match url_match (String c s) with
  | Some rest => remove_links rest
  | None => String c (remove_links s)
  end.
Proof.
  unfold remove_links. cbn [String.length remove_links_fuel].
  destruct (url_match (String c s)) as [rest|] eqn:E; [|done].
  apply url_match_length in E. simpl in E.
  apply (remove_links_fuel_irrel (String.length s)); lia.
Qed.

Lemma remove_links_match (s rest : string) :
  url_match s = Some rest → remove_links s = remove_links rest.
Proof.
  intros H. destruct s as [|c s]; [apply url_match_length in H; simpl in H; lia|].
  by rewrite remove_links_cons, H.
Qed.

Lemma has_url_unfold (t : string) :
  has_url t =
  match url_match t with
  | Some _ => true
  | None => match t with "" => false | String _ t' => has_url t' end
  end.
Proof. by destruct t. Qed.

Lemma remove_links_no_url (t : string) : has_url t = false → remove_links t = t.
Proof.
  induction t as [|c t IH]; [done|]. rewrite has_url_unfold, remove_links_cons.
  destruct (url_match (String c t)); [done|]. intros H. by rewrite IH.
Qed.

Lemma has_url_substring (t : string) :
  has_url t = true → str_in "http" t = true ∨ str_in "www." t = true.
Proof.
  induction t as [|c t IH]; rewrite has_url_unfold.
  - intros H. by vm_compute in H.
  - destruct (url_match (String c t)) as [rest|] eqn:E.
    + intros _. apply url_match_inv in E as (_ & _ & _ & _ & _ & [H|H] & _);
        rewrite !(str_in_unfold _ (String c t)), H; auto.
    + intros H. rewrite !(str_in_unfold _ (String c t)).
      destruct (IH H) as [-> | ->]; rewrite orb_true_r; auto.
Qed.

(** The first character of the result is a whitespace left after a removed
    link, or the first character of the text. *)
Lemma remove_links_head (s : string) (d : ascii) (out : string) :
  remove_links s = String d out →
  is_whitespace d = true ∨
  ∃ s', s = String d s' ∧ out = remove_links s' ∧ url_match s = None.
Proof.
  remember (String.length s) as n eqn:Hn. revert s Hn.
  induction (lt_wf n) as [n _ IH]. intros s -> H.
  destruct s as [|c s]; [done|]. rewrite remove_links_cons in H.
  destruct (url_match (String c s)) as [rest|] eqn:E.
  - pose proof (url_match_length _ _ E) as Hlen.
    apply url_match_inv in E as (_ & _ & _ & _ & [->|(w & r & -> & Hw)] & _);
      [done|].
    rewrite remove_links_cons, (url_match_whitespace _ _ Hw) in H.
    injection H as <- _. by left.
  - injection H as <- <-. right. by exists s.
Qed.

(** A run without whitespace at the start of the result stood at the start
    of the text. *)
Lemma remove_links_nonspace_prefix (q : string) :
  all_nonspace q = true →
  ∀ s out, remove_links s = q +:+ out → ∃ s', s = q +:+ s'.
Proof.
  induction q as [|d q IH]; intros Hq s out H; [by exists s|].
  simpl in Hq. apply andb_true_iff in Hq as [Hd Hq]. apply negb_true_iff in Hd.
  rewrite str_app_cons in H.
  apply remove_links_head in H as [Hw|(s' & -> & Hout & _)]; [congruence|].
  destruct (IH Hq s' out (eq_sym Hout)) as [s'' ->]. by exists s''.
Qed.

Lemma has_url_remove_links (t : string) : has_url (remove_links t) = false.
Proof.
  remember (String.length t) as n eqn:Hn. revert t Hn.
  induction (lt_wf n) as [n _ IH]. intros t ->.
  destruct t as [|c t]; [done|]. rewrite remove_links_cons.
  destruct (url_match (String c t)) as [rest|] eqn:E.
  - by apply (IH _ (url_match_length _ _ E)).
  - rewrite has_url_unfold.
    assert (String.length t < String.length (String c t))%nat as Hlt
      by (simpl; lia).
    rewrite (IH _ Hlt t eq_refl).
    destruct (url_match (String c (remove_links t))) as [r|] eqn:E'; [|done].
    apply url_match_inv in E' as (q & Eq & Hne & Hq & _ & _ & Hany).
    destruct q as [|x q]; [done|]. rewrite str_app_cons in Eq.
    injection Eq as <- Eq. simpl in Hq. apply andb_true_iff in Hq as [_ Hq].
    destruct (remove_links_nonspace_prefix q Hq t r Eq) as [s' ->].
    destruct (Hany s') as [r' Hr']. rewrite str_app_cons in Hr'. congruence.
Qed.

(** X4: a text in which neither "http" nor "www." occurs is returned as it
    is. *)
Theorem remove_links_without_links (text : string) :
  str_in "http" text = false → str_in "www." text = false →
  remove_links text = text.
Proof.
  intros H1 H2. apply remove_links_no_url.
  destruct (has_url text) eqn:E; [|done].
  destruct (has_url_substring _ E); congruence.
Qed.

(** X5: no link is left in the result, at any offset, and removing links a
    second time changes nothing. *)
Theorem remove_links_idempotent (text : string) :
  has_url (remove_links text) = false ∧
  remove_links (remove_links text) = remove_links text.
Proof.
  split; [apply has_url_remove_links|].
  apply remove_links_no_url, has_url_remove_links.
Qed.

(** X6: a link at the start of the text is removed up to the next
    whitespace, whatever characters other than whitespace follow the scheme,
    closing punctuation included; that whitespace is kept and the text after
    it is cleaned on its own. *)
Theorem remove_links_until_whitespace (w : string) (c : ascii) (post : string) :
  all_nonspace w = true → w ≠ "" → is_whitespace c = true →
  remove_links ("https://" +:+ w +:+ String c post) = String c (remove_links post) ∧
  remove_links ("http://" +:+ w +:+ String c post) = String c (remove_links post) ∧
  remove_links ("www." +:+ w +:+ String c post) = String c (remove_links post).
Proof.
  intros Hw Hne Hc.
  assert (take_nonspace (w +:+ String c post) = (w, String c post)) as Ht.
  { clear Hne. induction w as [|x w IH].
    - rewrite str_app_nil_l. simpl. by rewrite Hc.
    - simpl in Hw. apply andb_true_iff in Hw as [Hx Hw].
      apply negb_true_iff in Hx. rewrite str_app_cons. simpl.
      by rewrite Hx, (IH Hw). }
  assert (match_nonspace (w +:+ String c post) = Some (String c post)) as Hm.
  { unfold match_nonspace. rewrite Ht. by destruct w. }
  assert (∀ r, remove_links (String c r) = String c (remove_links r)) as Hsp.
  { intros r. by rewrite remove_links_cons, (url_match_whitespace _ _ Hc). }
  set (r := w +:+ String c post) in *.
  assert (url_match ("https://" +:+ r) = Some (String c post)) as H1.
  { change (url_match ("https://" +:+ r))
      with (match match_nonspace r with Some rest => Some rest | None => None end).
    by rewrite Hm. }
  assert (url_match ("http://" +:+ r) = Some (String c post)) as H2.
  { change (url_match ("http://" +:+ r))
      with (match match_nonspace r with Some rest => Some rest | None => None end).
    by rewrite Hm. }
  assert (url_match ("www." +:+ r) = Some (String c post)) as H3.
  { change (url_match ("www." +:+ r)) with (match_nonspace r). exact Hm. }
  by rewrite (remove_links_match _ _ H1), (remove_links_match _ _ H2),
    (remove_links_match _ _ H3), Hsp.
Qed.

(** ** SearchRestrictor *)

Lemma substring_of_app_l (x s t : string) : substring_of x s → substring_of x (s +:+ t).
Proof.
  intros (pre & post & ->). exists pre, (post +:+ t). by rewrite !str_app_assoc.
Qed.

Lemma substring_of_app_r (x s t : string) : substring_of x t → substring_of x (s +:+ t).
Proof.
  intros (pre & post & ->). exists (s +:+ pre), post. by rewrite !str_app_assoc.
Qed.

Lemma substring_of_refl (x : string) : substring_of x x.
Proof. exists "", "". by rewrite str_app_nil_l, str_app_nil_r. Qed.

(** Every element of a list stands in its join. *)
Lemma substring_of_str_join (sep x : string) (l : list string) :
  x ∈ l → substring_of x (str_join sep l).
Proof.
  induction l as [|y l IH]; intros Hx; [by apply elem_of_nil in Hx|].
  rewrite str_join_cons. apply elem_of_cons in Hx as [-> |Hx].
  - destruct l; [apply substring_of_refl|apply substring_of_app_l, substring_of_refl].
  - destruct l as [|z l]; [by apply elem_of_nil in Hx|].
    by apply substring_of_app_r, substring_of_app_r, IH.
Qed.

(** X7: the restricted query starts with the query as it was given, and
    names every site of the list as a [site:] filter; with an empty list it
    is the query followed by an empty pair of parentheses. *)
Theorem restrict_to_official_sites_names_sites (query : string)
    (official_sites : list string) :
  String.prefix query (restrict_to_official_sites query official_sites) = true ∧
  (∀ site, site ∈ official_sites →
     substring_of ("site:" +:+ site)
       (restrict_to_official_sites query official_sites)) ∧
  restrict_to_official_sites query [] = query +:+ " ()".
Proof.
  split; [apply prefix_app|]. split; [|done].
  intros site Hs. unfold restrict_to_official_sites.
  apply substring_of_app_r, substring_of_app_r, substring_of_app_l.
  apply substring_of_str_join, list_elem_of_fmap. by exists site.
Qed.

(** ** LinkFilter: edges *)

(** X8: an excluded entry whose host and path are both empty excludes every
    candidate. *)
Theorem link_filter_empty_fragment (all_links excluded_links : list string)
    (e : string) :
  e ∈ excluded_links →
  netloc (urlparse e) +:+ path (urlparse e) = "" →
  link_filter all_links excluded_links = ∅.
Proof.
  intros He Hempty. apply set_eq. intros x. split; [|by intros ?%not_elem_of_empty].
  intros [_ Hx]%elem_of_link_filter. exfalso. apply (Hx e He).
  rewrite Hempty. exists "", x. by rewrite !str_app_nil_l.
Qed.

(** X9: the result is a subset of the candidates and depends only on which
    candidates and which excluded entries are given, not on their order or
    their repetitions. *)
Theorem link_filter_set_of_inputs (all1 all2 ex1 ex2 : list string) :
  (∀ x, x ∈ all1 ↔ x ∈ all2) →
  (∀ e, e ∈ ex1 ↔ e ∈ ex2) →
  link_filter all1 ex1 = link_filter all2 ex2 ∧
  ∀ x, x ∈ link_filter all1 ex1 → x ∈ all1.
Proof.
  intros Hall Hex. split.
  - apply set_eq. intros x. rewrite !elem_of_link_filter, Hall.
    split; intros [Hx Hn]; (split; [done|]); intros e He; apply Hn, Hex, He.
  - by intros x [Hx _]%elem_of_link_filter.
Qed.

(** ** Crawling *)

(** X10: the loader fetches, in order, the URLs that do not end in ".pdf"
    with the page loader and, only when "pdf" is among the extra loaders,
    those that end in ".pdf" with the PDF loader; without that loader a PDF
    is skipped.  When every fetch returns it returns the pages, in order.
    When a fetch raises, the exception is that of the first fetch that
    fails and nothing is fetched after it.  The object is left as it is. *)
Theorem load_htmls_pdf_gate (us loaders : list string) (st : State) :
  let fetched :=
    if bool_decide ("pdf" ∈ loaders) then us
    else filter (λ u, endswith u ".pdf" = false) us in
  let fetch u := if endswith u ".pdf" then unstructured_url_load u
                 else async_html_load u in
  let event u := if endswith u ".pdf" then EvLoadPdf u else EvLoadHtml u in
  (∀ pages,
     Forall2 (λ u docs, fetch u = Ok docs) fetched pages →
     load_htmls us loaders st
     = (Ok (concat pages), mkState (obj st) (log st ++ (event <$> fetched)))) ∧
  (∀ e st',
     load_htmls us loaders st = (Raise e, st') →
     ∃ before u after,
       fetched = before ++ u :: after ∧
       Forall (λ v, ∃ docs, fetch v = Ok docs) before ∧
       fetch u = Raise e ∧
       st' = mkState (obj st) (log st ++ (event <$> before ++ [u]))).
Proof.
  intros fetched fetch event.
  change fetched with (fetched_urls us loaders).
  change fetch with fetch_page. change event with load_event.
  destruct (load_htmls_spec us loaders st)
    as [(pages & Hp & E)|(before & u & after & e & Hf & Hb & Hu & E)].
  - split.
    + intros pages' Hp'. by rewrite E, (fetched_pages_unique _ _ _ Hp Hp').
    + intros e st' H. by rewrite E in H.
  - split.
    + intros pages Hp. exfalso. rewrite Hf in Hp.
      apply Forall2_app_inv_l in Hp as (p1 & p2 & _ & Hp2 & _).
      inversion Hp2 as [|? d ? ? Hd]; subst. by rewrite Hu in Hd.
    + intros e' st' H. rewrite E in H. injection H as <- <-.
      by exists before, u, after.
Qed.

(** X11: after a crawl that returns, the URL list of the object has no
    repetition and holds only candidates that end with none of the excluded
    suffixes and contain the host and path of no excluded entry, those of
    the configuration included; when the configured maximum is not negative
    the list is not longer than it. *)
Theorem web_crawl_urls (us : list string) (excluded : option (list string))
    (st st' : State) :
  web_crawl us excluded st = (Ok (), st') →
  ∃ us',
    urls (obj st') = Some us' ∧
    NoDup us' ∧
    (0 ≤ max_scraped_websites (obj st) →
     Z.of_nat (length us') ≤ max_scraped_websites (obj st)) ∧
    ∀ u, u ∈ us' →
      u ∈ us ∧
      (∀ suffix, suffix ∈ excluded_link_suffixes → endswith u suffix = false) ∧
      (∀ e, e ∈ default [] excluded ++ excluded_links_config (obj st) →
         ¬ substring_of (netloc (urlparse e) +:+ path (urlparse e)) u).
Proof.
  intros H.
  set (kept :=
    link_filter
      (filter (λ url, ¬ existsb (endswith url) excluded_link_suffixes) us)
      (set_to_list (list_to_set (default [] excluded ++ excluded_links_config (obj st))))).
  destruct (decide (kept = ∅)) as [He|Hne].
  { by rewrite (web_crawl_no_sites us excluded st He) in H. }
  rewrite (web_crawl_run us excluded st Hne) in H. fold kept in H.
  destruct (load_htmls _ (extra_loaders (obj st)) st) as [[docs|e] st1]; [|done].
  injection H as <-. cbn [obj urls set_urls].
  eexists. split; [done|].
  assert (∀ u, u ∈ py_slice_to (set_to_list kept) (max_scraped_websites (obj st)) →
               u ∈ kept) as Hin.
  { intros u Hu. apply elem_of_set_to_list. unfold py_slice_to in Hu.
    case_decide; apply elem_of_take in Hu as (i & Hi & _);
      by apply list_elem_of_lookup_2 in Hi. }
  split.
  { unfold py_slice_to.
    case_decide; (eapply sublist_NoDup; [apply NoDup_set_to_list|apply sublist_take]). }
  split.
  { intros Hmax. unfold py_slice_to. rewrite decide_True by done.
    rewrite length_take. lia. }
  intros u Hu. apply Hin, elem_of_link_filter in Hu as [Hu Hex].
  apply list_elem_of_filter in Hu as [Hsuf Hu]. split; [done|]. split.
  - intros suffix Hs. destruct (endswith u suffix) eqn:E'; [|done].
    exfalso. apply Hsuf, Is_true_true, existsb_exists.
    exists suffix. by rewrite <- list_elem_of_In.
  - intros e He. apply Hex, elem_of_set_to_list, elem_of_list_to_set, He.
Qed.

(** X12: the crawl raises the ValueError of a crawl without site, before
    any fetch and with the state as it was, exactly when no candidate is
    left after the two filters.  Otherwise it fetches among the first
    candidates in the order of the set: when it returns it has stored the
    cleaned documents and that URL list and changed nothing else in the
    object; when a fetch raises the object is as it was. *)
Theorem web_crawl_returns (us : list string) (excluded : option (list string))
    (st : State) :
  let kept :=
    link_filter
      (filter (λ url, ¬ existsb (endswith url) excluded_link_suffixes) us)
      (set_to_list (list_to_set (default [] excluded ++ excluded_links_config (obj st)))) in
  let slice := py_slice_to (set_to_list kept) (max_scraped_websites (obj st)) in
  (kept = ∅ ↔ web_crawl us excluded st = (Raise (ValueError no_sites_to_scrape), st)) ∧
  (kept ≠ ∅ →
   ∃ fetched,
     log (web_crawl us excluded st).2 = log st ++ fetched ∧
     Forall (λ ev, ∃ u, u ∈ slice ∧ (ev = EvLoadHtml u ∨ ev = EvLoadPdf u)) fetched ∧
     match (web_crawl us excluded st).1 with
     | Ok _ =>
         ∃ docs,
           obj (web_crawl us excluded st).2
           = set_urls slice (set_documents (html2text docs) (obj st))
     | Raise _ => fetched ≠ [] ∧ obj (web_crawl us excluded st).2 = obj st
     end).
Proof.
  intros kept slice.
  assert (∀ l : list string,
            (∀ u, u ∈ l → u ∈ slice) →
            Forall (λ ev, ∃ u, u ∈ slice ∧ (ev = EvLoadHtml u ∨ ev = EvLoadPdf u))
                   (load_event <$> l)) as Hev.
  { intros l Hl. apply Forall_fmap, Forall_forall. intros u Hu. exists u.
    split; [by apply Hl|]. unfold load_event. destruct (endswith u ".pdf"); auto. }
  assert (∀ u, u ∈ fetched_urls slice (extra_loaders (obj st)) → u ∈ slice) as Hsub.
  { intros u. unfold fetched_urls. case_bool_decide; [done|].
    by intros [_ ?]%list_elem_of_filter. }
  assert (kept ≠ ∅ →
          ∃ fetched,
            log (web_crawl us excluded st).2 = log st ++ fetched ∧
            Forall (λ ev, ∃ u, u ∈ slice ∧ (ev = EvLoadHtml u ∨ ev = EvLoadPdf u))
                   fetched ∧
            match (web_crawl us excluded st).1 with
            | Ok _ =>
                ∃ docs,
                  obj (web_crawl us excluded st).2
                  = set_urls slice (set_documents (html2text docs) (obj st))
            | Raise _ => fetched ≠ [] ∧ obj (web_crawl us excluded st).2 = obj st
            end) as Hrun.
  { intros Hne. rewrite (web_crawl_run us excluded st Hne).
    fold kept. fold slice.
    destruct (load_htmls_spec slice (extra_loaders (obj st)) st)
      as [(pages & Hp & ->)|(before & u & after & e & Hf & Hb & Hu & ->)];
      cbn [fst snd obj log].
    - eexists. split; [done|]. split; [by apply Hev|]. by eexists.
    - eexists. split; [done|]. split.
      + apply Hev. intros v Hv. apply Hsub. rewrite Hf.
        rewrite elem_of_app in Hv. rewrite elem_of_app, elem_of_cons.
        destruct Hv as [Hv|Hv%list_elem_of_singleton]; auto.
      + split; [|done]. rewrite fmap_app. by destruct (load_event <$> before). }
  split; [|exact Hrun]. split.
  - apply web_crawl_no_sites.
  - intros E. destruct (decide (kept = ∅)) as [He|Hne]; [done|]. exfalso.
    destruct (Hrun Hne) as (fetched & Hlog & _ & Hr). rewrite E in Hlog, Hr.
    cbn [fst snd] in Hlog, Hr. destruct Hr as [Hf _].
    apply (f_equal length) in Hlog. rewrite length_app in Hlog.
    destruct fetched; [done|]. simpl in Hlog. lia.
Qed.

(** ** VectorIndexManager: the other branches *)

(** X13: when the persist directory exists and neither a reload nor an
    update is asked, the store is loaded and nothing else happens: no chunk
    is computed, so the call returns even before any crawl. *)
Theorem create_load_vector_store_loads (st : State) :
  let directory := default "NoneDirectory" (config_persist_directory (obj st)) in
  os_path_exists directory = true →
  create_load_vector_store false false st
  = (Ok (),
     mkState (set_vector_store (load_vdb directory (db_type (obj st))) (obj st))
             (log st ++ [EvLoadEmbeddingModel;
                         EvVdb (load_vdb directory (db_type (obj st)))])).
Proof.
  intros directory Hex.
  unfold create_load_vector_store, load_embedding_model, call_vectordb.
  unfold mbind at 1, M_bind, get_self. cbv beta iota zeta.
  fold directory. rewrite Hex. cbn [andb negb]. run.
  by rewrite <- List.app_assoc.
Qed.

(** X14: when the persist directory exists, an update loads the store and
    then updates it at that directory with the tagged chunks, whether or not
    a reload is asked; a reload without update creates the store anew at
    that directory. *)
Theorem create_load_vector_store_existing (st : State) (us : list string)
    (docs : list Document) (force_reload : bool) :
  urls (obj st) = Some us →
  documents (obj st) = Some docs →
  let chunks :=
    add_reference chunk_contains (enumerate_from 0 us ∅)
      <$> split_documents (chunk_size (obj st)) (chunk_overlap (obj st)) docs in
  let directory := default "NoneDirectory" (config_persist_directory (obj st)) in
  os_path_exists directory = true →
  let updated := update_vdb chunks (db_type (obj st)) [Some directory] in
  let created := create_vector_store chunks (db_type (obj st)) (Some directory) in
  create_load_vector_store force_reload true st
  = (Ok (),
     mkState (set_vector_store updated (obj st))
             (log st ++ [EvLoadEmbeddingModel;
                         EvVdb (load_vdb directory (db_type (obj st)));
                         EvVdb updated])) ∧
  create_load_vector_store true false st
  = (Ok (),
     mkState (set_vector_store created (obj st))
             (log st ++ [EvLoadEmbeddingModel; EvVdb created])).
Proof.
  intros Hus Hdocs chunks directory Hex updated created.
  pose proof (get_text_chunks_run
                (mkState (obj st) (log st ++ [EvLoadEmbeddingModel])) us docs Hus)
    as Hrun. simpl in Hrun.
  split.
  - unfold create_load_vector_store, load_embedding_model, call_vectordb.
    unfold mbind at 1, M_bind, get_self. cbv beta iota zeta.
    fold directory. rewrite Hex. rewrite andb_false_r. cbn [andb].
    unfold mbind at 1, M_bind, emit. cbv beta iota.
    unfold mbind at 1, M_bind. rewrite Hdocs, Hrun. run.
    by rewrite <- !List.app_assoc.
  - unfold create_load_vector_store, load_embedding_model, call_vectordb.
    unfold mbind at 1, M_bind, get_self. cbv beta iota zeta.
    fold directory. rewrite Hex. cbn [andb negb].
    unfold mbind at 1, M_bind, emit. cbv beta iota.
    unfold mbind at 1, M_bind. rewrite Hdocs, Hrun. run.
    by rewrite <- List.app_assoc.
Qed.

(** X15: before any crawl the URL list is [None] and every branch that
    needs the chunks raises TypeError before any call on the vector
    database: [create_and_save_local] leaves the state as it is, and
    [create_load_vector_store] has only loaded the embedding model. *)
Theorem vector_store_before_crawl (st : State) :
  urls (obj st) = None →
  (∀ input_directory persist_directory update,
     create_and_save_local input_directory persist_directory update st
     = (Raise TypeError, st)) ∧
  (∀ force_reload update,
     os_path_exists (default "NoneDirectory" (config_persist_directory (obj st)))
       && negb force_reload && negb update = false →
     create_load_vector_store force_reload update st
     = (Raise TypeError, mkState (obj st) (log st ++ [EvLoadEmbeddingModel]))).
Proof.
  intros Hus.
  assert (∀ d s o l,
            get_text_chunks_with_references d s o (mkState (obj st) l)
            = (Raise TypeError, mkState (obj st) l)) as Hraise.
  { intros d s o l. unfold get_text_chunks_with_references. run. by rewrite Hus. }
  split.
  - intros input_directory persist_directory update.
    unfold create_and_save_local.
    unfold mbind at 1, M_bind, get_self. cbv beta iota zeta.
    unfold mbind at 1, M_bind.
    assert (get_text_chunks_with_references (documents (obj st))
              (chunk_size (obj st)) (chunk_overlap (obj st)) st
            = (Raise TypeError, st)) as ->; [|done].
    unfold get_text_chunks_with_references. run. by rewrite Hus.
  - intros force_reload update Hcase.
    unfold create_load_vector_store, load_embedding_model.
    unfold mbind at 1, M_bind, get_self. cbv beta iota zeta.
    unfold mbind at 1, M_bind, emit. cbv beta iota. rewrite Hcase.
    by destruct (_ && update); unfold mbind at 1, M_bind; rewrite Hraise.
Qed.

(** X16: on an existing persist directory [create_and_save_local] with
    [update] updates the store, giving the input directory and the persist
    directory, and records the update in the configuration; without
    [update] it creates the store at the persist directory.  An empty
    [persist_directory] argument stands for the configured one. *)
Theorem create_and_save_local_existing (st : State) (us : list string)
    (docs : list Document) (input_directory persist_directory : option string) :
  urls (obj st) = Some us →
  documents (obj st) = Some docs →
  let chunks :=
    add_reference chunk_contains (enumerate_from 0 us ∅)
      <$> split_documents (chunk_size (obj st)) (chunk_overlap (obj st)) docs in
  let directory :=
    str_or persist_directory
      (default "NoneDirectory" (config_persist_directory (obj st))) in
  os_path_exists directory = true →
  let updated :=
    update_vdb chunks (db_type (obj st)) [input_directory; Some directory] in
  let created := create_vector_store chunks (db_type (obj st)) (Some directory) in
  create_and_save_local input_directory persist_directory true st
  = (Ok (),
     mkState (set_vector_store updated (set_config_update true (obj st)))
             (log st ++ [EvLoadEmbeddingModel; EvVdb updated])) ∧
  create_and_save_local input_directory persist_directory false st
  = (Ok (),
     mkState (set_vector_store created (obj st))
             (log st ++ [EvLoadEmbeddingModel; EvVdb created])) ∧
  str_or (Some "") (default "NoneDirectory" (config_persist_directory (obj st)))
  = default "NoneDirectory" (config_persist_directory (obj st)).
Proof.
  intros Hus Hdocs chunks directory Hex updated created.
  split; [|split; [|done]].
  - unfold create_and_save_local, load_embedding_model, call_vectordb.
    unfold mbind at 1, M_bind, get_self. cbv beta iota zeta.
    fold directory. unfold mbind at 1, M_bind. rewrite Hdocs.
    rewrite (get_text_chunks_run st us docs Hus). rewrite Hex. run.
    by rewrite <- List.app_assoc.
  - unfold create_and_save_local, load_embedding_model, call_vectordb.
    unfold mbind at 1, M_bind, get_self. cbv beta iota zeta.
    fold directory. unfold mbind at 1, M_bind. rewrite Hdocs.
    rewrite (get_text_chunks_run st us docs Hus). rewrite Hex. run.
    by rewrite <- List.app_assoc.
Qed.

(** ** [search_and_scrape]: the other outcomes *)

(** X17: only the method "serpapi" can be used: with any other search
    method [search_and_scrape] raises before it searches or crawls, an
    AttributeError for "serper" and "openserp", whose query methods the
    class does not define, and an UnboundLocalError otherwise. *)
Theorem search_and_scrape_other_method (query search_method : string)
    (max_results : Z) (search_engine : string) (st : State) :
  search_method ≠ "serpapi" →
  search_and_scrape query search_method max_results search_engine st
  = (Raise (if String.eqb search_method "serper" then AttributeError "querySerper"
            else if String.eqb search_method "openserp"
                 then AttributeError "queryOpenSerp"
                 else UnboundLocalError "links"),
     st).
Proof.
  intros Hm. apply String.eqb_neq in Hm. unfold search_and_scrape. rewrite Hm.
  unfold mbind at 1, M_bind.
  by destruct (String.eqb search_method "serper"),
              (String.eqb search_method "openserp").
Qed.

Lemma slice_of_set (kept : gset string) (m : Z) :
  NoDup (py_slice_to (set_to_list kept) m) ∧
  ∀ u, u ∈ py_slice_to (set_to_list kept) m → u ∈ kept.
Proof.
  split.
  - unfold py_slice_to.
    case_decide; (eapply sublist_NoDup; [apply NoDup_set_to_list|apply sublist_take]).
  - intros u Hu. apply elem_of_set_to_list. unfold py_slice_to in Hu.
    case_decide; apply elem_of_take in Hu as (i & Hi & _);
      by apply list_elem_of_lookup_2 in Hi.
Qed.

Lemma create_and_save_local_creates (st : State) (us : list string)
    (docs : list Document) (input_directory persist_directory : option string) :
  urls (obj st) = Some us →
  documents (obj st) = Some docs →
  let chunks :=
    add_reference chunk_contains (enumerate_from 0 us ∅)
      <$> split_documents (chunk_size (obj st)) (chunk_overlap (obj st)) docs in
  let directory :=
    str_or persist_directory
      (default "NoneDirectory" (config_persist_directory (obj st))) in
  let created :=
    create_vector_store chunks (db_type (obj st))
      (if os_path_exists directory then Some directory else None) in
  create_and_save_local input_directory persist_directory false st
  = (Ok (),
     mkState (set_vector_store created (obj st))
             (log st ++ [EvLoadEmbeddingModel; EvVdb created])).
Proof.
  intros Hus Hdocs chunks directory created.
  unfold create_and_save_local, load_embedding_model, call_vectordb.
  unfold mbind at 1, M_bind, get_self. cbv beta iota zeta.
  fold directory. unfold mbind at 1, M_bind. rewrite Hdocs.
  rewrite (get_text_chunks_run st us docs Hus). subst created.
  destruct (os_path_exists directory); run; by rewrite <- List.app_assoc.
Qed.

(** X18: a call of [search_and_scrape] that returns after the search gave
    links returns nothing, and what it has done after the search is this, in
    this order: it fetched pages of the URL list it leaves, loaded the
    embedding model, created a vector store from the chunks of the
    documents it leaves, at the configured directory when that directory
    exists and without directory otherwise, and set the conversational
    retrieval chain; it updated no store.  The URL list has no repetition
    and holds only links that the search returned. *)
Theorem search_and_scrape_builds_store (query : string) (max_results : Z)
    (search_engine : string) (st st0 st' : State) (context : string)
    (links : list string) (r : option string) :
  querySerpapi query max_results false search_engine st = (Ok (context, links), st0) →
  links ≠ [] →
  search_and_scrape query "serpapi" max_results search_engine st = (Ok r, st') →
  ∃ us' pages,
    let docs' := html2text (concat pages) in
    let fetched :=
      if bool_decide ("pdf" ∈ extra_loaders (obj st0)) then us'
      else filter (λ u, endswith u ".pdf" = false) us' in
    let chunks :=
      add_reference chunk_contains (enumerate_from 0 us' ∅)
        <$> split_documents (chunk_size (obj st0)) (chunk_overlap (obj st0)) docs' in
    let directory := default "NoneDirectory" (config_persist_directory (obj st0)) in
    let created :=
      create_vector_store chunks (db_type (obj st0))
        (if os_path_exists directory then Some directory else None) in
    r = None ∧
    Forall2 (λ u docs,
               (if endswith u ".pdf" then unstructured_url_load u
                else async_html_load u) = Ok docs) fetched pages ∧
    obj st' = set_vector_store created (set_urls us' (set_documents docs' (obj st0))) ∧
    log st'
    = log st0
        ++ ((λ u, if endswith u ".pdf" then EvLoadPdf u else EvLoadHtml u) <$> fetched)
        ++ [EvLoadEmbeddingModel; EvVdb created; EvSetRetrievalQaChain true] ∧
    NoDup us' ∧ ∀ u, u ∈ us' → u ∈ links.
Proof.
  intros Hq Hlinks H.
  unfold search_and_scrape in H.
  change (String.eqb "serpapi" "serpapi") with true in H. cbv iota in H.
  unfold mbind at 1, M_bind in H. unfold mbind at 1, M_bind in H. rewrite Hq in H.
  unfold mret at 1, M_ret in H.
  rewrite decide_True in H by (destruct links; [done|simpl; lia]).
  unfold mbind at 1, M_bind in H.
  set (kept :=
    link_filter
      (filter (λ url, ¬ existsb (endswith url) excluded_link_suffixes) links)
      (set_to_list (list_to_set (default [] None ++ excluded_links_config (obj st0))))).
  destruct (decide (kept = ∅)) as [He|Hne].
  { by rewrite (web_crawl_no_sites links None st0 He) in H. }
  rewrite (web_crawl_run links None st0 Hne) in H. fold kept in H.
  set (us' := py_slice_to (set_to_list kept) (max_scraped_websites (obj st0))) in *.
  destruct (load_htmls_spec us' (extra_loaders (obj st0)) st0)
    as [(pages & Hp & E)|(before & u & after & e & _ & _ & _ & E)];
    rewrite E in H; [|done].
  cbn [obj log] in H. unfold clean_docs in H.
  unfold mbind at 1, M_bind in H.
  rewrite (create_and_save_local_creates
             (mkState (set_urls us' (set_documents (html2text (concat pages)) (obj st0)))
                      (log st0 ++ (load_event <$> fetched_urls us' (extra_loaders (obj st0)))))
             us' (html2text (concat pages)) None None eq_refl eq_refl) in H.
  unfold set_retrieval_qa_chain in H. revert H. run. intros [= <- <-].
  exists us', pages. cbv zeta.
  destruct (slice_of_set kept (max_scraped_websites (obj st0))) as [Hnd Hin].
  split; [done|]. split; [exact Hp|]. split; [done|]. split.
  { cbn [log]. by rewrite <- !List.app_assoc. }
  split; [exact Hnd|].
  intros v Hv. apply Hin in Hv. unfold kept in Hv.
  apply elem_of_link_filter in Hv as [Hv _].
  by apply list_elem_of_filter in Hv as [_ Hv].
Qed.

(** ** RetrievalCitationRemapper: the other outcomes *)

Lemma remap_citations_absent (links : list string)
    (question_sources_map : gmap string Z) (parsed_answer : string) :
  (∀ link, link ∈ links → str_in link parsed_answer = false) →
  ∀ i, remap_citations i links question_sources_map parsed_answer = Ok parsed_answer.
Proof.
  induction links as [|link links IH]; intros H i; [done|]. simpl.
  rewrite (H link) by (by left). apply IH. intros l Hl. apply H. by right.
Qed.

Lemma remap_citations_raise (links : list string)
    (question_sources_map : gmap string Z) :
  ∀ i parsed_answer e,
    remap_citations i links question_sources_map parsed_answer = Raise e →
    ∃ link, e = KeyError link ∧ link ∈ links ∧ question_sources_map !! link = None.
Proof.
  induction links as [|link links IH]; intros i parsed e H; [done|].
  simpl in H. destruct (str_in link parsed).
  - destruct (question_sources_map !! link) as [j|] eqn:E.
    + destruct (IH _ _ _ H) as (l & -> & Hl & Hn). exists l.
      split; [done|]. split; [by right|done].
    + injection H as <-. exists link. split; [done|]. split; [by left|done].
  - destruct (IH _ _ _ H) as (l & -> & Hl & Hn). exists l.
    split; [done|]. split; [by right|done].
Qed.

Lemma enumerate_from_is_Some (sites : list string) (x : string) :
  ∀ i acc, x ∈ sites → is_Some (enumerate_from i sites acc !! x).
Proof.
  induction sites as [|a sites IH]; intros i acc Hx; [by apply elem_of_nil in Hx|].
  simpl. destruct (decide (x ∈ sites)) as [Hin|Hnot]; [by apply IH|].
  apply elem_of_cons in Hx as [-> |Hx]; [|done].
  rewrite (enumerate_from_notin _ _ Hnot), lookup_insert_eq. by eexists.
Qed.

Lemma parse_retrieval_output_run (result : RetrievalResult) (st : State)
    (us sources : list string) (parsed : string) :
  urls (obj st) = Some us →
  parse_serp_analysis_output (answer result) us = Ok parsed →
  document_sources (source_documents result) = Ok sources →
  parse_retrieval_output result st
  = (remap_citations 0 us
       (enumerate_from 0 (set_to_list (list_to_set sources)) ∅) parsed,
     st).
Proof.
  intros Hus Hp Hs. unfold parse_retrieval_output, mbind, M_bind, get_self, lift.
  cbv beta iota zeta. rewrite Hus.
  unfold parse_serp_analysis_output in Hp. by rewrite Hp, Hs.
Qed.

(** X19: when no crawled URL occurs in the linkified answer, whatever
    sources were retrieved, the result is the linkified answer; so an answer
    without citation is safe. *)
Theorem parse_retrieval_output_no_citation (result : RetrievalResult) (st : State)
    (us sources : list string) (parsed : string) :
  urls (obj st) = Some us →
  parse_serp_analysis_output (answer result) us = Ok parsed →
  document_sources (source_documents result) = Ok sources →
  (∀ link, link ∈ us → str_in link parsed = false) →
  parse_retrieval_output result st = (Ok parsed, st).
Proof.
  intros Hus Hp Hs Hno.
  rewrite (parse_retrieval_output_run _ _ _ _ _ Hus Hp Hs).
  by rewrite remap_citations_absent.
Qed.

(** X20: once the answer is linkified and the retrieved documents have a
    source, the only exception of the remapping is the KeyError of a
    crawled URL that is not among the retrieved sources; when every crawled
    URL was retrieved, an answer is returned. *)
Theorem parse_retrieval_output_only_KeyError (result : RetrievalResult)
    (st : State) (us sources : list string) (parsed : string) :
  urls (obj st) = Some us →
  parse_serp_analysis_output (answer result) us = Ok parsed →
  document_sources (source_documents result) = Ok sources →
  (∀ e st', parse_retrieval_output result st = (Raise e, st') →
     ∃ link, e = KeyError link ∧ link ∈ us ∧ link ∉ sources) ∧
  ((∀ link, link ∈ us → link ∈ sources) →
   ∃ out, parse_retrieval_output result st = (Ok out, st)).
Proof.
  intros Hus Hp Hs.
  rewrite (parse_retrieval_output_run _ _ _ _ _ Hus Hp Hs).
  assert (∀ e, remap_citations 0 us
                 (enumerate_from 0 (set_to_list (list_to_set sources)) ∅) parsed
               = Raise e →
               ∃ link, e = KeyError link ∧ link ∈ us ∧ link ∉ sources) as Hraise.
  { intros e (link & -> & Hl & Hn)%remap_citations_raise.
    exists link. split; [done|]. split; [done|]. intros Hin.
    destruct (enumerate_from_is_Some (set_to_list (list_to_set sources)) link 0 ∅)
      as [j Hj]; [|congruence].
    by apply elem_of_set_to_list, elem_of_list_to_set. }
  split.
  - intros e st' [= H _]. by apply Hraise.
  - intros Hall.
    destruct (remap_citations 0 us _ parsed) as [out|e] eqn:E; [by exists out|].
    destruct (Hraise e eq_refl) as (link & _ & Hl & Hn).
    exfalso. by apply Hn, Hall.
Qed.

(** X21: before any crawl the URL list is [None] and every call raises,
    leaving the state as it is. *)
Theorem parse_retrieval_output_before_crawl (result : RetrievalResult) (st : State) :
  urls (obj st) = None →
  ∃ e, parse_retrieval_output result st = (Raise e, st).
Proof.
  intros Hus. unfold parse_retrieval_output, mbind, M_bind, get_self, lift, raise.
  cbv beta iota zeta. rewrite Hus.
  destruct (parse_serp_analysis_output_opt (answer result) None); [|by eexists].
  destruct (document_sources (source_documents result)); by eexists.
Qed.

(** ** The sources of a turn in [streamlit/app.py] *)

Lemma str_in_nl_cons (c : ascii) (s : string) :
  str_in nl (String c s) = Ascii.eqb c "010" || str_in nl s.
Proof.
  rewrite (str_in_unfold nl (String c s)). f_equal.
  destruct (Ascii.eqb c "010") eqn:E.
  - apply Ascii.eqb_eq in E as ->. exact (prefix_app nl s).
  - apply Ascii.eqb_neq in E. unfold nl. cbn [String.prefix].
    by destruct (ascii_dec "010" c) as [<-|Hne].
Qed.

Lemma str_in_nl_app (a b : string) :
  str_in nl (a +:+ b) = str_in nl a || str_in nl b.
Proof.
  induction a as [|c a IH]; [done|].
  by rewrite str_app_cons, !str_in_nl_cons, IH, orb_assoc.
Qed.

Lemma digits_no_nl (ds : string) : all_digits ds = true → str_in nl ds = false.
Proof.
  induction ds as [|c ds IH]; [done|]. cbn [all_digits].
  intros [Hc Hd]%andb_true_iff.
  rewrite str_in_nl_cons, (IH Hd), orb_false_r.
  destruct (Ascii.eqb c "010") eqn:E; [|done]. by apply Ascii.eqb_eq in E as ->.
Qed.

Lemma py_split_no_nl (s : string) : str_in nl s = false → py_split "010" s = [s].
Proof.
  induction s as [|c s IH]; [done|]. rewrite str_in_nl_cons.
  intros [Hc Hs]%orb_false_iff. simpl. by rewrite Hc, (IH Hs).
Qed.

Lemma py_split_line (a b : string) :
  str_in nl a = false →
  py_split "010" (a +:+ nl +:+ b) = a :: py_split "010" b.
Proof.
  induction a as [|c a IH]; [done|]. rewrite str_in_nl_cons.
  intros [Hc Ha]%orb_false_iff. rewrite str_app_cons. simpl.
  by rewrite Hc, (IH Ha).
Qed.

Lemma sources_text_split (sources : list string) :
  (∀ source, source ∈ sources → str_in nl source = false) →
  ∀ index, 1 ≤ index →
    ∃ lines,
      py_split "010" (sources_text_from index sources) = lines ++ [""] ∧
      length lines = length sources ∧
      ∀ k source, sources !! k = Some source →
        lines !! k =
          Some (font_grey (str_of_int (index + Z.of_nat k) +:+ ". " +:+ source)
                  +:+ "  ").
Proof.
  induction sources as [|src sources IH]; intros Hnl index Hi.
  - exists []. by repeat split.
  - destruct (IH (λ x Hx, Hnl x (list_elem_of_further _ _ _ Hx)) (index + 1))
      as (lines & Hsplit & Hlen & Hk); [lia|].
    exists ((font_grey (str_of_int index +:+ ". " +:+ src) +:+ "  ") :: lines).
    split; [|split; [simpl; by rewrite Hlen|]].
    + cbn [sources_text_from]. rewrite !str_app_assoc.
      rewrite <- (str_app_assoc _ "  " (nl +:+ _)).
      rewrite py_split_line, Hsplit; [done|].
      unfold font_grey. rewrite !str_in_nl_app.
      destruct (str_of_int_digits index) as (Hd & _ & _); [lia|].
      rewrite (digits_no_nl _ Hd), (Hnl src) by (by left). done.
    + intros [|k] source Hs; simpl in Hs.
      * injection Hs as ->. change (Z.of_nat 0) with 0. by rewrite Z.add_0_r.
      * replace (index + Z.of_nat (S k)) with (index + 1 + Z.of_nat k) by lia.
        exact (Hk _ _ Hs).
Qed.

(** X22: the text that a turn stores for its sources is read back line by
    line when the turn is displayed: when no source contains a line break,
    splitting the stored text and dropping the last field gives one line per
    source, in the order of iteration, the line of the source at 0-based
    position [k] being its number [k + 1], a dot, the source, in grey, with
    two trailing spaces. *)
Theorem sources_text_round_trip (sources : list string) :
  (∀ source, source ∈ sources → str_in nl source = false) →
  length (sources_lines (sources_text sources)) = length sources ∧
  ∀ k source, sources !! k = Some source →
    sources_lines (sources_text sources) !! k =
      Some (font_grey (str_of_int (Z.of_nat k + 1) +:+ ". " +:+ source) +:+ "  ").
Proof.
  intros Hnl.
  destruct (sources_text_split sources Hnl 1) as (lines & Hsplit & Hlen & Hk); [lia|].
  assert (sources_lines (sources_text sources) = lines) as ->.
  { unfold sources_lines, sources_text, py_slice_to. rewrite Hsplit.
    rewrite decide_False by lia. rewrite length_app. simpl.
    replace (Z.to_nat (Z.of_nat (length lines + 1) + -1)) with (length lines) by lia.
    by rewrite take_app_length. }
  split; [done|]. intros k source Hs.
  replace (Z.of_nat k + 1) with (1 + Z.of_nat k) by lia. exact (Hk _ _ Hs).
Qed.

Lemma row_cells_take (lines : list string) (i : nat) :
  row_cells lines i [0; 1; 2]%nat = font_grey <$> take 3 (drop (i * 3) lines).
Proof.
  pose proof (length_drop lines (i * 3)) as Hlen.
  pose proof (lookup_drop lines (i * 3)) as Hlk.
  destruct (drop (i * 3) lines) as [|a [|b [|c d]]] eqn:E; simpl in Hlen; cbn [row_cells].
  - by rewrite decide_True by lia.
  - rewrite decide_False by lia. rewrite decide_True by lia.
    by rewrite <- (Hlk 0%nat).
  - rewrite !decide_False by lia. rewrite decide_True by lia.
    by rewrite <- (Hlk 0%nat), <- (Hlk 1%nat).
  - rewrite !decide_False by lia.
    by rewrite <- (Hlk 0%nat), <- (Hlk 1%nat), <- (Hlk 2%nat).
Qed.

Lemma concat_rows (lines : list string) (n : nat) :
  concat ((λ i, font_grey <$> take 3 (drop (i * 3) lines)) <$> seq 0 n)
  = font_grey <$> take (n * 3) lines.
Proof.
  induction n as [|n IH]; [done|].
  rewrite seq_S, fmap_app, concat_app, IH. simpl. rewrite app_nil_r.
  rewrite <- fmap_app, take_take_drop. do 2 f_equal. lia.
Qed.

(** X23: the grid of the sources popover has one row of three columns for
    every three lines and one more; row [i] shows, left to right, the lines
    at positions [3i], [3i + 1] and [3i + 2] that exist, so that every line
    is shown exactly once, in order; when the number of lines is a multiple
    of three the last row is empty. *)
Theorem sources_grid_cells (lines : list string) :
  length (sources_grid lines) = (length lines `div` 3 + 1)%nat ∧
  (∀ i row, sources_grid lines !! i = Some row →
     row = font_grey <$> take 3 (drop (i * 3) lines)) ∧
  concat (sources_grid lines) = font_grey <$> lines ∧
  ((length lines `mod` 3 = 0)%nat → last (sources_grid lines) = Some []).
Proof.
  assert (sources_grid lines
          = (λ i, font_grey <$> take 3 (drop (i * 3) lines))
              <$> seq 0 (length lines `div` 3 + 1)) as Hgrid.
  { unfold sources_grid. apply list_fmap_ext. intros _ i _. apply row_cells_take. }
  split; [|split; [|split]].
  - unfold sources_grid. by rewrite length_fmap, length_seq.
  - intros i row Hi. rewrite Hgrid, list_lookup_fmap in Hi.
    destruct (seq 0 _ !! i) as [j|] eqn:Ej; [|done].
    apply lookup_seq in Ej as [-> _]. by injection Hi as <-.
  - rewrite Hgrid, concat_rows. f_equal. apply take_ge.
    pose proof (Nat.div_mod_eq (length lines) 3).
    pose proof (Nat.mod_upper_bound (length lines) 3). lia.
  - intros Hmod. rewrite Hgrid, Nat.add_1_r, seq_S, fmap_app, last_app.
    cbn [fmap list_fmap last]. f_equal. rewrite drop_ge; [done|].
    pose proof (Nat.div_mod_eq (length lines) 3). lia.
Qed.

(** ** [basic_call] *)

Ltac run_sr :=
  unfold mbind, SR_bind, mret, SR_ret, sr_raise, sr_lift, sr_get, sr_modify;
  cbv beta iota zeta.

(** Outside a conversation [basic_call] with "serpapi" is [querySerpapi]
    with analysis. *)
Lemma basic_call_not_conversational (query : string)
    (reformulated_query : option string) (max_results : Z) (search_engine : string)
    (c : Conversation) :
  basic_call query reformulated_query "serpapi" max_results search_engine false c
  = on_assistant
      (querySerpapi (default query reformulated_query) max_results true search_engine) c.
Proof.
  unfold basic_call.
  change (String.eqb "serpapi" "serpapi") with true. cbv beta iota zeta.
  unfold on_assistant. run_sr.
  by destruct (querySerpapi _ _ _ _ _) as [[[answer links]|e] st'].
Qed.

Lemma basic_call_run (query : string) (reformulated_query : option string)
    (max_results : Z) (search_engine : string) (c : Conversation) (st' : State)
    (answer : string) (links : list string) :
  querySerpapi (default query reformulated_query) max_results true search_engine
    (assistant c)
  = (Ok (answer, links), st') →
  basic_call query reformulated_query "serpapi" max_results search_engine false c
  = (Ok (answer, links), mkConversation st' (memory c)) ∧
  (memory c = None →
   basic_call query reformulated_query "serpapi" max_results search_engine true c
   = (Raise (AttributeError "save_context"), mkConversation st' None)) ∧
  (∀ saved, memory c = Some saved →
   basic_call query reformulated_query "serpapi" max_results search_engine true c
   = (_ ← memory_save_context (saved ++ [(query, answer)]); Ok (answer, links),
      mkConversation st' (Some (saved ++ [(query, answer)])))).
Proof.
  intros H. split.
  { rewrite basic_call_not_conversational. unfold on_assistant. by rewrite H. }
  unfold basic_call.
  change (String.eqb "serpapi" "serpapi") with true. cbv beta iota zeta.
  unfold on_assistant, save_context. run_sr. rewrite H. cbn [memory assistant].
  split.
  - by intros ->.
  - intros saved ->. by destruct (memory_save_context _) as [[]|e].
Qed.

(** X24: with the method "serpapi", [basic_call] returns the answer and the
    links of [querySerpapi] with analysis on the reformulated query, or on
    the query when no reformulated query is given.  In a conversation it
    saves the query as it was asked, not the reformulated one, with that
    answer; when the memory was never initialised it raises AttributeError,
    after the search and the call of the model have been made. *)
Theorem basic_call_serpapi (query : string) (reformulated_query : option string)
    (max_results : Z) (search_engine : string) (c : Conversation) (st' : State)
    (answer : string) (links : list string) :
  querySerpapi (default query reformulated_query) max_results true search_engine
    (assistant c)
  = (Ok (answer, links), st') →
  basic_call query reformulated_query "serpapi" max_results search_engine false c
  = (Ok (answer, links), mkConversation st' (memory c)) ∧
  (memory c = None →
   basic_call query reformulated_query "serpapi" max_results search_engine true c
   = (Raise (AttributeError "save_context"), mkConversation st' None)) ∧
  (∀ saved, memory c = Some saved →
   basic_call query reformulated_query "serpapi" max_results search_engine true c
   = (_ ← memory_save_context (saved ++ [(query, answer)]); Ok (answer, links),
      mkConversation st' (Some (saved ++ [(query, answer)])))).
Proof. apply basic_call_run. Qed.


(** X26: with a method other than "serpapi" [basic_call] raises before it
    searches and leaves the conversation as it is: AttributeError for
    "serper" and "openserp", whose query methods the class does not define;
    otherwise UnboundLocalError for the answer, or, in a conversation whose
    memory was never initialised, AttributeError. *)
Theorem basic_call_other_method (query : string) (reformulated_query : option string)
    (search_method : string) (max_results : Z) (search_engine : string)
    (conversational : bool) (c : Conversation) :
  search_method ≠ "serpapi" →
  basic_call query reformulated_query search_method max_results search_engine
    conversational c
  = (Raise (if String.eqb search_method "serper" then AttributeError "querySerper"
            else if String.eqb search_method "openserp"
                 then AttributeError "queryOpenSerp"
                 else if conversational && bool_decide (memory c = None)
                      then AttributeError "save_context"
                      else UnboundLocalError "answer"),
     c).
Proof.
  intros Hm. unfold basic_call.
  destruct (String.eqb search_method "serpapi") eqn:E1;
    [by apply String.eqb_eq in E1|].
  destruct (String.eqb search_method "serper"); [done|].
  destruct (String.eqb search_method "openserp"); [done|].
  run_sr. destruct conversational; [|done]. cbn [andb].
  destruct (memory c) as [saved|] eqn:Em.
  - rewrite bool_decide_false by done. done.
  - by rewrite bool_decide_true.
Qed.

(** ** [handle_user_input] *)

Lemma on_search_assistant_histories {A : Type} (m : SR Conversation A) (s : Session) :
  chat_history (on_search_assistant m s).2 = chat_history s ∧
  sources_history (on_search_assistant m s).2 = sources_history s ∧
  related_queries_history (on_search_assistant m s).2 = related_queries_history s ∧
  settings (on_search_assistant m s).2 = settings s.
Proof. unfold on_search_assistant. by destruct (m (search_assistant s)). Qed.

(** What a turn stores: the answer and the sources of the response of the
    method, and the related queries of the worker. *)
Lemma turn_response_run (user_question : string) (s : Session) :
  method s ∈ ["rag_query"; "basic_query"] →
  chat_history (turn_response user_question s).2 = chat_history s ∧
  sources_history (turn_response user_question s).2 = sources_history s ∧
  settings (turn_response user_question s).2 = settings s ∧
  match (turn_response user_question s).1 with
  | Ok (Some (reply, sources)) =>
      ∃ listed related,
        sources = list_to_set listed ∧
        related_queries_history (turn_response user_question s).2
        = related_queries_history s ++ [related] ∧
        (method s = "rag_query" ∧
         (∃ response s1,
            on_search_assistant (retrieval_call user_question) s = (Ok response, s1) ∧
            search_assistant (turn_response user_question s).2 = search_assistant s1 ∧
            reply = answer response ∧
            document_sources (source_documents response) = Ok listed ∧
            get_relevant_queries
              (py_str (session_query s) +:+ " - " +:+ user_question)
            = Ok related) ∨
         method s = "basic_query" ∧
         (∃ reformulated s1 search_method s2,
            on_search_assistant (reformulate_query_with_history user_question) s
            = (Ok reformulated, s1) ∧
            py_index (tool s) 0 = Some search_method ∧
            on_search_assistant
              (basic_call user_question (Some reformulated) search_method
                 (session_max_results s) (session_search_engine s) true) s1
            = (Ok (reply, listed), s2) ∧
            search_assistant (turn_response user_question s).2 = search_assistant s2 ∧
            get_relevant_queries reformulated = Ok related))
  | Ok None => False
  | Raise _ =>
      related_queries_history (turn_response user_question s).2
      = related_queries_history s
  end.
Proof.
  intros Hm. unfold turn_response. run_sr.
  destruct (String.eqb (method s) "rag_query") eqn:E1.
  - apply String.eqb_eq in E1.
    destruct (on_search_assistant_histories (retrieval_call user_question) s)
      as (H1 & H2 & H3 & H4).
    destruct (on_search_assistant (retrieval_call user_question) s)
      as [[response|e] s1] eqn:Ecall; [|done].
    cbn [fst snd] in *.
    destruct (document_sources (source_documents response)) as [listed|e] eqn:Es;
      [|done].
    destruct (get_relevant_queries _) as [related|e] eqn:Er; [|done].
    cbn. repeat split; try done.
    exists listed, related. split; [done|]. split; [by rewrite H3|].
    left. split; [done|]. by exists response, s1.
  - destruct (String.eqb (method s) "basic_query") eqn:E2.
    + apply String.eqb_eq in E2.
      destruct (on_search_assistant_histories
                  (reformulate_query_with_history user_question) s)
        as (H1 & H2 & H3 & H4).
      destruct (on_search_assistant (reformulate_query_with_history user_question) s)
        as [[reformulated|e] s1] eqn:Eref; [|done].
      cbn [fst snd] in *.
      destruct (py_index (tool s) 0) as [t|] eqn:Et; [|done].
      destruct (on_search_assistant_histories
                  (basic_call user_question (Some reformulated) t
                     (session_max_results s) (session_search_engine s) true) s1)
        as (H1' & H2' & H3' & H4').
      destruct (on_search_assistant (basic_call _ _ _ _ _ _) s1)
        as [[[reply listed]|e] s2] eqn:Ecall;
        [|cbn [fst snd] in *; by rewrite H1', H2', H3', H4'].
      cbn [fst snd] in *.
      destruct (get_relevant_queries reformulated) as [related|e] eqn:Er;
        [|cbn [fst snd]; by rewrite H1', H2', H3', H4'].
      cbn. rewrite H1', H2', H3'. repeat split; try done.
      * unfold settings in *. cbn. congruence.
      * exists listed, related. split; [done|]. split; [by rewrite H3|].
        right. split; [done|]. by exists reformulated, s1, t, s2.
    + exfalso. rewrite !elem_of_cons, elem_of_nil in Hm.
      destruct Hm as [Hm|[Hm|[]]]; rewrite Hm in *; discriminate.
Qed.

Lemma aligned_snoc (s : Session) (turns : list Turn) (t : Turn) :
  chat_history s = concat (turn_messages <$> turns) ++ turn_messages t →
  sources_history s = ((λ t : Turn, t.1.2) <$> turns) ++ [t.1.2] →
  related_queries_history s = ((λ t : Turn, t.2) <$> turns) ++ [t.2] →
  aligned s (turns ++ [t]).
Proof.
  intros H1 H2 H3. unfold aligned.
  rewrite !fmap_app, concat_app. cbn [fmap list_fmap concat].
  by rewrite H1, H2, H3, app_nil_r.
Qed.

(** X27: a call of [handle_user_input] adds a whole turn or nothing.  With
    one of the two methods, and histories that hold the turns so far, the
    histories hold the same turns after a call that raises or that is given
    no question, and one more turn after a call that answers: the question
    as it was typed, the answer of the response of the method, the text of
    the set of its sources, and the related queries that the worker
    returned; the response is that of [retrieval_call] on the question, its
    sources those of its documents, for "rag_query", and that of
    [basic_call] on the question and its reformulation for "basic_query".
    The settings are as before. *)
Theorem handle_user_input_aligned (user_question : option string) (s : Session)
    (turns : list Turn) :
  aligned s turns →
  method s ∈ ["rag_query"; "basic_query"] →
  settings (handle_user_input user_question s).2 = settings s ∧
  match (handle_user_input user_question s).1 with
  | Raise _ => aligned (handle_user_input user_question s).2 turns
  | Ok _ =>
      (user_question = None ∨ user_question = Some "") ∧
      handle_user_input user_question s = (Ok (), s) ∨
      ∃ question reply listed related,
        user_question = Some question ∧ question ≠ "" ∧
        aligned (handle_user_input user_question s).2
          (turns ++ [(question, reply,
                      sources_text (set_to_list (list_to_set listed)), related)]) ∧
        (method s = "rag_query" ∧
         (∃ response s1,
            on_search_assistant (retrieval_call question) s = (Ok response, s1) ∧
            search_assistant (handle_user_input user_question s).2
            = search_assistant s1 ∧
            reply = answer response ∧
            document_sources (source_documents response) = Ok listed ∧
            get_relevant_queries (py_str (session_query s) +:+ " - " +:+ question)
            = Ok related) ∨
         method s = "basic_query" ∧
         (∃ reformulated s1 search_method s2,
            on_search_assistant (reformulate_query_with_history question) s
            = (Ok reformulated, s1) ∧
            py_index (tool s) 0 = Some search_method ∧
            on_search_assistant
              (basic_call question (Some reformulated) search_method
                 (session_max_results s) (session_search_engine s) true) s1
            = (Ok (reply, listed), s2) ∧
            search_assistant (handle_user_input user_question s).2
            = search_assistant s2 ∧
            get_relevant_queries reformulated = Ok related))
  end.
Proof.
  intros (Hc & Hs & Hr) Hm.
  destruct user_question as [question|]; [|split; [done|]; left; by split; [left|]].
  destruct question as [|a q]; [split; [done|]; left; by split; [right|]|].
  assert (String a q ≠ "") as Hq by done.
  unfold handle_user_input. cbv beta iota.
  generalize dependent (String a q). intros question Hq.
  destruct (turn_response_run question s Hm) as (H1 & H2 & H3 & H4).
  run_sr.
  destruct (turn_response question s) as [[[[reply sources]|]|e] s1];
    cbn [fst snd] in *; [|done|].
  - destruct H4 as (listed & related & -> & H4 & Hresp). split; [exact H3|]. right.
    exists question, reply, listed, related.
    split; [done|]. split; [done|]. split; [|exact Hresp].
    apply aligned_snoc; cbn.
    + by rewrite H1, Hc, <- List.app_assoc.
    + by rewrite H2, Hs.
    + by rewrite H4, Hr.
  - split; [exact H3|]. unfold aligned. by rewrite H1, H2, H4.
Qed.

Lemma displayed_turns_of (turns : list Turn) :
  zip4 (py_even_items (concat (turn_messages <$> turns)))
       (py_even_items (tail (concat (turn_messages <$> turns))))
       ((λ t : Turn, t.1.2) <$> turns) ((λ t : Turn, t.2) <$> turns)
  = turns.
Proof.
  induction turns as [|[[[q a] src] rel] turns IH]; [done|].
  cbn [fmap list_fmap concat turn_messages fst snd app tail py_even_items zip4].
  f_equal.
  destruct (concat (turn_messages <$> turns)) as [|x l] eqn:E; [|exact IH].
  destruct turns as [|[[[q' a'] src'] rel'] turns']; [done|discriminate].
Qed.

(** X28: the turns that are displayed are the turns that were added.  When
    the histories hold the turns [turns], the loop over the zipped histories
    shows exactly these, in order, each question with its own answer, its
    own sources and its own related queries. *)
Theorem displayed_turns_aligned (s : Session) (turns : list Turn) :
  aligned s turns → displayed_turns s = turns.
Proof.
  intros (Hc & Hs & Hr). unfold displayed_turns.
  rewrite Hc, Hs, Hr. apply displayed_turns_of.
Qed.

(** X29: with any other method a question breaks the histories: the call
    adds the question to the chat history and then raises, since no branch
    has bound the response; the other histories are as before, so that the
    chat history no longer pairs questions with answers. *)
Theorem handle_user_input_other_method (question : string) (s : Session)
    (turns : list Turn) :
  method s ∉ ["rag_query"; "basic_query"] →
  question ≠ "" →
  handle_user_input (Some question) s
  = (Raise (UnboundLocalError "response"),
     set_chat_history (chat_history s ++ [question]) s) ∧
  (aligned s turns →
   ∀ turns', ¬ aligned (set_chat_history (chat_history s ++ [question]) s) turns').
Proof.
  intros Hm Hq. split.
  - destruct question as [|a q]; [done|].
    unfold handle_user_input, turn_response. run_sr.
    destruct (String.eqb (method s) "rag_query") eqn:E1.
    { apply String.eqb_eq in E1. destruct Hm. rewrite E1. by left. }
    destruct (String.eqb (method s) "basic_query") eqn:E2.
    { apply String.eqb_eq in E2. destruct Hm. rewrite E2. right. by left. }
    done.
  - intros (Hc & _ & _) turns' (Hc' & _ & _). cbn in Hc'.
    apply (f_equal length) in Hc'. rewrite Hc in Hc'.
    rewrite length_app in Hc'. cbn in Hc'.
    assert (∀ ts : list Turn, ∃ k, length (concat (turn_messages <$> ts)) = (2 * k)%nat)
      as Heven.
    { induction ts as [|t ts [k IH]]; [by exists 0%nat|].
      exists (S k). cbn. rewrite IH. lia. }
    destruct (Heven turns) as [k Hk]. destruct (Heven turns') as [k' Hk'].
    lia.
Qed.

Lemma sources_lines_length (sources : list string) :
  (∀ source, source ∈ sources → str_in nl source = false) →
  length (sources_lines (sources_text sources)) = length sources.
Proof.
  intros Hnl.
  destruct (sources_text_split sources Hnl 1) as (lines & Hsplit & Hlen & _); [lia|].
  unfold sources_lines, sources_text, py_slice_to. rewrite Hsplit.
  rewrite decide_False by lia. rewrite length_app. simpl.
  replace (Z.to_nat (Z.of_nat (length lines + 1) + -1)) with (length lines) by lia.
  by rewrite take_app_length.
Qed.

(** X30: a turn of the method "basic_query" that answers, whatever the
    memory was, unset included: the question is reformulated with the
    history, the reformulated question is searched and analysed, the memory
    is set and keeps the question as it was typed with the answer, and the
    session gains the question, the answer, the related queries of the
    reformulated question, and a sources text with one line for each
    distinct link. *)
Theorem handle_user_input_basic_turn (question : string) (s : Session)
    (search_methods : list string) (reformulated answer : string)
    (links : list string) (st' : State) (related : option (list string)) :
  method s = "basic_query" →
  tool s = "serpapi" :: search_methods →
  question ≠ "" →
  let c := search_assistant s in
  let saved := default [] (memory c) in
  let prompt := condensed_question_prompt (load_memory_variables saved) question in
  llm_invoke prompt = Ok reformulated →
  related_queries_chain reformulated = Ok related →
  querySerpapi reformulated (session_max_results s) true (session_search_engine s)
    (mkState (obj (assistant c)) (log (assistant c) ++ [EvLLM prompt]))
  = (Ok (answer, links), st') →
  memory_save_context (saved ++ [(question, answer)]) = Ok () →
  handle_user_input (Some question) s
  = (Ok (),
     mkSession (mkConversation st' (Some (saved ++ [(question, answer)])))
       (chat_history s ++ [question; answer])
       (sources_history s ++ [sources_text (set_to_list (list_to_set links))])
       (related_queries_history s ++ [default [] related])
       (method s) (session_query s) (tool s) (session_max_results s)
       (session_search_engine s)) ∧
  ((∀ l, l ∈ links → str_in nl l = false) →
   length (sources_lines (sources_text (set_to_list (list_to_set links))))
   = size (list_to_set links : gset string)).
Proof.
  intros Hm Ht Hq c saved prompt Hl Hr Hs Hsave. split.
  - destruct question as [|a q]; [done|].
    unfold handle_user_input. cbv beta iota.
    generalize dependent (String a q). intros question Hq prompt Hl Hs Hsave.
    unfold turn_response. run_sr. rewrite Hm.
    change (String.eqb "basic_query" "rag_query") with false.
    change (String.eqb "basic_query" "basic_query") with true.
    cbv beta iota.
    assert (on_search_assistant (reformulate_query_with_history question) s
            = (Ok reformulated,
               set_search_assistant
                 (mkConversation
                    (mkState (obj (assistant c)) (log (assistant c) ++ [EvLLM prompt]))
                    (Some saved)) s)) as ->.
    { unfold on_search_assistant, reformulate_query_with_history, init_memory,
        on_assistant. run_sr. fold c.
      assert (llm_invoke
                (condensed_question_prompt
                   (load_memory_variables (default [] (memory c))) question)
              = Ok reformulated) as Hl' by exact Hl.
      unfold saved, prompt, emit, lift.
      destruct (memory c) as [saved0|] eqn:Em; simpl in Hl' |- *; rewrite ?Em;
        simpl; by rewrite Hl'. }
    rewrite Ht. cbn [py_index].
    assert (py_index ("serpapi" :: search_methods) 0 = Some "serpapi") as ->.
    { unfold py_index. rewrite decide_True; [done|]. cbn [length]. lia. }
    assert (on_search_assistant
              (basic_call question (Some reformulated) "serpapi"
                 (session_max_results s) (session_search_engine s) true)
              (set_search_assistant
                 (mkConversation
                    (mkState (obj (assistant c)) (log (assistant c) ++ [EvLLM prompt]))
                    (Some saved)) s)
            = (Ok (answer, links),
               set_search_assistant
                 (mkConversation st' (Some (saved ++ [(question, answer)]))) s)) as ->.
    { unfold on_search_assistant. cbn [search_assistant set_search_assistant].
      rewrite (proj2 (proj2 (basic_call_run question (Some reformulated)
                               (session_max_results s) (session_search_engine s)
                               (mkConversation _ (Some saved)) st' answer links Hs))
                 saved eq_refl).
      by rewrite Hsave. }
    unfold get_relevant_queries. rewrite Hr. cbn [mbind result_bind].
    unfold set_sources_history, set_chat_history, set_related_queries_history,
      set_search_assistant.
    cbn. by rewrite Hm, Ht, <- List.app_assoc.
  - intros Hnl. rewrite sources_lines_length.
    + by rewrite (set_to_list_perm _).
    + intros l Hin. apply Hnl. apply elem_of_set_to_list in Hin.
      by apply elem_of_list_to_set in Hin.
Qed.

End SearchAssistant.

(** * The model on concrete inputs *)

Lemma sample_set_to_list_perm (s : gset string) : sample_set_to_list s ≡ₚ elements s.
Proof. reflexivity. Qed.

Example linkify_scenario :
  parse_serp_analysis_output "See [reference:2] for details." ["L1"; "L2"; "L3"]
  = Ok "See [<sup>2</sup>](L2) for details.".
Proof. vm_compute. reflexivity. Qed.

Example linkify_variants :
  parse_serp_analysis_output "a [REFERENCE: 12] b [Reference:1][reference:007]" ["L1"; "L2"]
  = Ok "a [<sup>12</sup>](#) b [<sup>1</sup>](L1)[<sup>7</sup>](#)".
Proof. vm_compute. reflexivity. Qed.

Example linkify_zero_without_links :
  parse_serp_analysis_output "[reference:0]" [] = Raise IndexError.
Proof. vm_compute. reflexivity. Qed.

Example linkify_near_markers :
  parse_serp_analysis_output "see [reference:] [reference:1 ] [reference:  2]" ["L1"]
  = Ok "see [reference:] [reference:1 ] [reference:  2]".
Proof. vm_compute. reflexivity. Qed.

Example str_replace_overlapping : str_replace "aaa-aa" "aa" "b" = "ba-b".
Proof. reflexivity. Qed.

Example endswith_pdf :
  endswith "https://h.org/a.pdf" ".pdf" = true ∧
  endswith "https://h.org/a.pdf?x" ".pdf" = false.
Proof. split; reflexivity. Qed.

Example py_index_negative :
  py_index ["a"; "b"; "c"] (-1) = Some "c" ∧ py_index ["a"; "b"; "c"] 3 = None ∧
  py_index (@nil string) (-1) = None.
Proof. repeat split; reflexivity. Qed.

Example py_slice_negative : py_slice_to ["a"; "b"; "c"] (-1) = ["a"; "b"].
Proof. reflexivity. Qed.

Example restrict_two_sites :
  restrict_to_official_sites "battery" ["a.com"; "b.org"]
  = "battery (site:a.com OR site:b.org)".
Proof. reflexivity. Qed.

(** When every cited site was retrieved the citations are renumbered in the
    order in which the set of retrieved sources is iterated; the sample
    order lists the third site before the second. *)
Example remap_cited_sources :
  sample_set_to_list {[ "https://b.org/y"; "https://c.org/z" ]}
  = ["https://c.org/z"; "https://b.org/y"] ∧
  (parse_retrieval_output sample_set_to_list retrieval_cited crawled_state).1
  = Ok "See [<sup>2</sup>](https://b.org/y) and [<sup>1</sup>](https://c.org/z).".
Proof. split; vm_compute; reflexivity. Qed.

(** ** CitationFormatter *)

Lemma long_number_length : (int_max_str_digits < String.length long_number)%nat.
Proof. apply Nat.ltb_lt. vm_compute. reflexivity. Qed.

Lemma long_number_marker :
  is_marker ("[reference:" +:+ long_number +:+ "]") long_number.
Proof.
  apply is_marker_plain.
  - intros H. apply (f_equal String.length) in H. vm_compute in H. discriminate.
  - vm_compute. reflexivity.
Qed.

(** C5 at a marker of 4301 digits, whose number exceeds the two links: the
    operation raises; and at a marker numbered 7, which is replaced by the
    placeholder. *)
Lemma linkify_out_of_range_witness :
  parse_serp_analysis_output
    ("See " +:+ ("[reference:" +:+ long_number +:+ "]") +:+ " now.") ["L1"; "L2"]
  = Raise (ValueError (int_limit_message long_number)) ∧
  parse_serp_analysis_output ("See " +:+ "[Reference: 7]" +:+ " now.") ["L1"; "L2"]
  = Ok ("See " +:+ "[<sup>" +:+ str_of_int (int_of_digits "7") +:+ "</sup>](#)"
          +:+ " now.").
Proof.
  split.
  - apply (proj1 (proj2 (linkify_out_of_range ["L1"; "L2"]))
             "See " ("[reference:" +:+ long_number +:+ "]") long_number " now." "See ").
    + exact long_number_marker.
    + exact long_number_length.
    + vm_compute. reflexivity.
  - apply (proj1 (linkify_out_of_range ["L1"; "L2"])
             "See " "[Reference: 7]" "7" " now." "See " " now.").
    + exists "[Reference:", " ". repeat split; try reflexivity; [by right|done].
    + apply Nat.leb_le. vm_compute. reflexivity.
    + vm_compute. reflexivity.
    + vm_compute. reflexivity.
    + vm_compute. reflexivity.
Defined.

Example linkify_long_marker :
  parse_serp_analysis_output ("[reference:" +:+ long_number +:+ "]") ["L1"; "L2"]
  = Raise (ValueError
             "Exceeds the limit (4300 digits) for integer string conversion: value has 4301 digits; use sys.set_int_max_str_digits() to increase the limit").
Proof. vm_compute. reflexivity. Qed.

(** C8 at the false positive named by the specification. *)
Lemma linkify_marker_free_witness :
  parse_serp_analysis_output "reference: see footnote" ["L1"]
  = Ok "reference: see footnote".
Proof.
  apply (linkify_marker_free "reference: see footnote" ["L1"]).
  apply has_marker_false. vm_compute. reflexivity.
Defined.

(** C10 with two links. *)
Lemma linkify_reference_zero_witness :
  parse_serp_analysis_output ("x " +:+ "[reference:0]" +:+ " y") ["L1"; "L2"]
  = Ok ("x " +:+ "[<sup>0</sup>](" +:+ "L2" +:+ ")" +:+ " y").
Proof.
  apply (linkify_reference_zero "x " " y" ["L1"; "L2"] "L2" "x " " y");
    vm_compute; reflexivity.
Defined.

(** ** SearchClient *)

Lemma sample_results_have_links (r : SearchResult) :
  r ∈ sample_results → is_Some (link r).
Proof.
  unfold sample_results. rewrite !elem_of_cons, elem_of_nil.
  intros [-> | [-> | [-> | []]]]; by eexists.
Qed.

(** C6 as stated fails on two results of which the second carries no link:
    the context is the sentinel, which holds no marker; and on one result
    whose title cites a reference: the context holds two markers. *)
Lemma querySerpapi_context_counterexample :
  (serpapi_context linkless_search None None "battery" 3 "google" sample_state).1
  = Ok ("Answer not found", []) ∧
  markers "Answer not found" = [] ∧
  (serpapi_context cited_search None None "battery" 3 "google" sample_state).1
  = Ok ("[reference:1] See [reference:7]: drains fast", ["L1"]) ∧
  markers "[reference:1] See [reference:7]: drains fast" = ["1"; "7"].
Proof. repeat split; vm_compute; reflexivity. Qed.

(** C6, as amended, on three results, the second without title, the third
    without snippet. *)
Lemma querySerpapi_context_markers_witness :
  ∃ entries links context,
    (serpapi_context sample_search None None "battery" 3 "google" sample_state).1
    = Ok (context, links) ∧
    blank_line_joined entries context ∧
    length entries = length sample_results ∧
    length links = length sample_results ∧
    (∀ k r, sample_results !! k = Some r →
       entries !! k =
         Some ("[reference:" +:+ str_of_int (Z.of_nat k + 1) +:+ "] "
                 +:+ default "" (title r) +:+ ": " +:+ default "" (snippet r)) ∧
       links !! k = link r) ∧
    int_of_digits <$> markers context = [1; 2; 3].
Proof.
  destruct (querySerpapi_context_markers sample_search None None sample_prompt
              sample_llm "battery" 3 "google" sample_state None sample_response
              sample_results) as (_ & _ & H).
  - by left.
  - reflexivity.
  - reflexivity.
  - reflexivity.
  - destruct (H ltac:(done) sample_results_have_links)
      as (entries & links & context & H1 & H2 & H3 & H4 & H5 & H6).
    exists entries, links, context.
    split; [exact H1|]. split; [exact H2|]. split; [exact H3|].
    split; [exact H4|]. split; [exact H5|].
    rewrite H6; [reflexivity|].
    intros r. unfold sample_results. rewrite !elem_of_cons, elem_of_nil.
    intros [-> | [-> | [-> | []]]]; vm_compute; reflexivity.
Defined.

Example querySerpapi_sample_context :
  (querySerpapi sample_search None None sample_prompt sample_llm
     "battery" 3 false "google" sample_state).1
  = Ok ("[reference:1] Battery: drains fast" +:+ nl +:+ nl +:+
        "[reference:2] : charger" +:+ nl +:+ nl +:+
        "[reference:3] Sleep: ",
        ["L1"; "L2"; "L3"]).
Proof. vm_compute. reflexivity. Qed.

(** C7 as stated fails with analysis: the search raises, and the operation
    returns the answer of the model, not the sentinel. *)
Lemma querySerpapi_analysis_counterexample :
  (∀ p, failing_search p = Raise (ExternalError "connection reset")) ∧
  (querySerpapi failing_search None None sample_prompt sample_llm
     "battery" 5 true "google" sample_state).1
  = Ok ("No information.", []) ∧
  (querySerpapi failing_search None None sample_prompt sample_llm
     "battery" 5 true "google" sample_state).1
  ≠ Ok ("Answer not found", []).
Proof.
  split; [done|].
  assert ((querySerpapi failing_search None None sample_prompt sample_llm
             "battery" 5 true "google" sample_state).1
          = Ok ("No information.", [])) as E by (vm_compute; reflexivity).
  split; [exact E|]. rewrite E. discriminate.
Qed.

(** C7, as amended, on a search that raises and on an unknown engine. *)
Lemma querySerpapi_no_results_witness :
  (querySerpapi failing_search None None sample_prompt sample_llm
     "battery" 5 false "google" sample_state).1
  = Ok ("Answer not found", []) ∧
  (querySerpapi failing_search None None sample_prompt sample_llm
     "battery" 5 true "google" sample_state).1
  = Ok ("No information.", []) ∧
  querySerpapi failing_search None None sample_prompt sample_llm
    "battery" 5 true "yahoo" sample_state
  = (Raise (ValueError "engine must be either google or bing"), sample_state).
Proof.
  destruct (proj1 (querySerpapi_no_results failing_search None None sample_prompt
                     sample_llm "battery" 5 "google" sample_state) None)
    as [H1 H2].
  - by left.
  - reflexivity.
  - left. by eexists.
  - split; [by rewrite H1|]. split; [by rewrite H2|].
    apply (proj2 (querySerpapi_no_results failing_search None None sample_prompt
                    sample_llm "battery" 5 "yahoo" sample_state) true).
    rewrite !elem_of_cons, elem_of_nil. by intros [|[|]].
Defined.

(** ** LinkFilter *)

(** C9 on two candidates and one excluded entry. *)
Lemma link_filter_excludes_witness :
  "https://good.org/p" ∈
    link_filter sample_urlparse sample_set_to_list
      ["https://good.org/p"; "https://bad.com/a/b"] ["http://bad.com/a"] ∧
  ¬ substring_of "bad.com/a" "https://good.org/p" ∧
  link_filter sample_urlparse sample_set_to_list
    ["https://good.org/p"; "https://bad.com/a/b"] []
  = list_to_set ["https://good.org/p"; "https://bad.com/a/b"].
Proof.
  assert ("https://good.org/p" ∈
            link_filter sample_urlparse sample_set_to_list
              ["https://good.org/p"; "https://bad.com/a/b"] ["http://bad.com/a"])
    as Hin by (vm_compute; reflexivity).
  split; [exact Hin|]. split.
  - apply (proj1 (link_filter_excludes sample_urlparse sample_set_to_list
                    sample_set_to_list_perm
                    ["https://good.org/p"; "https://bad.com/a/b"]
                    ["http://bad.com/a"])
             "https://good.org/p" "http://bad.com/a" Hin).
    by left.
  - apply (proj2 (link_filter_excludes sample_urlparse sample_set_to_list
                    sample_set_to_list_perm
                    ["https://good.org/p"; "https://bad.com/a/b"] [])).
Defined.

Example link_filter_drops_excluded :
  link_filter sample_urlparse sample_set_to_list
    ["https://good.org/p"; "https://bad.com/a/b"] ["http://bad.com/a"]
  = {[ "https://good.org/p" ]}.
Proof. vm_compute. reflexivity. Qed.

(** ** DocumentChunker *)

(** C2 on three chunks: one from the second crawled site, one without
    source, one from a site that was not crawled; the three are tagged
    unknown. *)
Lemma chunks_tagged_unknown_witness :
  crawled_urls !! 1%nat = Some "https://b.org/y" ∧
  sample_chunks !! 0%nat = Some (mkDocument "alpha" {[ "source" := "https://b.org/y" ]}) ∧
  ∃ out,
    get_text_chunks_with_references sample_split sample_contains
      (Some sample_chunks) 1200 240 crawled_state
    = (Ok out, crawled_state) ∧
    length out = length (sample_split 1200 240 sample_chunks) ∧
    ∀ k chunk,
      sample_split 1200 240 sample_chunks !! k = Some chunk →
      ∃ chunk',
        out !! k = Some chunk' ∧
        metadata chunk' = metadata chunk ∧
        page_content chunk' =
          "[reference:unknown] " +:+ page_content chunk +:+ nl +:+ nl.
Proof.
  split; [reflexivity|]. split; [reflexivity|].
  apply (chunks_tagged_unknown sample_split sample_contains sample_chunks
           1200 240 crawled_state crawled_urls eq_refl).
  - lia.
  - done.
Defined.

Example chunks_sample_contents :
  page_content <$>
    (add_reference sample_contains (enumerate_from 0 crawled_urls ∅) <$> sample_chunks)
  = ["[reference:unknown] alpha" +:+ nl +:+ nl;
     "[reference:unknown] beta" +:+ nl +:+ nl;
     "[reference:unknown] gamma" +:+ nl +:+ nl].
Proof. vm_compute. reflexivity. Qed.

(** ** [search_and_scrape] *)

(** C3 as stated fails on a search whose only link is an image: no link is
    left after filtering, and the crawl raises instead of returning a
    message. *)
Lemma search_and_scrape_counterexample :
  (querySerpapi image_search None None sample_prompt sample_llm
     "logo" 5 false "google" sample_state).1
  = Ok ("[reference:1] Logo: picture", ["https://h.org/logo.png"]) ∧
  link_filter sample_urlparse sample_set_to_list
    (filter (λ url, ¬ existsb (endswith url) excluded_link_suffixes)
            ["https://h.org/logo.png"])
    (sample_set_to_list (list_to_set (excluded_links_config sample_assistant)))
  = ∅ ∧
  (search_and_scrape image_search None None sample_prompt sample_llm
     sample_urlparse sample_set_to_list sample_fetch sample_fetch
     sample_html2text sample_split sample_contains no_path
     "logo" "serpapi" 5 "google" sample_state).1
  = Raise (ValueError no_sites_to_scrape).
Proof. repeat split; vm_compute; reflexivity. Qed.

(** C3, as amended, on a search without results and on the image search. *)
Lemma search_and_scrape_no_links_witness :
  (search_and_scrape empty_search None None sample_prompt sample_llm
     sample_urlparse sample_set_to_list sample_fetch sample_fetch
     sample_html2text sample_split sample_contains no_path
     "logo" "serpapi" 5 "google" sample_state).1
  = Ok (Some "No links found for 'logo'. Try again") ∧
  (search_and_scrape image_search None None sample_prompt sample_llm
     sample_urlparse sample_set_to_list sample_fetch sample_fetch
     sample_html2text sample_split sample_contains no_path
     "logo" "serpapi" 5 "google" sample_state).1
  = Raise (ValueError no_sites_to_scrape).
Proof.
  split.
  - rewrite (proj1 (search_and_scrape_no_links empty_search None None
                      sample_prompt sample_llm sample_urlparse sample_set_to_list
                      sample_fetch sample_fetch sample_html2text sample_split sample_contains no_path
                      "logo" 5 "google" sample_state
                      (querySerpapi empty_search None None sample_prompt sample_llm
                         "logo" 5 false "google" sample_state).2
                      "Answer not found" [] eq_refl) eq_refl).
    reflexivity.
  - rewrite (proj2 (search_and_scrape_no_links image_search None None
                      sample_prompt sample_llm sample_urlparse sample_set_to_list
                      sample_fetch sample_fetch sample_html2text sample_split sample_contains no_path
                      "logo" 5 "google" sample_state
                      (querySerpapi image_search None None sample_prompt sample_llm
                         "logo" 5 false "google" sample_state).2
                      "[reference:1] Logo: picture" ["https://h.org/logo.png"]
                      eq_refl)).
    + reflexivity.
    + done.
    + vm_compute. reflexivity.
Defined.

(** ** VectorIndexManager *)

(** C4 as stated fails after a crawl when the persist directory does not
    exist and an update is requested: both operations return normally and
    the only call on the vector database creates a fresh store. *)
Lemma update_on_absent_directory_counterexample :
  no_path "NoneDirectory" = false ∧
  (create_load_vector_store sample_split sample_contains no_path
     false true crawled_state).1 = Ok () ∧
  log (create_load_vector_store sample_split sample_contains no_path
         false true crawled_state).2
  = [EvLoadEmbeddingModel;
     EvVdb (create_vector_store crawled_chunks "chroma" (Some "NoneDirectory"))] ∧
  (create_and_save_local sample_split sample_contains no_path
     None None true crawled_state).1 = Ok () ∧
  log (create_and_save_local sample_split sample_contains no_path
         None None true crawled_state).2
  = [EvLoadEmbeddingModel;
     EvVdb (create_vector_store crawled_chunks "chroma" None)].
Proof. repeat split; vm_compute; reflexivity. Qed.

(** C4, as amended, on the crawled assistant. *)
Lemma update_on_absent_directory_witness :
  urls (obj crawled_state) = Some crawled_urls ∧
  documents (obj crawled_state) = Some (concat (sample_load <$> crawled_urls)) ∧
  no_path "NoneDirectory" = false ∧
  create_load_vector_store sample_split sample_contains no_path
    false true crawled_state
  = (Ok (),
     mkState
       (set_vector_store
          (create_vector_store crawled_chunks "chroma" (Some "NoneDirectory"))
          crawled_assistant)
       [EvLoadEmbeddingModel;
        EvVdb (create_vector_store crawled_chunks "chroma" (Some "NoneDirectory"))]) ∧
  create_and_save_local sample_split sample_contains no_path
    None (Some "data/my-vector-db") true crawled_state
  = (Ok (),
     mkState
       (set_vector_store (create_vector_store crawled_chunks "chroma" None)
          crawled_assistant)
       [EvLoadEmbeddingModel;
        EvVdb (create_vector_store crawled_chunks "chroma" None)]).
Proof.
  split; [reflexivity|]. split; [reflexivity|]. split; [reflexivity|].
  pose proof (update_on_absent_directory sample_split sample_contains no_path
                crawled_state crawled_urls (concat (sample_load <$> crawled_urls))
                eq_refl eq_refl) as [H1 H2].
  split.
  - exact (H1 false eq_refl).
  - exact (H2 None (Some "data/my-vector-db") eq_refl).
Defined.

(** ** RetrievalCitationRemapper *)

(** C1 on the scenario, with the sample iteration order. *)
Lemma parse_retrieval_output_unused_source_witness :
  (∀ s, sample_set_to_list s ≡ₚ elements s) ∧
  parse_retrieval_output sample_set_to_list retrieval_of_two crawled_state
  = (Raise (KeyError "https://a.org/x"), crawled_state).
Proof.
  split; [exact sample_set_to_list_perm|].
  apply (parse_retrieval_output_unused_source sample_set_to_list
           sample_set_to_list_perm).
Defined.

(** ** CitationFormatter: markers that have a link *)

(** X1 at a marker numbered 2 with two links. *)
Lemma linkify_in_range_witness :
  parse_serp_analysis_output ("See " +:+ "[Reference: 2]" +:+ ".") ["L1"; "L2"]
  = Ok ("See " +:+ "[<sup>" +:+ str_of_int (int_of_digits "2") +:+ "</sup>]("
          +:+ "L2" +:+ ")" +:+ ".") ∧
  all_digits (str_of_int (int_of_digits "2")) = true ∧
  int_of_digits (str_of_int (int_of_digits "2")) = int_of_digits "2".
Proof.
  apply (linkify_in_range "See " "[Reference: 2]" "2" "." ["L1"; "L2"] "L2" "See " ".").
  - exists "[Reference:", " ". repeat split; try reflexivity; [by right|done].
  - apply Nat.leb_le. vm_compute. reflexivity.
  - by vm_compute.
  - reflexivity.
  - vm_compute. reflexivity.
  - vm_compute. reflexivity.
Defined.

Example linkify_in_range_scenario :
  parse_serp_analysis_output "See [Reference: 2]." ["L1"; "L2"]
  = Ok "See [<sup>2</sup>](L2).".
Proof. vm_compute. reflexivity. Qed.

(** X2 on the three sample results and a model that cites the second. *)
Lemma querySerpapi_citation_resolves_witness :
  (∃ entries,
     blank_line_joined entries
       ("[reference:1] Battery: drains fast" +:+ nl +:+ nl +:+
        "[reference:2] : charger" +:+ nl +:+ nl +:+
        "[reference:3] Sleep: ") ∧
     entries !! 1%nat
     = Some ("[reference:" +:+ str_of_int (Z.of_nat 1 + 1) +:+ "] "
               +:+ default "" None +:+ ": " +:+ default "" (Some "charger"))) ∧
  int_of_digits (str_of_int (Z.of_nat 1 + 1)) = Z.of_nat 1 + 1 ∧
  ["L1"; "L2"; "L3"] !! 1%nat = Some "L2" ∧
  (querySerpapi sample_search None None sample_prompt citing_llm
     "battery" 3 true "google" sample_state).1
  = Ok ("Use the charger, see " +:+ "[<sup>" +:+ str_of_int (Z.of_nat 1 + 1)
          +:+ "</sup>](" +:+ "L2" +:+ ")" +:+ " for details.",
        ["L1"; "L2"; "L3"]).
Proof.
  apply (querySerpapi_citation_resolves sample_search None None sample_prompt
           citing_llm "battery" 3 "google" sample_state None sample_response
           sample_results
           ("[reference:1] Battery: drains fast" +:+ nl +:+ nl +:+
            "[reference:2] : charger" +:+ nl +:+ nl +:+
            "[reference:3] Sleep: ")
           ["L1"; "L2"; "L3"] 1
           (mkSearchResult None (Some "charger") (Some "L2"))
           "L2" "Use the charger, see " " for details."
           "Use the charger, see " " for details.").
  - by left.
  - reflexivity.
  - reflexivity.
  - reflexivity.
  - exact sample_results_have_links.
  - vm_compute. reflexivity.
  - reflexivity.
  - reflexivity.
  - apply Nat.leb_le. vm_compute. reflexivity.
  - vm_compute. reflexivity.
  - vm_compute. reflexivity.
  - vm_compute. reflexivity.
Defined.

Example querySerpapi_citing_answer :
  (querySerpapi sample_search None None sample_prompt citing_llm
     "battery" 3 true "google" sample_state).1
  = Ok ("Use the charger, see [<sup>2</sup>](L2) for details.", ["L1"; "L2"; "L3"]).
Proof. vm_compute. reflexivity. Qed.

(** ** [remove_links] *)

(** X4 on a text without link. *)
Lemma remove_links_without_links_witness :
  remove_links "the battery drains fast" = "the battery drains fast".
Proof.
  apply (remove_links_without_links "the battery drains fast");
    vm_compute; reflexivity.
Defined.

(** X6 on a link that is followed by closing punctuation. *)
Lemma remove_links_until_whitespace_witness :
  remove_links ("https://" +:+ "a.org/x)," +:+ String " " "then")
  = String " " (remove_links "then") ∧
  remove_links ("http://" +:+ "a.org/x)," +:+ String " " "then")
  = String " " (remove_links "then") ∧
  remove_links ("www." +:+ "a.org/x)," +:+ String " " "then")
  = String " " (remove_links "then").
Proof.
  apply (remove_links_until_whitespace "a.org/x)," " " "then").
  - reflexivity.
  - done.
  - reflexivity.
Defined.

Example remove_links_scenario :
  remove_links "see (https://a.org/x), http://b.org and www.c.org. httpx www. end"
  = "see (  and  httpx www. end".
Proof. vm_compute. reflexivity. Qed.

(** ** SearchRestrictor *)

(** X7 on two sites. *)
Lemma restrict_to_official_sites_names_sites_witness :
  substring_of ("site:" +:+ "b.org")
    (restrict_to_official_sites "battery" ["a.org"; "b.org"]).
Proof.
  apply (proj1 (proj2 (restrict_to_official_sites_names_sites "battery"
                         ["a.org"; "b.org"]))).
  rewrite !elem_of_cons. right. by left.
Defined.

(** ** LinkFilter: edges *)

(** X8 on an excluded entry that is a scheme only. *)
Lemma link_filter_empty_fragment_witness :
  link_filter sample_urlparse sample_set_to_list
    ["https://good.org/p"; "https://bad.com/a/b"] ["https://"]
  = ∅.
Proof.
  apply (link_filter_empty_fragment sample_urlparse sample_set_to_list
           sample_set_to_list_perm
           ["https://good.org/p"; "https://bad.com/a/b"] ["https://"] "https://").
  - rewrite elem_of_cons. by left.
  - reflexivity.
Defined.

(** X9 on inputs that differ in order and repetition. *)
Lemma link_filter_set_of_inputs_witness :
  link_filter sample_urlparse sample_set_to_list
    ["https://good.org/p"; "https://bad.com/a/b"; "https://good.org/p"]
    ["http://bad.com/a"; "http://bad.com/a"]
  = link_filter sample_urlparse sample_set_to_list
      ["https://bad.com/a/b"; "https://good.org/p"] ["http://bad.com/a"].
Proof.
  apply (link_filter_set_of_inputs sample_urlparse sample_set_to_list
           sample_set_to_list_perm
           ["https://good.org/p"; "https://bad.com/a/b"; "https://good.org/p"]
           ["https://bad.com/a/b"; "https://good.org/p"]
           ["http://bad.com/a"; "http://bad.com/a"] ["http://bad.com/a"]).
  - intros x. rewrite !elem_of_cons, elem_of_nil. tauto.
  - intros e. rewrite !elem_of_cons, elem_of_nil. tauto.
Defined.

(** ** Crawling *)

(** X10 on a page and a PDF file, without and with the PDF loader, and on a
    site that cannot be reached. *)
Lemma load_htmls_pdf_gate_witness :
  load_htmls sample_fetch sample_pdf_fetch
    ["https://a.org/x"; "https://a.org/f.pdf"] [] sample_state
  = (Ok (concat [sample_load "https://a.org/x"]),
     mkState sample_assistant
       ([] ++ ((λ u, if endswith u ".pdf" then EvLoadPdf u else EvLoadHtml u)
                 <$> ["https://a.org/x"]))) ∧
  load_htmls sample_fetch sample_pdf_fetch
    ["https://a.org/x"; "https://a.org/f.pdf"] ["pdf"] sample_state
  = (Ok (concat [sample_load "https://a.org/x"; sample_pdf_load "https://a.org/f.pdf"]),
     mkState sample_assistant
       ([] ++ ((λ u, if endswith u ".pdf" then EvLoadPdf u else EvLoadHtml u)
                 <$> ["https://a.org/x"; "https://a.org/f.pdf"]))) ∧
  ∃ before u after,
    ["https://a.org/x"; "https://down.org/p"; "https://b.org/y"]
    = before ++ u :: after ∧
    unreachable_fetch u = Raise (ExternalError "timeout").
Proof.
  split; [|split].
  - apply (proj1 (load_htmls_pdf_gate sample_fetch sample_pdf_fetch
                    ["https://a.org/x"; "https://a.org/f.pdf"] [] sample_state)
             [sample_load "https://a.org/x"]).
    by repeat constructor.
  - apply (proj1 (load_htmls_pdf_gate sample_fetch sample_pdf_fetch
                    ["https://a.org/x"; "https://a.org/f.pdf"] ["pdf"] sample_state)
             [sample_load "https://a.org/x"; sample_pdf_load "https://a.org/f.pdf"]).
    by repeat constructor.
  - destruct (proj2 (load_htmls_pdf_gate unreachable_fetch sample_pdf_fetch
                       ["https://a.org/x"; "https://down.org/p"; "https://b.org/y"]
                       [] sample_state)
                (ExternalError "timeout")
                (load_htmls unreachable_fetch sample_pdf_fetch
                   ["https://a.org/x"; "https://down.org/p"; "https://b.org/y"]
                   [] sample_state).2)
      as (before & u & after & Hf & _ & Hu & _).
    + vm_compute. reflexivity.
    + exists before, u, after. split; [exact Hf|].
      revert Hu. by destruct (endswith u ".pdf") eqn:E;
        [intros Hu; vm_compute in Hu; discriminate|].
Defined.

Example load_htmls_unreachable :
  load_htmls unreachable_fetch sample_pdf_fetch
    ["https://a.org/x"; "https://down.org/p"; "https://b.org/y"] [] sample_state
  = (Raise (ExternalError "timeout"),
     mkState sample_assistant
       [EvLoadHtml "https://a.org/x"; EvLoadHtml "https://down.org/p"]).
Proof. vm_compute. reflexivity. Qed.

Lemma found_links_left :
  link_filter sample_urlparse sample_set_to_list
    (filter (λ url, ¬ existsb (endswith url) excluded_link_suffixes) found_links)
    (sample_set_to_list (list_to_set (default [] (Some ["http://bad.com/a"])
                                        ++ excluded_links_config (obj sample_state))))
  ≠ ∅.
Proof.
  apply (non_empty_inhabited_L "https://good.org/p"). vm_compute. reflexivity.
Qed.

(** X11 on the links of a search, one site being excluded. *)
Lemma web_crawl_urls_witness :
  ∃ us',
    urls (obj (web_crawl sample_urlparse sample_set_to_list sample_fetch
                 sample_pdf_fetch sample_html2text found_links
                 (Some ["http://bad.com/a"]) sample_state).2) = Some us' ∧
    NoDup us' ∧
    Z.of_nat (length us') ≤ 20 ∧
    ∀ u, u ∈ us' →
      u ∈ found_links ∧ endswith u ".png" = false ∧
      ¬ substring_of (netloc (sample_urlparse "http://bad.com/a")
                        +:+ path (sample_urlparse "http://bad.com/a")) u.
Proof.
  destruct (web_crawl_urls sample_urlparse sample_set_to_list
              sample_set_to_list_perm sample_fetch sample_pdf_fetch sample_html2text
              found_links (Some ["http://bad.com/a"]) sample_state
              (web_crawl sample_urlparse sample_set_to_list sample_fetch
                 sample_pdf_fetch sample_html2text found_links
                 (Some ["http://bad.com/a"]) sample_state).2)
    as (us' & Hus & Hnd & Hmax & Hin).
  - vm_compute. reflexivity.
  - exists us'. split; [exact Hus|]. split; [exact Hnd|]. split.
    + apply Hmax. by vm_compute.
    + intros u Hu. destruct (Hin u Hu) as (H1 & H2 & H3).
      split; [exact H1|]. split.
      * apply H2. unfold excluded_link_suffixes.
        rewrite !elem_of_cons. do 3 right. by left.
      * apply H3. apply (list_elem_of_lookup_2 _ 0%nat). reflexivity.
Defined.

Example web_crawl_sample_urls :
  urls (obj (web_crawl sample_urlparse sample_set_to_list sample_fetch
               sample_pdf_fetch sample_html2text found_links
               (Some ["http://bad.com/a"]) sample_state).2)
  = Some ["https://good.org/p"].
Proof. vm_compute. reflexivity. Qed.

(** X12 on the same links, on which the crawl returns. *)
Lemma web_crawl_returns_witness :
  ∃ fetched docs,
    log (web_crawl sample_urlparse sample_set_to_list sample_fetch sample_pdf_fetch
           sample_html2text found_links (Some ["http://bad.com/a"]) sample_state).2
    = log sample_state ++ fetched ∧
    obj (web_crawl sample_urlparse sample_set_to_list sample_fetch sample_pdf_fetch
           sample_html2text found_links (Some ["http://bad.com/a"]) sample_state).2
    = set_urls ["https://good.org/p"]
        (set_documents (sample_html2text docs) (obj sample_state)).
Proof.
  destruct (proj2 (web_crawl_returns sample_urlparse sample_set_to_list sample_fetch
                     sample_pdf_fetch sample_html2text found_links
                     (Some ["http://bad.com/a"]) sample_state) found_links_left)
    as (fetched & Hlog & _ & Hr).
  assert ((web_crawl sample_urlparse sample_set_to_list sample_fetch sample_pdf_fetch
             sample_html2text found_links (Some ["http://bad.com/a"]) sample_state).1
          = Ok ()) as E by (vm_compute; reflexivity).
  rewrite E in Hr. destruct Hr as [docs Hr].
  exists fetched, docs. split; [exact Hlog|]. rewrite Hr. f_equal.
Defined.

(** ** VectorIndexManager: the other branches *)

(** X13 before any crawl, on a file system where the directory exists. *)
Lemma create_load_vector_store_loads_witness :
  create_load_vector_store sample_split sample_contains every_path
    false false sample_state
  = (Ok (),
     mkState (set_vector_store (load_vdb "NoneDirectory" "chroma") sample_assistant)
       [EvLoadEmbeddingModel; EvVdb (load_vdb "NoneDirectory" "chroma")]).
Proof.
  apply (create_load_vector_store_loads sample_split sample_contains every_path
           sample_state).
  reflexivity.
Defined.

(** X14 on the crawled assistant. *)
Lemma create_load_vector_store_existing_witness :
  create_load_vector_store sample_split sample_contains every_path
    false true crawled_state
  = (Ok (),
     mkState
       (set_vector_store (update_vdb crawled_chunks "chroma" [Some "NoneDirectory"])
          crawled_assistant)
       [EvLoadEmbeddingModel; EvVdb (load_vdb "NoneDirectory" "chroma");
        EvVdb (update_vdb crawled_chunks "chroma" [Some "NoneDirectory"])]) ∧
  create_load_vector_store sample_split sample_contains every_path
    true false crawled_state
  = (Ok (),
     mkState
       (set_vector_store
          (create_vector_store crawled_chunks "chroma" (Some "NoneDirectory"))
          crawled_assistant)
       [EvLoadEmbeddingModel;
        EvVdb (create_vector_store crawled_chunks "chroma" (Some "NoneDirectory"))]).
Proof.
  apply (create_load_vector_store_existing sample_split sample_contains every_path
           crawled_state crawled_urls (concat (sample_load <$> crawled_urls)) false
           eq_refl eq_refl eq_refl).
Defined.

(** X15 on an assistant that has not crawled. *)
Lemma vector_store_before_crawl_witness :
  create_and_save_local sample_split sample_contains every_path
    None None true sample_state
  = (Raise TypeError, sample_state) ∧
  create_load_vector_store sample_split sample_contains every_path
    false true sample_state
  = (Raise TypeError, mkState sample_assistant [EvLoadEmbeddingModel]).
Proof.
  destruct (vector_store_before_crawl sample_split sample_contains every_path
              sample_state eq_refl) as [H1 H2].
  split.
  - exact (H1 None None true).
  - exact (H2 false true eq_refl).
Defined.

(** X16 on the crawled assistant, with an empty persist directory. *)
Lemma create_and_save_local_existing_witness :
  create_and_save_local sample_split sample_contains every_path
    (Some "data/in") (Some "") true crawled_state
  = (Ok (),
     mkState
       (set_vector_store
          (update_vdb crawled_chunks "chroma" [Some "data/in"; Some "NoneDirectory"])
          (set_config_update true crawled_assistant))
       [EvLoadEmbeddingModel;
        EvVdb (update_vdb crawled_chunks "chroma"
                 [Some "data/in"; Some "NoneDirectory"])]) ∧
  create_and_save_local sample_split sample_contains every_path
    (Some "data/in") (Some "") false crawled_state
  = (Ok (),
     mkState
       (set_vector_store
          (create_vector_store crawled_chunks "chroma" (Some "NoneDirectory"))
          crawled_assistant)
       [EvLoadEmbeddingModel;
        EvVdb (create_vector_store crawled_chunks "chroma" (Some "NoneDirectory"))]).
Proof.
  destruct (create_and_save_local_existing sample_split sample_contains every_path
              crawled_state crawled_urls (concat (sample_load <$> crawled_urls))
              (Some "data/in") (Some "") eq_refl eq_refl eq_refl)
    as (H1 & H2 & _).
  split; [exact H1|exact H2].
Defined.

(** ** [search_and_scrape]: the other outcomes *)

(** X17 with the method "serper". *)
Lemma search_and_scrape_other_method_witness :
  search_and_scrape sample_search None None sample_prompt sample_llm
    sample_urlparse sample_set_to_list sample_fetch sample_pdf_fetch
    sample_html2text sample_split sample_contains no_path
    "battery" "serper" 5 "google" sample_state
  = (Raise (AttributeError "querySerper"), sample_state).
Proof.
  apply (search_and_scrape_other_method sample_search None None sample_prompt
           sample_llm sample_urlparse sample_set_to_list sample_fetch
           sample_pdf_fetch sample_html2text sample_split sample_contains no_path
           "battery" "serper" 5 "google" sample_state).
  done.
Defined.

(** X18 on the three sample results. *)
Lemma search_and_scrape_builds_store_witness :
  ∃ us' created,
    obj (search_and_scrape sample_search None None sample_prompt sample_llm
           sample_urlparse sample_set_to_list sample_fetch sample_pdf_fetch
           sample_html2text sample_split sample_contains no_path
           "battery" "serpapi" 3 "google" sample_state).2
    = set_vector_store created
        (set_urls us' (set_documents (concat (sample_load <$> us')) sample_assistant)) ∧
    log (search_and_scrape sample_search None None sample_prompt sample_llm
           sample_urlparse sample_set_to_list sample_fetch sample_pdf_fetch
           sample_html2text sample_split sample_contains no_path
           "battery" "serpapi" 3 "google" sample_state).2
    = log (querySerpapi sample_search None None sample_prompt sample_llm
             "battery" 3 false "google" sample_state).2
        ++ (EvLoadHtml <$> us')
        ++ [EvLoadEmbeddingModel; EvVdb created; EvSetRetrievalQaChain true] ∧
    NoDup us' ∧ ∀ u, u ∈ us' → u ∈ ["L1"; "L2"; "L3"].
Proof.
  destruct (search_and_scrape_builds_store sample_search None None sample_prompt
              sample_llm sample_urlparse sample_set_to_list sample_set_to_list_perm
              sample_fetch sample_pdf_fetch sample_html2text sample_split
              sample_contains no_path "battery" 3 "google" sample_state
              (querySerpapi sample_search None None sample_prompt sample_llm
                 "battery" 3 false "google" sample_state).2
              (search_and_scrape sample_search None None sample_prompt sample_llm
                 sample_urlparse sample_set_to_list sample_fetch sample_pdf_fetch
                 sample_html2text sample_split sample_contains no_path
                 "battery" "serpapi" 3 "google" sample_state).2
              ("[reference:1] Battery: drains fast" +:+ nl +:+ nl +:+
               "[reference:2] : charger" +:+ nl +:+ nl +:+
               "[reference:3] Sleep: ")
              ["L1"; "L2"; "L3"] None)
    as (us' & pages & _ & Hp & Hobj & Hlog & Hnd & Hin).
  - vm_compute. reflexivity.
  - done.
  - vm_compute. reflexivity.
  - cbv zeta in Hp, Hobj, Hlog.
    assert (∀ u, u ∈ us' → endswith u ".pdf" = false) as Hpdf.
    { intros u Hu. apply Hin in Hu. revert Hu. rewrite !elem_of_cons, elem_of_nil.
      by intros [-> | [-> | [-> | []]]]. }
    assert (bool_decide ("pdf" ∈ extra_loaders
                           (obj (querySerpapi sample_search None None sample_prompt
                                   sample_llm "battery" 3 false "google"
                                   sample_state).2)) = false) as Eb
      by (vm_compute; reflexivity).
    rewrite Eb in Hp, Hlog.
    assert (filter (λ u, endswith u ".pdf" = false) us' = us') as Ef.
    { clear Hp Hobj Hlog Hnd Hin. induction us' as [|u us' IH]; [done|].
      rewrite filter_cons_True by (apply Hpdf; by left).
      f_equal. apply IH. intros v Hv. apply Hpdf. by right. }
    rewrite Ef in Hp, Hlog.
    assert (pages = sample_load <$> us') as ->.
    { clear Hobj Hlog Hnd Hin Ef. induction Hp as [|u d us' pages Hu _ IH]; [done|].
      rewrite (Hpdf u) in Hu by (by left). injection Hu as <-.
      cbn [fmap list_fmap]. f_equal. apply IH. intros v Hv. apply Hpdf. by right. }
    eexists us', _. split; [exact Hobj|]. split; [|by split].
    rewrite Hlog. do 2 f_equal. apply list_fmap_ext. intros ? u Hu.
    by rewrite (Hpdf u) by (by eapply list_elem_of_lookup_2).
Defined.

(** ** RetrievalCitationRemapper: the other outcomes *)

(** X19 on an answer without citation. *)
Lemma parse_retrieval_output_no_citation_witness :
  parse_retrieval_output sample_set_to_list retrieval_plain crawled_state
  = (Ok "No citation here.", crawled_state).
Proof.
  apply (parse_retrieval_output_no_citation sample_set_to_list retrieval_plain
           crawled_state crawled_urls ["https://b.org/y"] "No citation here.").
  - reflexivity.
  - vm_compute. reflexivity.
  - vm_compute. reflexivity.
  - intros link. unfold crawled_urls. rewrite !elem_of_cons, elem_of_nil.
    intros [-> | [-> | [-> | []]]]; vm_compute; reflexivity.
Defined.

(** X20 on an answer that cites a site that was not retrieved, and on one
    whose three sites were all retrieved. *)
Lemma parse_retrieval_output_only_KeyError_witness :
  (∃ link, KeyError "https://a.org/x" = KeyError link ∧
           link ∈ crawled_urls ∧ link ∉ ["https://b.org/y"; "https://c.org/z"]) ∧
  ∃ out,
    parse_retrieval_output sample_set_to_list
      (mkRetrievalResult "See [reference:1]." (concat (sample_load <$> crawled_urls)))
      crawled_state
    = (Ok out, crawled_state).
Proof.
  split.
  - apply (proj1 (parse_retrieval_output_only_KeyError sample_set_to_list
                    sample_set_to_list_perm retrieval_of_two crawled_state
                    crawled_urls ["https://b.org/y"; "https://c.org/z"]
                    "See [<sup>1</sup>](https://a.org/x) and [<sup>3</sup>](https://c.org/z)."
                    eq_refl eq_refl eq_refl)
             (KeyError "https://a.org/x") crawled_state).
    vm_compute. reflexivity.
  - assert (document_sources (concat (sample_load <$> crawled_urls))
            = Ok crawled_urls) as Hsources by (vm_compute; reflexivity).
    apply (proj2 (parse_retrieval_output_only_KeyError sample_set_to_list
                    sample_set_to_list_perm
                    (mkRetrievalResult "See [reference:1]."
                       (concat (sample_load <$> crawled_urls)))
                    crawled_state crawled_urls crawled_urls
                    "See [<sup>1</sup>](https://a.org/x)."
                    eq_refl eq_refl Hsources)).
    done.
Defined.

(** X21 on an assistant that has not crawled. *)
Lemma parse_retrieval_output_before_crawl_witness :
  ∃ e,
    parse_retrieval_output sample_set_to_list retrieval_of_two sample_state
    = (Raise e, sample_state).
Proof.
  apply (parse_retrieval_output_before_crawl sample_set_to_list retrieval_of_two
           sample_state).
  reflexivity.
Defined.

(** ** The sources of a turn in [streamlit/app.py] *)

(** X22 on two sources. *)
Lemma sources_text_round_trip_witness :
  sources_lines (sources_text ["https://a.org/x"; "https://b.org/y"]) !! 1%nat
  = Some (font_grey (str_of_int (Z.of_nat 1 + 1) +:+ ". " +:+ "https://b.org/y")
            +:+ "  ").
Proof.
  apply (proj2 (sources_text_round_trip ["https://a.org/x"; "https://b.org/y"]
                  ltac:(intros source; rewrite !elem_of_cons, elem_of_nil;
                        intros [-> | [-> | []]]; vm_compute; reflexivity))
           1%nat "https://b.org/y").
  reflexivity.
Defined.

Example sources_text_scenario :
  sources_lines (sources_text ["https://a.org/x"; "https://b.org/y"])
  = [font_grey "1. https://a.org/x" +:+ "  ";
     font_grey "2. https://b.org/y" +:+ "  "].
Proof. vm_compute. reflexivity. Qed.

(** X23 on three lines: a second row is drawn, and it is empty. *)
Lemma sources_grid_cells_witness :
  last (sources_grid ["a"; "b"; "c"]) = Some [] ∧
  [font_grey "d"] = font_grey <$> take 3 (drop (1 * 3) ["a"; "b"; "c"; "d"]).
Proof.
  split.
  - apply (proj2 (proj2 (proj2 (sources_grid_cells ["a"; "b"; "c"])))).
    reflexivity.
  - apply (proj1 (proj2 (sources_grid_cells ["a"; "b"; "c"; "d"])) 1%nat).
    vm_compute. reflexivity.
Defined.

Example sources_grid_scenario :
  sources_grid ["a"; "b"; "c"; "d"]
  = [[font_grey "a"; font_grey "b"; font_grey "c"]; [font_grey "d"]].
Proof. vm_compute. reflexivity. Qed.

(** ** [basic_call] *)

(** X24 on the three sample results, outside a conversation and with a
    memory that holds nothing yet. *)
Lemma basic_call_serpapi_witness :
  basic_call sample_search None None sample_prompt citing_llm sample_memory_save
    "battery" (Some "battery charger") "serpapi" 3 "google" false
    (mkConversation sample_state (Some []))
  = (Ok ("Use the charger, see [<sup>2</sup>](L2) for details.", ["L1"; "L2"; "L3"]),
     mkConversation
       (querySerpapi sample_search None None sample_prompt citing_llm
          "battery charger" 3 true "google" sample_state).2
       (Some [])) ∧
  (basic_call sample_search None None sample_prompt citing_llm sample_memory_save
     "battery" (Some "battery charger") "serpapi" 3 "google" true
     (mkConversation sample_state (Some []))).2
  = mkConversation
      (querySerpapi sample_search None None sample_prompt citing_llm
         "battery charger" 3 true "google" sample_state).2
      (Some [("battery", "Use the charger, see [<sup>2</sup>](L2) for details.")]).
Proof.
  destruct (basic_call_serpapi sample_search None None sample_prompt citing_llm
              sample_memory_save "battery" (Some "battery charger") 3 "google"
              (mkConversation sample_state (Some []))
              (querySerpapi sample_search None None sample_prompt citing_llm
                 "battery charger" 3 true "google" sample_state).2
              "Use the charger, see [<sup>2</sup>](L2) for details."
              ["L1"; "L2"; "L3"])
    as (H1 & _ & H3).
  - vm_compute. reflexivity.
  - split; [exact H1|]. by rewrite (H3 [] eq_refl).
Defined.


(** X26 with the method "openserp", and with an unknown method in a
    conversation without memory. *)
Lemma basic_call_other_method_witness :
  basic_call sample_search None None sample_prompt sample_llm sample_memory_save
    "battery" None "openserp" 5 "google" false (mkConversation sample_state None)
  = (Raise (AttributeError "queryOpenSerp"), mkConversation sample_state None) ∧
  basic_call sample_search None None sample_prompt sample_llm sample_memory_save
    "battery" None "s" 5 "google" true (mkConversation sample_state None)
  = (Raise (AttributeError "save_context"), mkConversation sample_state None).
Proof.
  split.
  - by apply (basic_call_other_method sample_search None None sample_prompt
                sample_llm sample_memory_save "battery" None "openserp" 5 "google"
                false (mkConversation sample_state None)).
  - by apply (basic_call_other_method sample_search None None sample_prompt
                sample_llm sample_memory_save "battery" None "s" 5 "google"
                true (mkConversation sample_state None)).
Defined.

(** ** [handle_user_input] *)

Lemma sample_session_aligned : aligned sample_session [].
Proof. by repeat split. Qed.

Lemma session_of_one_turn_aligned : aligned session_of_one_turn [sample_turn].
Proof. by repeat split. Qed.

(** X27 on a first question, which is answered. *)
Lemma handle_user_input_aligned_witness :
  settings
    (handle_user_input sample_search None None sample_prompt sample_llm
       sample_set_to_list sample_memory_variables sample_memory_save
       sample_condensed_prompt sample_related_chain sample_qa_chain
       (Some "battery") sample_session).2
  = settings sample_session ∧
  ∃ question reply listed related,
    Some "battery" = Some question ∧ question ≠ "" ∧
    aligned
      (handle_user_input sample_search None None sample_prompt sample_llm
         sample_set_to_list sample_memory_variables sample_memory_save
         sample_condensed_prompt sample_related_chain sample_qa_chain
         (Some "battery") sample_session).2
      ([] ++ [(question, reply,
               sources_text (sample_set_to_list (list_to_set listed)), related)]).
Proof.
  destruct (handle_user_input_aligned sample_search None None sample_prompt sample_llm
              sample_set_to_list sample_memory_variables sample_memory_save
              sample_condensed_prompt sample_related_chain sample_qa_chain
              (Some "battery") sample_session []) as [H1 H2].
  - exact sample_session_aligned.
  - rewrite !elem_of_cons. right. by left.
  - assert ((handle_user_input sample_search None None sample_prompt sample_llm
               sample_set_to_list sample_memory_variables sample_memory_save
               sample_condensed_prompt sample_related_chain sample_qa_chain
               (Some "battery") sample_session).1 = Ok ()) as E
      by (vm_compute; reflexivity).
    rewrite E in H2. split; [exact H1|].
    destruct H2 as [[[?|?] _]|(q & reply & listed & related & Hq & Hne & Hal & _)];
      [done|done|].
    by exists q, reply, listed, related.
Defined.

Example handle_user_input_first_turn :
  displayed_turns
    (handle_user_input sample_search None None sample_prompt sample_llm
       sample_set_to_list sample_memory_variables sample_memory_save
       sample_condensed_prompt sample_related_chain sample_qa_chain
       (Some "battery") sample_session).2
  = [("battery", "No information.",
      sources_text (sample_set_to_list (list_to_set ["L1"; "L2"; "L3"])),
      ["How to charge?"])].
Proof. vm_compute. reflexivity. Qed.

(** X28 on a session of one turn. *)
Lemma displayed_turns_aligned_witness :
  displayed_turns session_of_one_turn = [sample_turn].
Proof.
  apply (displayed_turns_aligned session_of_one_turn [sample_turn]).
  exact session_of_one_turn_aligned.
Defined.

(** X29 on a session whose method is neither of the two. *)
Lemma handle_user_input_other_method_witness :
  handle_user_input sample_search None None sample_prompt sample_llm
    sample_set_to_list sample_memory_variables sample_memory_save
    sample_condensed_prompt sample_related_chain sample_qa_chain
    (Some "battery") other_session
  = (Raise (UnboundLocalError "response"),
     set_chat_history (chat_history other_session ++ ["battery"]) other_session).
Proof.
  destruct (handle_user_input_other_method sample_search None None sample_prompt
              sample_llm sample_set_to_list sample_memory_variables
              sample_memory_save sample_condensed_prompt sample_related_chain
              sample_qa_chain "battery" other_session [])
    as [H _].
  - rewrite !elem_of_cons, elem_of_nil. by intros [|[|]].
  - done.
  - exact H.
Defined.

(** X30 on a first question, with a memory that is not set. *)
Lemma handle_user_input_basic_turn_witness :
  (handle_user_input sample_search None None sample_prompt citing_llm
     sample_set_to_list sample_memory_variables sample_memory_save
     sample_condensed_prompt sample_related_chain sample_qa_chain
     (Some "battery") sample_session).1 = Ok () ∧
  memory
    (search_assistant
       (handle_user_input sample_search None None sample_prompt citing_llm
          sample_set_to_list sample_memory_variables sample_memory_save
          sample_condensed_prompt sample_related_chain sample_qa_chain
          (Some "battery") sample_session).2)
  = Some [("battery", "Use the charger, see [<sup>2</sup>](L2) for details.")] ∧
  length (sources_lines
            (sources_text (sample_set_to_list (list_to_set ["L1"; "L2"; "L3"]))))
  = size (list_to_set ["L1"; "L2"; "L3"] : gset string).
Proof.
  destruct (handle_user_input_basic_turn sample_search None None sample_prompt
              citing_llm sample_set_to_list sample_set_to_list_perm
              sample_memory_variables sample_memory_save sample_condensed_prompt
              sample_related_chain sample_qa_chain "battery" sample_session []
              "Use the charger, see [reference:2] for details."
              "Use the charger, see [<sup>2</sup>](L2) for details."
              ["L1"; "L2"; "L3"]
              (querySerpapi sample_search None None sample_prompt citing_llm
                 "Use the charger, see [reference:2] for details." 3 true "google"
                 (mkState sample_assistant
                    [EvLLM (sample_condensed_prompt (sample_memory_variables [])
                              "battery")])).2
              (Some ["How to charge?"]))
    as [H1 H2].
  - reflexivity.
  - reflexivity.
  - done.
  - reflexivity.
  - reflexivity.
  - vm_compute. reflexivity.
  - reflexivity.
  - rewrite H1. split; [reflexivity|]. split; [reflexivity|].
    apply H2. intros l. rewrite !elem_of_cons, elem_of_nil.
    intros [-> | [-> | [-> | []]]]; vm_compute; reflexivity.
Defined.
